(** * SMS marketing backend: A/B test engine, bulk sender and delivery webhook

    A shallow embedding of
      - [app/services/ab_testing_service.py]  (class [ABTestingService]),
      - [app/services/sms_service.py]         ([SMSService.send_sms], [send_bulk_sms]),
      - [app/routers/webhooks.py]             ([handle_delivery_report]),
    over the ORM models of [app/models/ab_testing.py], [message.py] and
    [campaign.py].

    Python [float]s are IEEE binary64 numbers and are modelled by Rocq's
    primitive floats, so every rate, p-value and percentage below is the
    bit-exact value CPython computes.  Integer columns are [Z].  The SQLAlchemy
    session is an explicit pair of table sets: the rows as last committed and
    the rows as the session's objects currently hold them. *)

From Stdlib Require Import ZArith QArith Qround Floats Uint63 List Lia Bool.
From Stdlib Require Import Permutation.
From stdpp Require Import base option list strings gmap pretty.

Set Warnings "-inexact-float".
Local Open Scope Z_scope.

(** ** Python numerics and exceptions *)

Module Py.

(** The exceptions the modelled code can raise, each with its [str()]. *)
Inductive exn : Type :=
| ZeroDivisionError (msg : string)
| ValueError (msg : string)
| OverflowError (msg : string)
| AttributeError (msg : string)
| TimeoutError (msg : string)
| TypeError (msg : string).

Definition str (e : exn) : string :=
  match e with
  | ZeroDivisionError m | ValueError m | OverflowError m
  | AttributeError m | TimeoutError m | TypeError m => m
  end.

(** [str()] of the [TypeError] that the difference of a [datetime] without
    a time zone and one with a time zone raises. *)
Definition naive_minus_aware : string :=
  "can't subtract offset-naive and offset-aware datetimes".

(** A computation that returns or raises. *)
Definition Exc (A : Type) : Type := (exn + A)%type.

Definition ret {A} (a : A) : Exc A := inr a.
Definition raise {A} (e : exn) : Exc A := inl e.
Definition bind {A B} (m : Exc A) (k : A -> Exc B) : Exc B :=
  match m with
  | inl e => inl e
  | inr a => k a
  end.

(** [float(n)] for an [int] that fits a database INTEGER column: exact. *)
Definition of_int (n : Z) : float :=
  if n <? 0 then PrimFloat.opp (PrimFloat.of_uint63 (Uint63.of_Z (- n)))
  else PrimFloat.of_uint63 (Uint63.of_Z n).

(** [a / b] on two [int]s, [b] not zero: CPython's [long_true_divide] returns
    a zero of the quotient's sign for a zero dividend and the correctly rounded
    quotient otherwise, which for operands that convert exactly is the
    quotient of the two conversions. *)
Definition int_quotient (a b : Z) : float :=
  if a =? 0 then (if b <? 0 then (-0)%float else 0%float)
  else PrimFloat.div (of_int a) (of_int b).

(** [a / b] on two [int]s: true division. *)
Definition int_truediv (a b : Z) : Exc float :=
  if b =? 0 then raise (ZeroDivisionError "division by zero")
  else ret (int_quotient a b).

(** [x / y] on two [float]s: Python raises where IEEE would give inf or nan. *)
Definition float_truediv (x y : float) : Exc float :=
  if PrimFloat.eqb y 0%float then raise (ZeroDivisionError "float division by zero")
  else ret (PrimFloat.div x y).

(** [math.sqrt]: a domain error below zero. *)
Definition math_sqrt (x : float) : Exc float :=
  if PrimFloat.ltb x 0%float then raise (ValueError "math domain error")
  else ret (PrimFloat.sqrt x).

(** [int(x)] on a [float]: truncation toward zero; inf and nan raise. *)
Definition int_of_float (x : float) : Exc Z :=
  match Prim2SF x with
  | S754_zero _ => ret 0
  | S754_finite s m e =>
      let v := if 0 <=? e then Z.pos m * 2 ^ e else Z.pos m / 2 ^ (- e) in
      ret (if s then - v else v)
  | S754_infinity _ => raise (OverflowError "cannot convert float infinity to integer")
  | S754_nan => raise (ValueError "cannot convert float NaN to integer")
  end.

(** The rational number a finite float stands for, and its floor. *)
Definition to_Q (x : float) : option Q :=
  match Prim2SF x with
  | S754_zero _ => Some (inject_Z 0)
  | S754_finite s m e =>
      let v := if 0 <=? e then inject_Z (Z.pos m * 2 ^ e)
               else Qmake (Z.pos m) (Z.to_pos (2 ^ (- e))) in
      Some (if s then Qopp v else v)
  | _ => None
  end.

Definition floor (x : float) : option Z := Qfloor <$> to_Q x.

(** Slices [l[:k]] and [l[k:]]: a negative index counts from the end, and an
    index past either end is clamped. *)
Definition slice_index {A} (l : list A) (k : Z) : nat :=
  let n := Z.of_nat (length l) in
  Z.to_nat (if k <? 0 then Z.max 0 (n + k) else Z.min k n).

Definition slice_to {A} (l : list A) (k : Z) : list A := firstn (slice_index l k) l.
Definition slice_from {A} (l : list A) (k : Z) : list A := skipn (slice_index l k) l.

(** [range(0, n, step)] for a positive step. *)
Definition range_step (n step : nat) : list nat :=
  (λ i, i * step)%nat <$> seq 0 (Nat.div (n + (step - 1)) step).

(** [s.lower()] on ASCII text. *)
Definition lower_ascii (c : Ascii.ascii) : Ascii.ascii :=
  let n := Ascii.nat_of_ascii c in
  if ((65 <=? n) && (n <=? 90))%nat then Ascii.ascii_of_nat (n + 32) else c.

Fixpoint lower (s : string) : string :=
  match s with
  | EmptyString => EmptyString
  | String c r => String (lower_ascii c) (lower r)
  end.

End Py.

Notation "'let!' x ':=' m 'in' k" := (Py.bind m (fun x => k))
  (at level 10, x name, m at level 100, k at level 200).

(** ** The ORM models

    Each mapped class is a record with the columns the modelled functions read
    or write, under the column names of the source.  Free-text columns that no
    modelled function reads (descriptions, creation stamps) are left out. *)

(** Timestamps: UTC times in seconds, as [datetime.utcnow()] gives them.
    Whether a timestamp read back from a DateTime(timezone=True) column carries
    a time zone is the database's: see [aware_timestamps] below. *)
Definition datetime : Type := Z.

Inductive TestStatus : Type := DRAFT | RUNNING | COMPLETED | PAUSED | CANCELLED.
Inductive TestType : Type := MESSAGE_CONTENT | SEND_TIME | SENDER_ID | SUBJECT_LINE.

#[global] Instance TestStatus_eq_dec : EqDecision TestStatus.
Proof. solve_decision. Defined.
#[global] Instance TestType_eq_dec : EqDecision TestType.
Proof. solve_decision. Defined.

(** [app/models/contact.py], class [Contact]. *)
Module Contact.

Record t : Type := mk {
  id : Z;
  user_id : Z;
  phone : string
}.

End Contact.

(** [app/models/ab_testing.py], class [ABTestCampaign]. *)
Module ABTestCampaign.

Record t : Type := mk {
  id : Z;
  user_id : Z;
  name : string;
  test_type : TestType;
  status : TestStatus;
  traffic_split : float;
  minimum_sample_size : Z;
  confidence_level : float;
  variant_a_recipients : Z;
  variant_b_recipients : Z;
  variant_a_delivered : Z;
  variant_b_delivered : Z;
  variant_a_opened : Z;
  variant_b_opened : Z;
  variant_a_clicked : Z;
  variant_b_clicked : Z;
  variant_a_replied : Z;
  variant_b_replied : Z;
  variant_a_conversion_rate : float;
  variant_b_conversion_rate : float;
  statistical_significance : float;
  winner_variant : option string;
  started_at : option datetime;
  completed_at : option datetime
}.

Definition set_status (v : TestStatus) (r : t) : t :=
  mk (id r) (user_id r) (name r) (test_type r) v (traffic_split r)
    (minimum_sample_size r) (confidence_level r) (variant_a_recipients r)
    (variant_b_recipients r) (variant_a_delivered r) (variant_b_delivered r)
    (variant_a_opened r) (variant_b_opened r) (variant_a_clicked r)
    (variant_b_clicked r) (variant_a_replied r) (variant_b_replied r)
    (variant_a_conversion_rate r) (variant_b_conversion_rate r)
    (statistical_significance r) (winner_variant r) (started_at r) (completed_at r).

Definition set_started_at (v : option datetime) (r : t) : t :=
  mk (id r) (user_id r) (name r) (test_type r) (status r) (traffic_split r)
    (minimum_sample_size r) (confidence_level r) (variant_a_recipients r)
    (variant_b_recipients r) (variant_a_delivered r) (variant_b_delivered r)
    (variant_a_opened r) (variant_b_opened r) (variant_a_clicked r)
    (variant_b_clicked r) (variant_a_replied r) (variant_b_replied r)
    (variant_a_conversion_rate r) (variant_b_conversion_rate r)
    (statistical_significance r) (winner_variant r) v (completed_at r).

Definition set_minimum_sample_size (v : Z) (r : t) : t :=
  mk (id r) (user_id r) (name r) (test_type r) (status r) (traffic_split r) v
    (confidence_level r) (variant_a_recipients r) (variant_b_recipients r)
    (variant_a_delivered r) (variant_b_delivered r) (variant_a_opened r)
    (variant_b_opened r) (variant_a_clicked r) (variant_b_clicked r)
    (variant_a_replied r) (variant_b_replied r) (variant_a_conversion_rate r)
    (variant_b_conversion_rate r) (statistical_significance r) (winner_variant r)
    (started_at r) (completed_at r).

Definition set_variant_a_recipients (v : Z) (r : t) : t :=
  mk (id r) (user_id r) (name r) (test_type r) (status r) (traffic_split r)
    (minimum_sample_size r) (confidence_level r) v (variant_b_recipients r)
    (variant_a_delivered r) (variant_b_delivered r) (variant_a_opened r)
    (variant_b_opened r) (variant_a_clicked r) (variant_b_clicked r)
    (variant_a_replied r) (variant_b_replied r) (variant_a_conversion_rate r)
    (variant_b_conversion_rate r) (statistical_significance r) (winner_variant r)
    (started_at r) (completed_at r).

Definition set_variant_b_recipients (v : Z) (r : t) : t :=
  mk (id r) (user_id r) (name r) (test_type r) (status r) (traffic_split r)
    (minimum_sample_size r) (confidence_level r) (variant_a_recipients r) v
    (variant_a_delivered r) (variant_b_delivered r) (variant_a_opened r)
    (variant_b_opened r) (variant_a_clicked r) (variant_b_clicked r)
    (variant_a_replied r) (variant_b_replied r) (variant_a_conversion_rate r)
    (variant_b_conversion_rate r) (statistical_significance r) (winner_variant r)
    (started_at r) (completed_at r).

Definition set_variant_a_delivered (v : Z) (r : t) : t :=
  mk (id r) (user_id r) (name r) (test_type r) (status r) (traffic_split r)
    (minimum_sample_size r) (confidence_level r) (variant_a_recipients r)
    (variant_b_recipients r) v (variant_b_delivered r) (variant_a_opened r)
    (variant_b_opened r) (variant_a_clicked r) (variant_b_clicked r)
    (variant_a_replied r) (variant_b_replied r) (variant_a_conversion_rate r)
    (variant_b_conversion_rate r) (statistical_significance r) (winner_variant r)
    (started_at r) (completed_at r).

Definition set_variant_b_delivered (v : Z) (r : t) : t :=
  mk (id r) (user_id r) (name r) (test_type r) (status r) (traffic_split r)
    (minimum_sample_size r) (confidence_level r) (variant_a_recipients r)
    (variant_b_recipients r) (variant_a_delivered r) v (variant_a_opened r)
    (variant_b_opened r) (variant_a_clicked r) (variant_b_clicked r)
    (variant_a_replied r) (variant_b_replied r) (variant_a_conversion_rate r)
    (variant_b_conversion_rate r) (statistical_significance r) (winner_variant r)
    (started_at r) (completed_at r).

Definition set_variant_a_opened (v : Z) (r : t) : t :=
  mk (id r) (user_id r) (name r) (test_type r) (status r) (traffic_split r)
    (minimum_sample_size r) (confidence_level r) (variant_a_recipients r)
    (variant_b_recipients r) (variant_a_delivered r) (variant_b_delivered r) v
    (variant_b_opened r) (variant_a_clicked r) (variant_b_clicked r)
    (variant_a_replied r) (variant_b_replied r) (variant_a_conversion_rate r)
    (variant_b_conversion_rate r) (statistical_significance r) (winner_variant r)
    (started_at r) (completed_at r).

Definition set_variant_b_opened (v : Z) (r : t) : t :=
  mk (id r) (user_id r) (name r) (test_type r) (status r) (traffic_split r)
    (minimum_sample_size r) (confidence_level r) (variant_a_recipients r)
    (variant_b_recipients r) (variant_a_delivered r) (variant_b_delivered r)
    (variant_a_opened r) v (variant_a_clicked r) (variant_b_clicked r)
    (variant_a_replied r) (variant_b_replied r) (variant_a_conversion_rate r)
    (variant_b_conversion_rate r) (statistical_significance r) (winner_variant r)
    (started_at r) (completed_at r).

Definition set_variant_a_clicked (v : Z) (r : t) : t :=
  mk (id r) (user_id r) (name r) (test_type r) (status r) (traffic_split r)
    (minimum_sample_size r) (confidence_level r) (variant_a_recipients r)
    (variant_b_recipients r) (variant_a_delivered r) (variant_b_delivered r)
    (variant_a_opened r) (variant_b_opened r) v (variant_b_clicked r)
    (variant_a_replied r) (variant_b_replied r) (variant_a_conversion_rate r)
    (variant_b_conversion_rate r) (statistical_significance r) (winner_variant r)
    (started_at r) (completed_at r).

Definition set_variant_b_clicked (v : Z) (r : t) : t :=
  mk (id r) (user_id r) (name r) (test_type r) (status r) (traffic_split r)
    (minimum_sample_size r) (confidence_level r) (variant_a_recipients r)
    (variant_b_recipients r) (variant_a_delivered r) (variant_b_delivered r)
    (variant_a_opened r) (variant_b_opened r) (variant_a_clicked r) v
    (variant_a_replied r) (variant_b_replied r) (variant_a_conversion_rate r)
    (variant_b_conversion_rate r) (statistical_significance r) (winner_variant r)
    (started_at r) (completed_at r).

Definition set_variant_a_replied (v : Z) (r : t) : t :=
  mk (id r) (user_id r) (name r) (test_type r) (status r) (traffic_split r)
    (minimum_sample_size r) (confidence_level r) (variant_a_recipients r)
    (variant_b_recipients r) (variant_a_delivered r) (variant_b_delivered r)
    (variant_a_opened r) (variant_b_opened r) (variant_a_clicked r)
    (variant_b_clicked r) v (variant_b_replied r) (variant_a_conversion_rate r)
    (variant_b_conversion_rate r) (statistical_significance r) (winner_variant r)
    (started_at r) (completed_at r).

Definition set_variant_b_replied (v : Z) (r : t) : t :=
  mk (id r) (user_id r) (name r) (test_type r) (status r) (traffic_split r)
    (minimum_sample_size r) (confidence_level r) (variant_a_recipients r)
    (variant_b_recipients r) (variant_a_delivered r) (variant_b_delivered r)
    (variant_a_opened r) (variant_b_opened r) (variant_a_clicked r)
    (variant_b_clicked r) (variant_a_replied r) v (variant_a_conversion_rate r)
    (variant_b_conversion_rate r) (statistical_significance r) (winner_variant r)
    (started_at r) (completed_at r).

Definition set_variant_a_conversion_rate (v : float) (r : t) : t :=
  mk (id r) (user_id r) (name r) (test_type r) (status r) (traffic_split r)
    (minimum_sample_size r) (confidence_level r) (variant_a_recipients r)
    (variant_b_recipients r) (variant_a_delivered r) (variant_b_delivered r)
    (variant_a_opened r) (variant_b_opened r) (variant_a_clicked r)
    (variant_b_clicked r) (variant_a_replied r) (variant_b_replied r) v
    (variant_b_conversion_rate r) (statistical_significance r) (winner_variant r)
    (started_at r) (completed_at r).

Definition set_variant_b_conversion_rate (v : float) (r : t) : t :=
  mk (id r) (user_id r) (name r) (test_type r) (status r) (traffic_split r)
    (minimum_sample_size r) (confidence_level r) (variant_a_recipients r)
    (variant_b_recipients r) (variant_a_delivered r) (variant_b_delivered r)
    (variant_a_opened r) (variant_b_opened r) (variant_a_clicked r)
    (variant_b_clicked r) (variant_a_replied r) (variant_b_replied r)
    (variant_a_conversion_rate r) v (statistical_significance r) (winner_variant r)
    (started_at r) (completed_at r).

Definition set_statistical_significance (v : float) (r : t) : t :=
  mk (id r) (user_id r) (name r) (test_type r) (status r) (traffic_split r)
    (minimum_sample_size r) (confidence_level r) (variant_a_recipients r)
    (variant_b_recipients r) (variant_a_delivered r) (variant_b_delivered r)
    (variant_a_opened r) (variant_b_opened r) (variant_a_clicked r)
    (variant_b_clicked r) (variant_a_replied r) (variant_b_replied r)
    (variant_a_conversion_rate r) (variant_b_conversion_rate r) v (winner_variant r)
    (started_at r) (completed_at r).

Definition set_winner_variant (v : option string) (r : t) : t :=
  mk (id r) (user_id r) (name r) (test_type r) (status r) (traffic_split r)
    (minimum_sample_size r) (confidence_level r) (variant_a_recipients r)
    (variant_b_recipients r) (variant_a_delivered r) (variant_b_delivered r)
    (variant_a_opened r) (variant_b_opened r) (variant_a_clicked r)
    (variant_b_clicked r) (variant_a_replied r) (variant_b_replied r)
    (variant_a_conversion_rate r) (variant_b_conversion_rate r)
    (statistical_significance r) v (started_at r) (completed_at r).

End ABTestCampaign.

(** [app/models/ab_testing.py], class [ABTestVariant]. *)
Module ABTestVariant.

Record t : Type := mk {
  id : Z;
  campaign_id : Z;
  variant_name : string;
  variant_type : TestType;
  message_content : option string;
  sender_id : option string;
  send_time : option datetime;
  subject_line : option string;
  recipients_count : Z;
  delivered_count : Z;
  opened_count : Z;
  clicked_count : Z;
  replied_count : Z;
  conversion_rate : float
}.

Definition set_id (v : Z) (r : t) : t :=
  mk v (campaign_id r) (variant_name r) (variant_type r) (message_content r)
    (sender_id r) (send_time r) (subject_line r) (recipients_count r)
    (delivered_count r) (opened_count r) (clicked_count r) (replied_count r)
    (conversion_rate r).

Definition set_recipients_count (v : Z) (r : t) : t :=
  mk (id r) (campaign_id r) (variant_name r) (variant_type r) (message_content r)
    (sender_id r) (send_time r) (subject_line r) v (delivered_count r)
    (opened_count r) (clicked_count r) (replied_count r) (conversion_rate r).

End ABTestVariant.

(** [app/models/ab_testing.py], class [ABTestRecipient]. *)
Module ABTestRecipient.

Record t : Type := mk {
  id : Z;
  campaign_id : Z;
  variant_id : Z;
  contact_id : Z;
  is_delivered : bool;
  is_opened : bool;
  is_clicked : bool;
  is_replied : bool
}.

End ABTestRecipient.

(** One analysis snapshot, [ABTestResult].  The three JSON text columns are kept
    as the values that [json.dumps] is given. *)
Module ABTestResult.

Record metrics : Type := mk_metrics {
  recipients : Z;
  conversions : Z;
  conversion_rate : float
}.

Record t : Type := mk {
  campaign_id : Z;
  variant_a_metrics : metrics;
  variant_b_metrics : metrics;
  statistical_significance : float;
  confidence_interval : float * float;
  p_value : float;
  effect_size : float;
  winner_variant : option string;
  improvement_percentage : float;
  sample_size : Z;
  test_duration_hours : float
}.

End ABTestResult.

(** [app/models/message.py]. *)
Inductive MessageStatus : Type :=
| MSG_PENDING | MSG_SENT | MSG_DELIVERED | MSG_FAILED | MSG_RECEIVED.

#[global] Instance MessageStatus_eq_dec : EqDecision MessageStatus.
Proof. solve_decision. Defined.

Module Message.

Record t : Type := mk {
  id : Z;
  campaign_id : option Z;
  contact_id : option Z;
  recipient : string;
  content : string;
  status : MessageStatus;
  sent_at : option datetime;
  delivered_at : option datetime;
  error_message : option string;
  message_id : option string;   (* "External message ID from provider" *)
  is_incoming : string;
  created_at : datetime
}.

(** The three assignments of the delivery webhook, in one step. *)
Definition set_delivery (st : MessageStatus) (d : option datetime)
    (err : option string) (r : t) : t :=
  mk (id r) (campaign_id r) (contact_id r) (recipient r) (content r) st (sent_at r) d
    err (message_id r) (is_incoming r) (created_at r).

(** A column value as a query compares it. *)
Inductive value : Type :=
| Null
| Int (n : Z)
| Text (s : string)
| Status (s : MessageStatus).

#[global] Instance value_eq_dec : EqDecision value.
Proof. solve_decision. Defined.

Definition of_option {A} (f : A -> value) (o : option A) : value :=
  match o with
  | Some a => f a
  | None => Null
  end.

(** A mapped class as a query sees it: the class attribute of a given name,
    when the class has one, as the column value it reads from a row. *)
Definition class : Type := string -> option (t -> value).

(** The class attributes [app/models/message.py] declares. *)
Definition getattr : class := fun name =>
  if String.eqb name "id" then Some (fun r => Int (id r))
  else if String.eqb name "campaign_id" then Some (fun r => of_option Int (campaign_id r))
  else if String.eqb name "contact_id" then Some (fun r => of_option Int (contact_id r))
  else if String.eqb name "recipient" then Some (fun r => Text (recipient r))
  else if String.eqb name "content" then Some (fun r => Text (content r))
  else if String.eqb name "status" then Some (fun r => Status (status r))
  else if String.eqb name "sent_at" then Some (fun r => of_option Int (sent_at r))
  else if String.eqb name "delivered_at"
  then Some (fun r => of_option Int (delivered_at r))
  else if String.eqb name "error_message"
  then Some (fun r => of_option Text (error_message r))
  else if String.eqb name "message_id" then Some (fun r => of_option Text (message_id r))
  else if String.eqb name "is_incoming" then Some (fun r => Text (is_incoming r))
  else if String.eqb name "created_at" then Some (fun r => Int (created_at r))
  else None.

(** [getattr(cls, name)] on a mapped class. *)
Definition class_attribute (cls : class) (name : string) : Py.Exc (t -> value) :=
  match cls name with
  | Some column => Py.ret column
  | None =>
      Py.raise (Py.AttributeError
        ("type object 'Message' has no attribute '" +:+ name +:+ "'"))
  end.

(** The same class with one more attribute, [provider_message_id], reading the
    column that holds the provider's identifier. *)
Definition with_provider_message_id : class := fun name =>
  if String.eqb name "provider_message_id"
  then Some (fun r => of_option Text (message_id r))
  else getattr name.

End Message.

(** [app/models/campaign.py]. *)
Inductive CampaignStatus : Type :=
| CAMPAIGN_DRAFT | CAMPAIGN_SCHEDULED | CAMPAIGN_ACTIVE | CAMPAIGN_SENDING
| CAMPAIGN_SENT | CAMPAIGN_FAILED.

#[global] Instance CampaignStatus_eq_dec : EqDecision CampaignStatus.
Proof. solve_decision. Defined.

Module Campaign.

Record t : Type := mk {
  id : Z;
  user_id : Z;
  status : CampaignStatus;
  sent_at : option datetime;
  total_recipients : Z;
  delivered_count : Z;
  failed_count : Z
}.

Definition set_counts (d f : Z) (r : t) : t :=
  mk (id r) (user_id r) (status r) (sent_at r) (total_recipients r) d f.

Definition set_sent (now : datetime) (r : t) : t :=
  mk (id r) (user_id r) CAMPAIGN_SENT (Some now) (total_recipients r)
    (delivered_count r) (failed_count r).

End Campaign.

(** ** The database and the session

    [Tables] is the content of the tables the modelled code touches.  A
    [Session] holds the rows as last committed ([stored]) and the rows as the
    session's mapped objects hold them ([working]): an attribute assignment or
    [db.add] changes [working] only, queries of the session read [working], and
    [db.commit()] makes [working] the stored state. *)

Record Tables : Type := mkTables {
  contacts : list Contact.t;
  ab_test_campaigns : list ABTestCampaign.t;
  ab_test_variants : list ABTestVariant.t;
  ab_test_recipients : list ABTestRecipient.t;
  ab_test_results : list ABTestResult.t;
  messages : list Message.t;
  campaigns : list Campaign.t
}.

Definition set_ab_test_campaigns (v : list ABTestCampaign.t) (t : Tables) : Tables :=
  mkTables (contacts t) v (ab_test_variants t) (ab_test_recipients t)
    (ab_test_results t) (messages t) (campaigns t).
Definition set_ab_test_variants (v : list ABTestVariant.t) (t : Tables) : Tables :=
  mkTables (contacts t) (ab_test_campaigns t) v (ab_test_recipients t)
    (ab_test_results t) (messages t) (campaigns t).
Definition set_ab_test_recipients (v : list ABTestRecipient.t) (t : Tables) : Tables :=
  mkTables (contacts t) (ab_test_campaigns t) (ab_test_variants t) v
    (ab_test_results t) (messages t) (campaigns t).
Definition set_ab_test_results (v : list ABTestResult.t) (t : Tables) : Tables :=
  mkTables (contacts t) (ab_test_campaigns t) (ab_test_variants t)
    (ab_test_recipients t) v (messages t) (campaigns t).
Definition set_messages (v : list Message.t) (t : Tables) : Tables :=
  mkTables (contacts t) (ab_test_campaigns t) (ab_test_variants t)
    (ab_test_recipients t) (ab_test_results t) v (campaigns t).
Definition set_campaigns (v : list Campaign.t) (t : Tables) : Tables :=
  mkTables (contacts t) (ab_test_campaigns t) (ab_test_variants t)
    (ab_test_recipients t) (ab_test_results t) (messages t) v.

Record Session : Type := mkSession {
  stored : Tables;
  working : Tables
}.

Definition on_working (f : Tables -> Tables) (db : Session) : Session :=
  mkSession (stored db) (f (working db)).

Definition commit (db : Session) : Session := mkSession (working db) (working db).

(** What closing the session without a commit leaves, and what a flush that
    the database refuses leaves, the transaction being rolled back: the stored
    rows. *)
Definition rollback (db : Session) : Session := mkSession (stored db) (stored db).

(** A fresh session over a database. *)
Definition session_of (t : Tables) : Session := mkSession t t.

(** An attribute assignment on a mapped object writes the row of that primary
    key in the session. *)
Definition write_row {A} (key : A -> Z) (r : A) (rows : list A) : list A :=
  (fun x => if key x =? key r then r else x) <$> rows.

(** The same for an object whose row has the primary key [k] in the database:
    the row is written where the object was loaded from, also when the
    assignment has changed the key attribute itself. *)
Definition write_row_at {A} (key : A -> Z) (k : Z) (r : A) (rows : list A) : list A :=
  (fun x => if key x =? k then r else x) <$> rows.

(** The dictionaries the services return: [{"success": True, ...}] or
    [{"success": False, "error": ...}]. *)
Inductive reply (A : Type) : Type :=
| Success (a : A)
| Failure (error : string).
Arguments Success {A} a.
Arguments Failure {A} error.

(** ** [ABTestingService]  (app/services/ab_testing_service.py) *)

(** The [test_data] dictionary of [create_ab_test]; a key read with
    [.get(key, default)] is optional. *)
Record VariantData : Type := mkVariantData {
  vd_variant_name : string;
  vd_message_content : option string;
  vd_sender_id : option string;
  vd_send_time : option datetime;
  vd_subject_line : option string
}.

Record TestData : Type := mkTestData {
  td_name : string;
  td_test_type : TestType;
  td_traffic_split : option float;
  td_minimum_sample_size : option Z;
  td_confidence_level : option float;
  td_variants : list VariantData
}.

(** The ["analysis"] dictionary [analyze_ab_test] returns. *)
Record Analysis : Type := mkAnalysis {
  variant_a_rate : float;
  variant_b_rate : float;
  statistical_significance : float;
  is_significant : bool;
  winner : option string;
  improvement_percentage : float;
  effect_size : float;
  confidence_interval : float * float
}.

(** The values computed between "Calculate conversion rates" and "Determine
    winner". *)
Record ZTest : Type := mkZTest {
  zt_rate_a : float;
  zt_rate_b : float;
  zt_se : float;
  zt_z_score : float;
  zt_p_value : float;
  zt_is_significant : bool;
  zt_effect_size : float;
  zt_ci_lower : float;
  zt_ci_upper : float
}.

Section ABTestingService.

(** The C library's [erf] and [asin] behind [math.erf] and [math.asin], and the
    permutation [random.shuffle] leaves in the list. *)
Variable erf : float -> float.
Variable asin : float -> float.
Variable shuffle : list Contact.t -> list Contact.t.

(** What the database decides.

    [aware_timestamps db campaign]: whether [campaign.started_at], as the
    session holds it, carries a time zone.  A value read back from a
    DateTime(timezone=True) column does on PostgreSQL, the database of
    app/core/config.py, and does not on SQLite; a value assigned in this
    session and not yet committed is the [datetime.utcnow()] assigned, which
    carries none.

    [next_test_id], [next_variant_id], [next_recipient_id]: the primary key
    the database gives a row inserted into a table that holds the given rows.

    [refuses stored new]: the text of the error with which the database,
    holding the tables [stored], refuses the flush that would make them [new]
    (a value outside the range of its column, for one), or [None] when it
    takes it.  The flushes modelled with it are those that write values the
    caller supplies: those of [create_ab_test] and [update_ab_test_metrics]. *)
Variable aware_timestamps : Session -> ABTestCampaign.t -> bool.
Variable next_test_id : list ABTestCampaign.t -> Z.
Variable next_variant_id : list ABTestVariant.t -> Z.
Variable next_recipient_id : list ABTestRecipient.t -> Z.
Variable refuses : Tables -> Tables -> option string.

(** [hasattr(campaign, key)] and [setattr(campaign, key, value)] for a key
    that names none of the integer metric columns below and an integer value:
    the row the assignment leaves (the row itself when the object has no such
    attribute), or the exception it raises.  This is the ORM's, not the
    repository's. *)
Variable setattr_other : string -> Z -> ABTestCampaign.t -> Py.Exc ABTestCampaign.t.

Local Open Scope float_scope.

(** [math.asin]: a domain error outside [-1, 1]. *)
Definition math_asin (x : float) : Py.Exc float :=
  if PrimFloat.ltb x (-1) || PrimFloat.ltb 1 x
  then Py.raise (Py.ValueError "math domain error")
  else Py.ret (asin x).

(** [_normal_cdf]. *)
Definition _normal_cdf (x : float) : float :=
  0.5 * (1 + erf (x / PrimFloat.sqrt 2)).

(** [_calculate_test_duration]; [db] is [self.db] and [now] is
    [datetime.utcnow()], which carries no time zone.  The difference of
    [completed_at] and [started_at] is taken as that of two UTC times; the
    difference of [now] and a [started_at] that carries a time zone raises. *)
Definition _calculate_test_duration (db : Session) (now : datetime)
    (campaign : ABTestCampaign.t) : Py.Exc float :=
  match ABTestCampaign.started_at campaign, ABTestCampaign.completed_at campaign with
  | Some s, Some c => Py.ret (Py.of_int (c - s) / 3600)
  | Some s, None =>
      if aware_timestamps db campaign
      then Py.raise (Py.TypeError Py.naive_minus_aware)
      else Py.ret (Py.of_int (now - s) / 3600)
  | None, _ => Py.ret 0
  end.

(** [create_ab_test]: the campaign row is added and committed, then one variant
    row per entry of [test_data["variants"]], then a second commit.  A commit
    the database refuses raises inside the [try]: the method returns the text of
    the error, and the failed flush has rolled the transaction back, so the
    rows of that commit are not stored. *)
Definition new_campaign (id user_id : Z) (test_data : TestData) : ABTestCampaign.t :=
  ABTestCampaign.mk id user_id (td_name test_data) (td_test_type test_data) DRAFT
    (default 0.5 (td_traffic_split test_data))
    (default 100%Z (td_minimum_sample_size test_data))
    (default 0.95 (td_confidence_level test_data))
    0 0 0 0 0 0 0 0 0 0 0 0 0 None None None.

Definition new_variant (campaign_id : Z) (test_type : TestType)
    (rows : list ABTestVariant.t) (variant_data : VariantData) : ABTestVariant.t :=
  ABTestVariant.mk (next_variant_id rows) campaign_id
    (vd_variant_name variant_data) test_type
    (vd_message_content variant_data) (vd_sender_id variant_data)
    (vd_send_time variant_data) (vd_subject_line variant_data)
    0 0 0 0 0 0.

Definition add_variants (campaign_id : Z) (test_type : TestType)
    (vs : list VariantData) (rows : list ABTestVariant.t) : list ABTestVariant.t :=
  fold_left (fun rows vd => rows ++ [new_variant campaign_id test_type rows vd]) vs rows.

Definition create_ab_test (user_id : Z) (test_data : TestData) (db : Session)
    : reply Z * Session :=
  let id := next_test_id (ab_test_campaigns (working db)) in
  let campaign := new_campaign id user_id test_data in
  let db1 := on_working (fun t =>
               set_ab_test_campaigns (ab_test_campaigns t ++ [campaign]) t) db in
  match refuses (stored db1) (working db1) with
  | Some error => (Failure error, rollback db1)
  | None =>
    let db1 := commit db1 in
    (* Create variants *)
    let db2 := on_working (fun t =>
                 set_ab_test_variants
                   (add_variants id (td_test_type test_data) (td_variants test_data)
                      (ab_test_variants t)) t) db1 in
    match refuses (stored db2) (working db2) with
    | Some error => (Failure error, rollback db2)
    | None => (Success id, commit db2)
    end
  end.

(** [start_ab_test]; [now] is [datetime.utcnow()]. *)
Definition new_recipient (campaign_id variant_id : Z)
    (rows : list ABTestRecipient.t) (contact : Contact.t) : ABTestRecipient.t :=
  ABTestRecipient.mk (next_recipient_id rows) campaign_id variant_id
    (Contact.id contact) false false false false.

Definition add_recipients (campaign_id variant_id : Z) (cs : list Contact.t)
    (rows : list ABTestRecipient.t) : list ABTestRecipient.t :=
  fold_left (fun rows c => rows ++ [new_recipient campaign_id variant_id rows c]) cs rows.

Definition not_enough_contacts (need : Z) (have : nat) : string :=
  "Not enough contacts. Need " +:+ pretty need +:+ ", have " +:+ pretty have.

Definition variant_named (name : string) (variants : list ABTestVariant.t)
    : option ABTestVariant.t :=
  find (fun v => String.eqb (ABTestVariant.variant_name v) name) variants.

Definition start_ab_test (campaign_id user_id : Z) (now : datetime) (db : Session)
    : reply string * Session :=
  match find (fun c => (ABTestCampaign.id c =? campaign_id)%Z
                       && (ABTestCampaign.user_id c =? user_id)%Z)
             (ab_test_campaigns (working db)) with
  | None => (Failure "Campaign not found", db)
  | Some campaign =>
    if negb (bool_decide (ABTestCampaign.status campaign = DRAFT))
    then (Failure "Campaign is not in draft status", db)
    else
      (* Update campaign status *)
      let campaign :=
        ABTestCampaign.set_started_at (Some now)
          (ABTestCampaign.set_status RUNNING campaign) in
      let db := on_working (fun t =>
        set_ab_test_campaigns
          (write_row ABTestCampaign.id campaign (ab_test_campaigns t)) t) db in
      (* Get target contacts *)
      let contacts :=
        List.filter (fun c => (Contact.user_id c =? user_id)%Z) (contacts (working db)) in
      if (Z.of_nat (length contacts) <? ABTestCampaign.minimum_sample_size campaign)%Z
      then (Failure (not_enough_contacts
                       (ABTestCampaign.minimum_sample_size campaign) (length contacts)),
            db)
      else
        (* Randomly assign contacts to variants *)
        let contacts := shuffle contacts in
        match Py.int_of_float (Py.of_int (Z.of_nat (length contacts))
                               * ABTestCampaign.traffic_split campaign) with
        | inl e => (Failure (Py.str e), db)
        | inr split_point =>
          let variant_a_contacts := Py.slice_to contacts split_point in
          let variant_b_contacts := Py.slice_from contacts split_point in
          (* Get variants *)
          let variants :=
            List.filter (fun v => (ABTestVariant.campaign_id v =? campaign_id)%Z)
              (ab_test_variants (working db)) in
          match variant_named "A" variants, variant_named "B" variants with
          | Some variant_a, Some variant_b =>
            let db := on_working (fun t =>
              set_ab_test_recipients
                (add_recipients campaign_id (ABTestVariant.id variant_b) variant_b_contacts
                   (add_recipients campaign_id (ABTestVariant.id variant_a)
                      variant_a_contacts (ab_test_recipients t))) t) db in
            (* Update variant recipient counts *)
            let variant_a := ABTestVariant.set_recipients_count
                               (Z.of_nat (length variant_a_contacts)) variant_a in
            let variant_b := ABTestVariant.set_recipients_count
                               (Z.of_nat (length variant_b_contacts)) variant_b in
            let campaign :=
              ABTestCampaign.set_variant_b_recipients (Z.of_nat (length variant_b_contacts))
                (ABTestCampaign.set_variant_a_recipients
                   (Z.of_nat (length variant_a_contacts)) campaign) in
            let db := on_working (fun t =>
              set_ab_test_campaigns
                (write_row ABTestCampaign.id campaign (ab_test_campaigns t))
                (set_ab_test_variants
                   (write_row ABTestVariant.id variant_b
                      (write_row ABTestVariant.id variant_a (ab_test_variants t))) t)) db in
            (Success "A/B test started successfully", commit db)
          | _, _ => (Failure "Variants not found", db)
          end
        end
  end.

(** [update_ab_test_metrics].  [metrics_data] maps attribute names to integer
    values, in the order of the dictionary.  [setattr_metric] is
    [setattr(campaign, key, value)] for a key that names an integer metric
    column, a counter or [minimum_sample_size]; it is [None] for every other
    key, whose assignment is [setattr_other]. *)
Definition setattr_metric (key : string) (value : Z) (campaign : ABTestCampaign.t)
    : option ABTestCampaign.t :=
  if String.eqb key "variant_a_recipients"
  then Some (ABTestCampaign.set_variant_a_recipients value campaign)
  else if String.eqb key "variant_b_recipients"
  then Some (ABTestCampaign.set_variant_b_recipients value campaign)
  else if String.eqb key "variant_a_delivered"
  then Some (ABTestCampaign.set_variant_a_delivered value campaign)
  else if String.eqb key "variant_b_delivered"
  then Some (ABTestCampaign.set_variant_b_delivered value campaign)
  else if String.eqb key "variant_a_opened"
  then Some (ABTestCampaign.set_variant_a_opened value campaign)
  else if String.eqb key "variant_b_opened"
  then Some (ABTestCampaign.set_variant_b_opened value campaign)
  else if String.eqb key "variant_a_clicked"
  then Some (ABTestCampaign.set_variant_a_clicked value campaign)
  else if String.eqb key "variant_b_clicked"
  then Some (ABTestCampaign.set_variant_b_clicked value campaign)
  else if String.eqb key "variant_a_replied"
  then Some (ABTestCampaign.set_variant_a_replied value campaign)
  else if String.eqb key "variant_b_replied"
  then Some (ABTestCampaign.set_variant_b_replied value campaign)
  else if String.eqb key "minimum_sample_size"
  then Some (ABTestCampaign.set_minimum_sample_size value campaign)
  else None.

(** [if hasattr(campaign, key): setattr(campaign, key, value)]. *)
Definition setattr_key (key : string) (value : Z) (campaign : ABTestCampaign.t)
    : Py.Exc ABTestCampaign.t :=
  match setattr_metric key value campaign with
  | Some campaign => Py.ret campaign
  | None => setattr_other key value campaign
  end.

(** The loop over [metrics_data.items()]: the row it leaves, and the exception
    that ended it when one did. *)
Fixpoint apply_metrics (metrics_data : list (string * Z))
    (campaign : ABTestCampaign.t) : option Py.exn * ABTestCampaign.t :=
  match metrics_data with
  | [] => (None, campaign)
  | (key, value) :: rest =>
      match setattr_key key value campaign with
      | inl e => (Some e, campaign)
      | inr campaign => apply_metrics rest campaign
      end
  end.

Definition refresh_conversion_rates (campaign : ABTestCampaign.t) : ABTestCampaign.t :=
  let campaign :=
    if (0 <? ABTestCampaign.variant_a_recipients campaign)%Z
    then ABTestCampaign.set_variant_a_conversion_rate
           (Py.int_quotient (ABTestCampaign.variant_a_opened campaign)
              (ABTestCampaign.variant_a_recipients campaign)) campaign
    else campaign in
  if (0 <? ABTestCampaign.variant_b_recipients campaign)%Z
  then ABTestCampaign.set_variant_b_conversion_rate
         (Py.int_quotient (ABTestCampaign.variant_b_opened campaign)
            (ABTestCampaign.variant_b_recipients campaign)) campaign
  else campaign.

(** When an assignment raises, the mapped object keeps what has been assigned
    to it before.  The commit stores the row where the object was loaded from;
    when the database refuses it, the failed flush has rolled the transaction
    back. *)
Definition update_ab_test_metrics (campaign_id : Z) (metrics_data : list (string * Z))
    (db : Session) : reply unit * Session :=
  match find (fun c => (ABTestCampaign.id c =? campaign_id)%Z)
             (ab_test_campaigns (working db)) with
  | None => (Failure "Campaign not found", db)
  | Some campaign =>
    let key := ABTestCampaign.id campaign in
    let assigned (campaign : ABTestCampaign.t) (db : Session) : Session :=
      on_working (fun t =>
        set_ab_test_campaigns
          (write_row_at ABTestCampaign.id key campaign (ab_test_campaigns t)) t) db in
    (* Update campaign metrics *)
    match apply_metrics metrics_data campaign with
    | (Some e, campaign) => (Failure (Py.str e), assigned campaign db)
    | (None, campaign) =>
      (* Calculate conversion rates *)
      let campaign := refresh_conversion_rates campaign in
      let db := assigned campaign db in
      match refuses (stored db) (working db) with
      | Some error => (Failure error, rollback db)
      | None => (Success (), commit db)
      end
    end
  end.

(** [analyze_ab_test], in the three stages of its body. *)

(** Conversion rates, the two-proportion Z-test, effect size and confidence
    interval. *)
Definition z_test (campaign : ABTestCampaign.t) : Py.Exc ZTest :=
  let variant_a_recipients := ABTestCampaign.variant_a_recipients campaign in
  let variant_b_recipients := ABTestCampaign.variant_b_recipients campaign in
  let variant_a_conversions := ABTestCampaign.variant_a_opened campaign in
  let variant_b_conversions := ABTestCampaign.variant_b_opened campaign in
  (* Calculate conversion rates *)
  let! rate_a := Py.int_truediv variant_a_conversions variant_a_recipients in
  let! rate_b := Py.int_truediv variant_b_conversions variant_b_recipients in
  let p1 := rate_a in let p2 := rate_b in
  let n1 := variant_a_recipients in let n2 := variant_b_recipients in
  (* Pooled proportion *)
  let! p_pooled :=
    Py.int_truediv (variant_a_conversions + variant_b_conversions)%Z (n1 + n2)%Z in
  (* Standard error *)
  let! inv_n1 := Py.int_truediv 1 n1 in
  let! inv_n2 := Py.int_truediv 1 n2 in
  let! se := Py.math_sqrt (p_pooled * (1 - p_pooled) * (inv_n1 + inv_n2)) in
  (* Z-score *)
  let! z_score := if PrimFloat.ltb 0 se then Py.float_truediv (p2 - p1) se
                  else Py.ret 0 in
  (* P-value (approximate) *)
  let p_value := 2 * (1 - _normal_cdf (PrimFloat.abs z_score)) in
  (* Statistical significance *)
  let is_significant :=
    PrimFloat.ltb p_value (1 - ABTestCampaign.confidence_level campaign) in
  (* Effect size (Cohen's h) *)
  let! sqrt_p2 := Py.math_sqrt p2 in
  let! asin_p2 := math_asin sqrt_p2 in
  let! sqrt_p1 := Py.math_sqrt p1 in
  let! asin_p1 := math_asin sqrt_p1 in
  let effect_size := 2 * (asin_p2 - asin_p1) in
  (* Confidence interval *)
  let diff := p2 - p1 in
  let margin_error := 1.96 * se in
  Py.ret (mkZTest rate_a rate_b se z_score p_value is_significant effect_size
            (diff - margin_error) (diff + margin_error)).

(** "Determine winner": the winner and the improvement percentage. *)
Definition determine_winner (is_significant : bool) (rate_a rate_b : float)
    : Py.Exc (option string * float) :=
  if is_significant then
    if PrimFloat.ltb rate_a rate_b then
      let! q := Py.float_truediv (rate_b - rate_a) rate_a in
      Py.ret (Some "B", q * 100)
    else if PrimFloat.ltb rate_b rate_a then
      let! q := Py.float_truediv (rate_a - rate_b) rate_b in
      Py.ret (Some "A", q * 100)
    else Py.ret (None, 0)
  else Py.ret (Some "inconclusive", 0).

(** The result row, the updated campaign and the returned dictionary. *)
Definition analysis_of (db : Session) (now : datetime) (campaign : ABTestCampaign.t)
    : Py.Exc (ABTestResult.t * ABTestCampaign.t * Analysis) :=
  let! zt := z_test campaign in
  let! wi := determine_winner (zt_is_significant zt) (zt_rate_a zt) (zt_rate_b zt) in
  let winner := wi.1 in
  let improvement_percentage := wi.2 in
  (* Create result record *)
  let! test_duration_hours := _calculate_test_duration db now campaign in
  let result :=
    ABTestResult.mk (ABTestCampaign.id campaign)
      (ABTestResult.mk_metrics (ABTestCampaign.variant_a_recipients campaign)
         (ABTestCampaign.variant_a_opened campaign) (zt_rate_a zt))
      (ABTestResult.mk_metrics (ABTestCampaign.variant_b_recipients campaign)
         (ABTestCampaign.variant_b_opened campaign) (zt_rate_b zt))
      (zt_p_value zt) (zt_ci_lower zt, zt_ci_upper zt) (zt_p_value zt)
      (zt_effect_size zt) winner improvement_percentage
      (ABTestCampaign.variant_a_recipients campaign
       + ABTestCampaign.variant_b_recipients campaign)%Z
      test_duration_hours in
  let campaign :=
    ABTestCampaign.set_winner_variant winner
      (ABTestCampaign.set_statistical_significance (zt_p_value zt) campaign) in
  Py.ret (result, campaign,
          mkAnalysis (zt_rate_a zt) (zt_rate_b zt) (zt_p_value zt)
            (zt_is_significant zt) winner improvement_percentage
            (zt_effect_size zt) (zt_ci_lower zt, zt_ci_upper zt)).

Definition analyze_ab_test (campaign_id : Z) (now : datetime) (db : Session)
    : reply Analysis * Session :=
  match find (fun c => (ABTestCampaign.id c =? campaign_id)%Z)
             (ab_test_campaigns (working db)) with
  | None => (Failure "Campaign not found", db)
  | Some campaign =>
    if (ABTestCampaign.variant_a_recipients campaign =? 0)%Z
       || (ABTestCampaign.variant_b_recipients campaign =? 0)%Z
    then (Failure "Insufficient data for analysis", db)
    else
      match analysis_of db now campaign with
      | inl e => (Failure (Py.str e), db)
      | inr (result, campaign, analysis) =>
        (Success analysis,
         commit (on_working (fun t =>
           set_ab_test_campaigns
             (write_row ABTestCampaign.id campaign (ab_test_campaigns t))
             (set_ab_test_results (ab_test_results t ++ [result]) t)) db))
      end
  end.

End ABTestingService.

(** ** [SMSService]  (app/services/sms_service.py) *)

Inductive SmsProvider : Type := TWILIO | AWS_SNS | VONAGE | MOCK.

(** One entry of the [messages] argument of [send_bulk_sms]. *)
Module OutMsg.

Record t : Type := mk {
  phone : string;
  message : string;
  sender_id : option string
}.

End OutMsg.

(** The dictionary a send returns; a key that is absent is [None]. *)
Module SendResult.

Record t : Type := mk {
  success : bool;
  message_id : option string;
  error : option string;
  status : string;
  cost : option float;
  provider : option string;
  phone : option string
}.

Definition accepted (message_id : option string) (cost : float) (provider : string) : t :=
  mk true message_id None "sent" (Some cost) (Some provider) None.

Definition failed (error : string) : t :=
  mk false None (Some error) "failed" None None None.

(** [{**result, "phone": p}]. *)
Definition with_phone (p : string) (r : t) : t :=
  mk (success r) (message_id r) (error r) (status r) (cost r) (provider r) (Some p).

End SendResult.

(** What one call of [send_sms] meets outside the program: the answer of the
    Twilio endpoint (status code and the [sid] of the JSON body, or the
    exception the HTTP client raises, a timeout among them), the clock, the
    random draw and [hash(phone)] of the mock provider. *)
Record World : Type := mkWorld {
  twilio_post : Py.Exc (Z * option string);
  time_time : Z;
  random_random : float;
  hash_phone : Z
}.

Section SMSService.

Variable provider : SmsProvider.

(** The world met by the send of the message at a given position of the input. *)
Variable world : nat -> World.

Local Open Scope float_scope.

Definition is_digit (c : Ascii.ascii) : bool :=
  let n := Ascii.nat_of_ascii c in ((48 <=? n) && (n <=? 57))%nat.

Fixpoint digits_of (s : string) : string :=
  match s with
  | EmptyString => EmptyString
  | String c r => if is_digit c then String c (digits_of r) else digits_of r
  end.

Fixpoint all_chars (c : Ascii.ascii) (s : string) : bool :=
  match s with
  | EmptyString => true
  | String d r => Ascii.eqb c d && all_chars c r
  end.

(** [validate_phone_number], on ASCII text. *)
Definition validate_phone_number (phone : string) : bool :=
  let cleaned := digits_of phone in
  let n := String.length cleaned in
  if ((n <? 10) || (15 <? n))%nat then false
  else if all_chars (Ascii.ascii_of_nat 48) cleaned then false
  else if all_chars (Ascii.ascii_of_nat 49) cleaned then false
  else if String.eqb cleaned "1234567890" then false
  else true.

(** [check_rate_limit]: "For now, always return True". *)
Definition check_rate_limit : bool := true.

Definition _send_via_twilio (w : World) : SendResult.t :=
  match twilio_post w with
  | inr (status_code, sid) =>
      if ((status_code =? 200) || (status_code =? 201))%Z
      then SendResult.accepted sid 0.0075 "twilio"
      else SendResult.failed ("Twilio Error: " +:+ pretty status_code)
  | inl e => SendResult.failed ("Twilio API Error: " +:+ Py.str e)
  end.

Definition _send_via_aws_sns (w : World) : SendResult.t :=
  SendResult.accepted (Some ("aws-" +:+ pretty (time_time w))) 0.00645 "aws_sns".

Definition _send_via_vonage (w : World) : SendResult.t :=
  SendResult.accepted (Some ("vonage-" +:+ pretty (time_time w))) 0.005 "vonage".

Definition _send_mock (w : World) : SendResult.t :=
  if PrimFloat.ltb (random_random w) 0.95
  then SendResult.accepted
         (Some ("mock-" +:+ pretty (time_time w) +:+ "-"
                +:+ pretty (hash_phone w `mod` 10000)%Z)) 0.01 "mock"
  else SendResult.failed "Mock delivery failure".

(** [send_sms]: every exception of its body is caught and becomes a failed
    result, so the coroutine itself returns. *)
Definition send_sms (w : World) (phone : string) : SendResult.t :=
  if negb (validate_phone_number phone)
  then SendResult.failed "Invalid phone number format"
  else if negb check_rate_limit then SendResult.failed "Rate limit exceeded"
  else match provider with
       | TWILIO => _send_via_twilio w
       | AWS_SNS => _send_via_aws_sns w
       | VONAGE => _send_via_vonage w
       | MOCK => _send_mock w
       end.

(** [send_bulk_sms] over an arbitrary task per message: [task i msg] is what
    [asyncio.gather(..., return_exceptions=True)] hands back for the message at
    position [i], a result or the exception the task raised. *)
Section Gather.

Variable task : nat -> OutMsg.t -> Py.Exc SendResult.t.

Definition batch_size : nat := 10.

(** The body of [for j, result in enumerate(batch_results)]. *)
Definition outcome (result : Py.Exc SendResult.t) (phone : string) : SendResult.t :=
  match result with
  | inl e => SendResult.with_phone phone (SendResult.failed (Py.str e))
  | inr r => SendResult.with_phone phone r
  end.

Definition send_batch (i : nat) (batch : list OutMsg.t) : list SendResult.t :=
  imap (fun j msg => outcome (task (i + j) msg) (OutMsg.phone msg)) batch.

Definition gather_in_batches (messages : list OutMsg.t) : list SendResult.t :=
  fold_left
    (fun results i =>
       results ++ send_batch i (firstn batch_size (skipn i messages)))
    (Py.range_step (length messages) batch_size) [].

End Gather.

Definition send_bulk_sms (messages : list OutMsg.t) : list SendResult.t :=
  gather_in_batches (fun i msg => Py.ret (send_sms (world i) (OutMsg.phone msg)))
    messages.

End SMSService.

(** ** The delivery webhook  (app/routers/webhooks.py) *)

Section Webhooks.

(** The mapped class [Message] the handler's queries are built on. *)
Variable Message_class : Message.class.

(** Truth value of an optional text, and [a or b]. *)
Definition truthy (v : option string) : bool :=
  match v with
  | Some (String _ _) => true
  | _ => false
  end.

Definition py_or (a b : option string) : option string := if truthy a then a else b.

Definition status_mapping (status : string) : option MessageStatus :=
  if String.eqb status "delivered" then Some MSG_SENT
  else if String.eqb status "sent" then Some MSG_SENT
  else if String.eqb status "failed" then Some MSG_FAILED
  else if String.eqb status "undelivered" then Some MSG_FAILED
  else if String.eqb status "pending" then Some MSG_PENDING
  else if String.eqb status "queued" then Some MSG_PENDING
  else None.

(** The rows of a campaign, and those in a given status. *)
Definition of_campaign (campaign_id : Z) (m : Message.t) : bool :=
  bool_decide (Message.campaign_id m = Some campaign_id).

Definition count_messages (campaign_id : Z) (rows : list Message.t) : Z :=
  Z.of_nat (length (List.filter (of_campaign campaign_id) rows)).

Definition count_in_status (campaign_id : Z) (st : MessageStatus)
    (rows : list Message.t) : Z :=
  Z.of_nat (length (List.filter
    (fun m => of_campaign campaign_id m && bool_decide (Message.status m = st)) rows)).

(** "Update campaign statistics": the counters are set from counts over the
    message rows, and the campaign is marked sent once they cover all rows. *)
Definition recalculate (now : datetime) (rows : list Message.t) (campaign : Campaign.t)
    : Campaign.t :=
  let sent_count := count_in_status (Campaign.id campaign) MSG_SENT rows in
  let failed_count := count_in_status (Campaign.id campaign) MSG_FAILED rows in
  let campaign := Campaign.set_counts sent_count failed_count campaign in
  let total_messages := count_messages (Campaign.id campaign) rows in
  if total_messages <=? sent_count + failed_count
  then Campaign.set_sent now campaign
  else campaign.

Definition update_campaign_statistics (now : datetime) (message : Message.t)
    (db : Session) : Session :=
  match Message.campaign_id message with
  | None => db
  | Some cid =>
    match find (fun c => Campaign.id c =? cid) (campaigns (working db)) with
    | None => db
    | Some campaign =>
      let campaign := recalculate now (messages (working db)) campaign in
      commit (on_working (fun t =>
        set_campaigns (write_row Campaign.id campaign (campaigns t)) t) db)
    end
  end.

(** [handle_delivery_report] on the parsed body [data], a dictionary of text
    fields as form data or a flat JSON object of strings give; [now] is
    [datetime.utcnow()].  The query [Message.provider_message_id == message_id]
    first resolves the class attribute: on a class without it the expression
    raises [AttributeError], which the handler's [except Exception] turns into
    the "Internal server error" reply before any row is touched. *)
Definition handle_delivery_report_over (now : datetime) (data : gmap string string)
    (db : Session) : reply string * Session :=
  (* Extract message ID and status *)
  let message_id := py_or (py_or (data !! "message_id") (data !! "sid")) (data !! "id") in
  let status := py_or (data !! "status") (data !! "delivery_status") in
  if negb (truthy message_id) || negb (truthy status)
  then (Failure "Missing required fields", db)
  else
    let message_id := default "" message_id in
    let status := default "" status in
    (* Map provider status to our internal status *)
    let internal_status := default MSG_PENDING (status_mapping (Py.lower status)) in
    (* Find the message in our database *)
    match Message.class_attribute Message_class "provider_message_id" with
    | inl _ => (Failure "Internal server error", db)
    | inr provider_message_id =>
      match find (fun m => bool_decide (provider_message_id m = Message.Text message_id))
                 (messages (working db)) with
      | None => (Failure "Message not found", db)
      | Some message =>
        (* Update message status *)
        let message :=
          Message.set_delivery internal_status
            (if bool_decide (internal_status = MSG_SENT) then Some now else None)
            (if bool_decide (internal_status = MSG_FAILED)
             then data !! "error_message" else None)
            message in
        let db := commit (on_working (fun t =>
          set_messages (write_row Message.id message (messages t)) t) db) in
        (* Update campaign statistics *)
        (Success "Status updated", update_campaign_statistics now message db)
      end
    end.

End Webhooks.

(** The handler of the repository: over the class [app/models/message.py]
    declares. *)
Definition handle_delivery_report : datetime -> gmap string string -> Session
    -> reply string * Session :=
  handle_delivery_report_over Message.getattr.

(** ** Observations and sample data used by the statements below *)

(** The ten aggregate counters of a test, in the order recipients, delivered,
    opened, clicked, replied, variant A before variant B. *)
Definition counters (c : ABTestCampaign.t) : list Z :=
  [ ABTestCampaign.variant_a_recipients c; ABTestCampaign.variant_b_recipients c;
    ABTestCampaign.variant_a_delivered c; ABTestCampaign.variant_b_delivered c;
    ABTestCampaign.variant_a_opened c; ABTestCampaign.variant_b_opened c;
    ABTestCampaign.variant_a_clicked c; ABTestCampaign.variant_b_clicked c;
    ABTestCampaign.variant_a_replied c; ABTestCampaign.variant_b_replied c ].

(** The counter an attribute name denotes, when it denotes one. *)
Definition counter (key : string) (c : ABTestCampaign.t) : option Z :=
  if String.eqb key "variant_a_recipients" then Some (ABTestCampaign.variant_a_recipients c)
  else if String.eqb key "variant_b_recipients"
  then Some (ABTestCampaign.variant_b_recipients c)
  else if String.eqb key "variant_a_delivered"
  then Some (ABTestCampaign.variant_a_delivered c)
  else if String.eqb key "variant_b_delivered"
  then Some (ABTestCampaign.variant_b_delivered c)
  else if String.eqb key "variant_a_opened" then Some (ABTestCampaign.variant_a_opened c)
  else if String.eqb key "variant_b_opened" then Some (ABTestCampaign.variant_b_opened c)
  else if String.eqb key "variant_a_clicked" then Some (ABTestCampaign.variant_a_clicked c)
  else if String.eqb key "variant_b_clicked" then Some (ABTestCampaign.variant_b_clicked c)
  else if String.eqb key "variant_a_replied" then Some (ABTestCampaign.variant_a_replied c)
  else if String.eqb key "variant_b_replied" then Some (ABTestCampaign.variant_b_replied c)
  else None.

(** The test row [start_ab_test] commits when it succeeds with [a] and [b]
    recipients. *)
Definition started (now : datetime) (a b : Z) (campaign : ABTestCampaign.t)
    : ABTestCampaign.t :=
  ABTestCampaign.set_variant_b_recipients b
    (ABTestCampaign.set_variant_a_recipients a
       (ABTestCampaign.set_started_at (Some now)
          (ABTestCampaign.set_status RUNNING campaign))).

(** What the campaign statistics read of a message row. *)
Definition delivery_shape (m : Message.t) : option Z * MessageStatus :=
  (Message.campaign_id m, Message.status m).

(** The message row the webhook writes for a row it has found. *)
Definition reconciled (now : datetime) (data : gmap string string) (m : Message.t)
    : Message.t :=
  let status := default "" (py_or (data !! "status") (data !! "delivery_status")) in
  let internal_status := default MSG_PENDING (status_mapping (Py.lower status)) in
  Message.set_delivery internal_status
    (if bool_decide (internal_status = MSG_SENT) then Some now else None)
    (if bool_decide (internal_status = MSG_FAILED) then data !! "error_message" else None)
    m.

(** The [delivered_count] and [failed_count] of every campaign row. *)
Definition campaign_counters (db : Session) : list (Z * Z * Z) :=
  (fun c => (Campaign.id c, Campaign.delivered_count c, Campaign.failed_count c))
    <$> campaigns (working db).

(** The test of a session by its primary key. *)
Definition test_by_id (campaign_id : Z) (t : Tables) : option ABTestCampaign.t :=
  find (fun c => ABTestCampaign.id c =? campaign_id) (ab_test_campaigns t).

(** [n] contacts of user 7, with primary keys 1 to [n]. *)
Definition population (n : nat) : list Contact.t :=
  (fun i => Contact.mk (Z.of_nat i) 7 "+15550100") <$> seq 1 n.

(** Test 1 of user 7 with a given status, configuration and recipient and open
    counts; every other counter is zero. *)
Definition sample_test (status : TestStatus) (traffic_split : float)
    (minimum_sample_size : Z) (confidence_level : float)
    (a_recipients b_recipients a_opened b_opened : Z) : ABTestCampaign.t :=
  ABTestCampaign.mk 1 7 "subject line test" MESSAGE_CONTENT status traffic_split
    minimum_sample_size confidence_level a_recipients b_recipients 0 0
    a_opened b_opened 0 0 0 0 0 0 0 None None None.

Definition sample_variant (id : Z) (name : string) : ABTestVariant.t :=
  ABTestVariant.mk id 1 name MESSAGE_CONTENT (Some "Hello") None None None 0 0 0 0 0 0.

(** A database that holds [n] contacts, one test and its variants A and B. *)
Definition sample_tables (n : nat) (test : ABTestCampaign.t) : Tables :=
  mkTables (population n) [test] [sample_variant 1 "A"; sample_variant 2 "B"]
    [] [] [] [].

(** The draft test of the 200-contact scenario: split 0.5, confidence 0.95. *)
Definition scenario_draft : ABTestCampaign.t :=
  sample_test DRAFT 0.5%float 100 0.95%float 0 0 0 0.

(** The argument [math.erf] receives in that scenario, |z| / sqrt 2 for 20 and
    35 opens out of 100 each, and the values of a C library's [erf] there that
    are within one unit in the last place of 0.9824711387396272. *)
Definition scenario_erf_argument : float := 1.6796775328675624%float.

Definition scenario_erf_values : list float :=
  [ 0.9824711387396271%float; 0.9824711387396272%float; 0.9824711387396273%float ].

(** Stand-ins for [math.erf] and [math.asin] to run the model on: the values a
    C library gives at 0 and at the scenario's argument and the limits -1 and 1
    elsewhere; the identity for [asin]. *)
Definition erf_points (x : float) : float :=
  if PrimFloat.eqb x 0%float then 0%float
  else if PrimFloat.eqb x scenario_erf_argument then 0.9824711387396272%float
  else if PrimFloat.ltb x 0%float then (-1)%float else 1%float.

Definition asin_points (x : float) : float := x.

(** A campaign in status "sending" with one message row that already carries
    the provider identifier SM1. *)
Definition sample_message (status : MessageStatus) : Message.t :=
  Message.mk 1 (Some 1) (Some 1) "+15550100" "Hello" status (Some 10) None None
    (Some "SM1") "false" 5.

Definition sample_campaign : Campaign.t :=
  Campaign.mk 1 7 CAMPAIGN_SENDING (Some 10) 1 0 0.

Definition sending_tables (status : MessageStatus) : Tables :=
  mkTables [] [] [] [] [] [sample_message status] [sample_campaign].

(** The callback body [{"message_id": "SM1", "status": "delivered"}]. *)
Definition delivered_callback : gmap string string :=
  {[ "message_id" := "SM1"; "status" := "delivered" ]}.

(** Ten messages to ten valid numbers, and a world in which the provider call
    for the seventh raises a timeout while the others are accepted with
    status 201. *)
Definition ten_messages : list OutMsg.t :=
  (fun i => OutMsg.mk ("+1415555010" +:+ pretty i) "Hello" None) <$> seq 0 10.

Definition seventh_times_out (i : nat) : World :=
  mkWorld
    (if (i =? 6)%nat then Py.raise (Py.TimeoutError "The read operation timed out")
     else Py.ret (201, Some ("SM" +:+ pretty i)))
    0 0%float 0.

(** The test has been started and not completed, and its start time carries a
    time zone: the case in which [_calculate_test_duration] subtracts it from
    [datetime.utcnow()]. *)
Definition start_time_is_aware (aware_timestamps : Session -> ABTestCampaign.t -> bool)
    (db : Session) (campaign : ABTestCampaign.t) : bool :=
  match ABTestCampaign.started_at campaign, ABTestCampaign.completed_at campaign with
  | Some _, None => aware_timestamps db campaign
  | _, _ => false
  end.

(** Databases to run the model on.  [without_time_zone] hands timestamps back
    as SQLite does, and [with_time_zone] as PostgreSQL does: with a time zone
    when the value is the stored one.  [next_after_largest] numbers a new row
    one above the largest key of its table.  [accepts] takes every flush, and
    [int4_columns] refuses one that leaves a [minimum_sample_size] outside the
    32-bit range of an INTEGER column. *)
Definition without_time_zone (db : Session) (campaign : ABTestCampaign.t) : bool :=
  false.

Definition with_time_zone (db : Session) (campaign : ABTestCampaign.t) : bool :=
  bool_decide (ABTestCampaign.started_at
                 <$> test_by_id (ABTestCampaign.id campaign) (stored db)
               = Some (ABTestCampaign.started_at campaign)).

Definition next_after_largest {A} (key : A -> Z) (rows : list A) : Z :=
  1 + foldr Z.max 0 (key <$> rows).

Definition accepts (stored new : Tables) : option string := None.

Definition int4_columns (stored new : Tables) : option string :=
  if forallb (fun c => (-2147483648 <=? ABTestCampaign.minimum_sample_size c)
                       && (ABTestCampaign.minimum_sample_size c <=? 2147483647))
       (ab_test_campaigns new)
  then None
  else Some "integer out of range".

(** An object to run the loop of [update_ab_test_metrics] on: of the
    attributes that are no integer metric column it has the key [id] and the
    rate [variant_a_conversion_rate], which an assignment overwrites, and the
    relationship [variants], which refuses an integer; it has no other
    attribute. *)
Definition with_id (v : Z) (r : ABTestCampaign.t) : ABTestCampaign.t :=
  ABTestCampaign.mk v (ABTestCampaign.user_id r) (ABTestCampaign.name r)
    (ABTestCampaign.test_type r) (ABTestCampaign.status r)
    (ABTestCampaign.traffic_split r) (ABTestCampaign.minimum_sample_size r)
    (ABTestCampaign.confidence_level r) (ABTestCampaign.variant_a_recipients r)
    (ABTestCampaign.variant_b_recipients r) (ABTestCampaign.variant_a_delivered r)
    (ABTestCampaign.variant_b_delivered r) (ABTestCampaign.variant_a_opened r)
    (ABTestCampaign.variant_b_opened r) (ABTestCampaign.variant_a_clicked r)
    (ABTestCampaign.variant_b_clicked r) (ABTestCampaign.variant_a_replied r)
    (ABTestCampaign.variant_b_replied r) (ABTestCampaign.variant_a_conversion_rate r)
    (ABTestCampaign.variant_b_conversion_rate r)
    (ABTestCampaign.statistical_significance r) (ABTestCampaign.winner_variant r)
    (ABTestCampaign.started_at r) (ABTestCampaign.completed_at r).

Definition setattr_sample (key : string) (value : Z) (campaign : ABTestCampaign.t)
    : Py.Exc ABTestCampaign.t :=
  if String.eqb key "id" then Py.ret (with_id value campaign)
  else if String.eqb key "variant_a_conversion_rate"
  then Py.ret (ABTestCampaign.set_variant_a_conversion_rate (Py.of_int value) campaign)
  else if String.eqb key "variants"
  then Py.raise (Py.TypeError "Incompatible collection type: int is not list-like")
  else Py.ret campaign.

(** ** Further observations *)



(** ** More of [SMSService]  (app/services/sms_service.py) *)

(** [calculate_sms_count], on ASCII text. *)
Definition calculate_sms_count (message : string) : Z :=
  if Z.of_nat (String.length message) <=? 160 then 1
  else Z.of_nat (String.length message) / 153 + 1.

(** The shape of a result dictionary: a success is "sent", has no error and
    names its cost and provider; a failure is "failed", has an error text and
    neither identifier nor cost. *)
Definition well_formed (r : SendResult.t) : Prop :=
  if SendResult.success r
  then SendResult.status r = "sent" /\ SendResult.error r = None
       /\ is_Some (SendResult.cost r) /\ is_Some (SendResult.provider r)
  else SendResult.status r = "failed" /\ is_Some (SendResult.error r)
       /\ SendResult.message_id r = None /\ SendResult.cost r = None
       /\ SendResult.provider r = None.

(** ** The Twilio webhook  (app/routers/webhooks.py) *)

Section TwilioWebhook.

Variable Message_class : Message.class.

(** The assignments of the handler to a mapped message, one attribute each. *)
Definition assign_status (st : MessageStatus) (m : Message.t) : Message.t :=
  Message.set_delivery st (Message.delivered_at m) (Message.error_message m) m.

Definition assign_delivered_at (d : option datetime) (m : Message.t) : Message.t :=
  Message.set_delivery (Message.status m) d (Message.error_message m) m.

Definition assign_error_message (err : option string) (m : Message.t) : Message.t :=
  Message.set_delivery (Message.status m) (Message.delivered_at m) err m.

(** [handle_twilio_webhook] on the form fields [data]; the reply is the value
    of its ["status"] key; [now] is [datetime.utcnow()]. *)
Definition handle_twilio_webhook_over (now : datetime) (data : gmap string string)
    (db : Session) : string * Session :=
  let message_sid := data !! "MessageSid" in
  let message_status := data !! "MessageStatus" in
  if negb (truthy message_sid) || negb (truthy message_status)
  then ("error", db)
  else
    let message_sid := default "" message_sid in
    let message_status := default "" message_status in
    (* Find message by Twilio SID *)
    match Message.class_attribute Message_class "provider_message_id" with
    | inl _ => ("error", db)
    | inr provider_message_id =>
      match find (fun m => bool_decide (provider_message_id m = Message.Text message_sid))
                 (messages (working db)) with
      | None => ("success", db)
      | Some message =>
        (* Map Twilio status to our status *)
        let internal_status :=
          default MSG_PENDING (status_mapping (Py.lower message_status)) in
        let message := assign_status internal_status message in
        let message :=
          if bool_decide (internal_status = MSG_SENT)
          then assign_delivered_at (Some now) message
          else if bool_decide (internal_status = MSG_FAILED)
          then assign_error_message
                 (Some (default "Delivery failed" (data !! "ErrorMessage"))) message
          else message in
        ("success",
         commit (on_working (fun t =>
           set_messages (write_row Message.id message (messages t)) t) db))
      end
    end.

End TwilioWebhook.

(** The handler of the repository. *)
Definition handle_twilio_webhook : datetime -> gmap string string -> Session
    -> string * Session :=
  handle_twilio_webhook_over Message.getattr.

(** The form [MessageSid=SM1&MessageStatus=delivered] and the callback body
    [{"message_id": "SM1", "status": "read"}], whose status word the handlers
    do not know. *)
Definition twilio_delivered : gmap string string :=
  {[ "MessageSid" := "SM1"; "MessageStatus" := "delivered" ]}.

Definition read_callback : gmap string string :=
  {[ "message_id" := "SM1"; "status" := "read" ]}.

(** Campaign 1 already in status "sent", with its one message. *)
Definition sent_tables : Tables :=
  mkTables [] [] [] [] [] [sample_message MSG_SENT]
    [Campaign.mk 1 7 CAMPAIGN_SENT (Some 10) 1 1 0].

(** ** The A/B testing routes  (app/routers/ab_testing.py) *)

(** [fastapi.HTTPException]: what a route raises instead of returning. *)
Module HTTPException.

Record t : Type := mk {
  status_code : Z;
  detail : string
}.

End HTTPException.

Section ABTestingRoutes.

Variable erf : float -> float.
Variable asin : float -> float.
Variable shuffle : list Contact.t -> list Contact.t.

(** What the database decides, as for the service. *)
Variable aware_timestamps : Session -> ABTestCampaign.t -> bool.
Variable next_test_id : list ABTestCampaign.t -> Z.
Variable next_variant_id : list ABTestVariant.t -> Z.
Variable next_recipient_id : list ABTestRecipient.t -> Z.
Variable refuses : Tables -> Tables -> option string.

(** [str(e)] on an [HTTPException], which the installed version of the web
    framework defines. *)
Variable str_http : HTTPException.t -> string.

(** The handler every route body is wrapped in:
    [except Exception as e: raise HTTPException(500, detail=f"{prefix}{str(e)}")].
    The services catch their own exceptions, so the only exception the body of
    a route raises is the [HTTPException] of its [else] branch. *)
Definition except_Exception {A} (prefix : string) (body : HTTPException.t + A)
    : HTTPException.t + A :=
  match body with
  | inl e => inl (HTTPException.mk 500 (prefix +:+ str_http e))
  | inr a => inr a
  end.

(** [if result.get("success"): return ... else: raise HTTPException(400, ...)]. *)
Definition success_or_400 {A} (result : reply A) : HTTPException.t + A :=
  match result with
  | Success a => inr a
  | Failure error => inl (HTTPException.mk 400 error)
  end.

(** [create_ab_test_campaign]; [campaign_data] is the validated request body. *)
Definition create_ab_test_campaign (campaign_data : TestData) (current_user_id : Z)
    (db : Session) : (HTTPException.t + Z) * Session :=
  let '(result, db) :=
    create_ab_test next_test_id next_variant_id refuses
      current_user_id campaign_data db in
  (except_Exception "Error creating A/B test: " (success_or_400 result), db).

(** [start_ab_test_campaign]. *)
Definition start_ab_test_campaign (campaign_id current_user_id : Z) (now : datetime)
    (db : Session) : (HTTPException.t + string) * Session :=
  let '(result, db) :=
    start_ab_test shuffle next_recipient_id campaign_id current_user_id now db in
  (except_Exception "Error starting A/B test: " (success_or_400 result), db).

(** [analyze_ab_test_campaign]: the service is called with the key alone. *)
Definition analyze_ab_test_campaign (campaign_id current_user_id : Z) (now : datetime)
    (db : Session) : (HTTPException.t + Analysis) * Session :=
  let '(result, db) := analyze_ab_test erf asin aware_timestamps campaign_id now db in
  (except_Exception "Error analyzing A/B test: " (success_or_400 result), db).

End ABTestingRoutes.

(** [delete_ab_test_campaign]: three bulk deletes by the key of the test, the
    delete of the test row, one commit. *)
Definition delete_ab_test_campaign (campaign_id current_user_id : Z) (db : Session)
    : (HTTPException.t + string) * Session :=
  match find (fun c => (ABTestCampaign.id c =? campaign_id)
                       && (ABTestCampaign.user_id c =? current_user_id))
             (ab_test_campaigns (working db)) with
  | None => (inl (HTTPException.mk 404 "A/B test campaign not found"), db)
  | Some campaign =>
    (* Delete related records *)
    let db := on_working (fun t =>
      set_ab_test_recipients
        (List.filter (fun r => negb (ABTestRecipient.campaign_id r =? campaign_id))
           (ab_test_recipients t)) t) db in
    let db := on_working (fun t =>
      set_ab_test_results
        (List.filter (fun r => negb (ABTestResult.campaign_id r =? campaign_id))
           (ab_test_results t)) t) db in
    let db := on_working (fun t =>
      set_ab_test_variants
        (List.filter (fun v => negb (ABTestVariant.campaign_id v =? campaign_id))
           (ab_test_variants t)) t) db in
    let db := on_working (fun t =>
      set_ab_test_campaigns
        (List.filter (fun c => negb (ABTestCampaign.id c =? ABTestCampaign.id campaign))
           (ab_test_campaigns t)) t) db in
    (inr "A/B test campaign deleted successfully", commit db)
  end.

(** Test 1 of user 7 after a start on 200 contacts: running, with its
    recipient rows. *)
Definition started_session : Session :=
  (start_ab_test (@rev Contact.t) (next_after_largest ABTestRecipient.id) 1 7 0
     (session_of (sample_tables 200 scenario_draft))).2.

(** [str(e)] as the web framework renders it from version 0.27 on:
    the status code, a colon and the detail. *)
Definition str_status_and_detail (e : HTTPException.t) : string :=
  pretty (HTTPException.status_code e) +:+ ": " +:+ HTTPException.detail e.

(** ** [process_campaign_messages]  (app/services/sms_service.py)

    The function runs on the module's global [sms_service], whose provider is
    the mock one.  It has no [try]: what its body raises escapes to the caller,
    the Celery task of app/tasks/sms_tasks.py, which closes the session. *)

(** What escapes the function: the [KeyError] of a subscript on a result
    dictionary, or the error the database raises on a query. *)
Inductive task_exn : Type :=
| KeyError (key : string)
| DatabaseError (msg : string).

(** The campaign row after the assignments of the function. *)
Definition campaign_sending (now : datetime) (c : Campaign.t) : Campaign.t :=
  Campaign.mk (Campaign.id c) (Campaign.user_id c) CAMPAIGN_SENDING (Some now)
    (Campaign.total_recipients c) (Campaign.delivered_count c) (Campaign.failed_count c).

Definition campaign_sent (c : Campaign.t) : Campaign.t :=
  Campaign.mk (Campaign.id c) (Campaign.user_id c) CAMPAIGN_SENT (Campaign.sent_at c)
    (Campaign.total_recipients c) (Campaign.delivered_count c) (Campaign.failed_count c).

(** The message row after the assignments of the result loop. *)
Definition message_sent (now : datetime) (m : Message.t) : Message.t :=
  Message.mk (Message.id m) (Message.campaign_id m) (Message.contact_id m)
    (Message.recipient m) (Message.content m) MSG_SENT (Some now)
    (Message.delivered_at m) (Message.error_message m) (Message.message_id m)
    (Message.is_incoming m) (Message.created_at m).

Definition message_failed (error : string) (m : Message.t) : Message.t :=
  Message.mk (Message.id m) (Message.campaign_id m) (Message.contact_id m)
    (Message.recipient m) (Message.content m) MSG_FAILED (Message.sent_at m)
    (Message.delivered_at m) (Some error) (Message.message_id m)
    (Message.is_incoming m) (Message.created_at m).

Section ProcessCampaignMessages.

(** The world met by the send at each position, and the clock read at each
    turn of the result loop. *)
Variable world : nat -> World.
Variable clock : nat -> datetime.

(** [db.query(Message).filter(Message.id == v).first()] for a text [v], the
    provider's identifier: how the INTEGER key compares with a text, or that
    the comparison is an error, is the database's. *)
Variable first_message_with_id : string -> list Message.t -> task_exn + option Message.t.

(** [result["message_id"]]: the key is in the dictionary of an accepted send
    and in no other. *)
Definition result_message_id (result : SendResult.t) : task_exn + string :=
  match SendResult.message_id result with
  | Some v => inr v
  | None => inl (KeyError "message_id")
  end.

(** The state of the result loop: the session and the two counts. *)
Definition loop_state : Type := (Session * Z * Z)%type.

(** One turn of [for result in results]. *)
Definition record_result (i : nat) (state : loop_state) (result : SendResult.t)
    : task_exn + loop_state :=
  let '(db, delivered_count, failed_count) := state in
  match result_message_id result with
  | inl e => inl e
  | inr key =>
    match first_message_with_id key (messages (working db)) with
    | inl e => inl e
    | inr None => inr state
    | inr (Some message) =>
      if SendResult.success result
      then
        let message := message_sent (clock i) message in
        inr (on_working (fun t =>
               set_messages (write_row Message.id message (messages t)) t) db,
             delivered_count + 1, failed_count)
      else
        let message :=
          message_failed (default "Unknown error" (SendResult.error result)) message in
        inr (on_working (fun t =>
               set_messages (write_row Message.id message (messages t)) t) db,
             delivered_count, failed_count + 1)
    end
  end.

(** The loop from position [i] on: the state it ends in, and the exception
    that ended it when one did. *)
Fixpoint record_results (i : nat) (state : loop_state) (results : list SendResult.t)
    : option task_exn * loop_state :=
  match results with
  | [] => (None, state)
  | result :: rest =>
    match record_result i state result with
    | inl e => (Some e, state)
    | inr state => record_results (S i) state rest
    end
  end.

(** The pending messages of a campaign. *)
Definition pending_messages (campaign_id : Z) (rows : list Message.t) : list Message.t :=
  List.filter (fun m => of_campaign campaign_id m
                        && bool_decide (Message.status m = MSG_PENDING)) rows.

(** [process_campaign_messages]; [now] is the first [datetime.utcnow()].  The
    result is the exception that escaped, if any, and the session as the call
    leaves it. *)
Definition process_campaign_messages (campaign_id : Z) (now : datetime) (db : Session)
    : option task_exn * Session :=
  match find (fun c => Campaign.id c =? campaign_id) (campaigns (working db)) with
  | None => (None, db)
  | Some campaign =>
    (* Update campaign status to sending *)
    let campaign := campaign_sending now campaign in
    let db := commit (on_working (fun t =>
      set_campaigns (write_row Campaign.id campaign (campaigns t)) t) db) in
    (* Get pending messages for this campaign *)
    let messages := pending_messages campaign_id (messages (working db)) in
    match messages with
    | [] =>
      let campaign := campaign_sent campaign in
      (None, commit (on_working (fun t =>
         set_campaigns (write_row Campaign.id campaign (campaigns t)) t) db))
    | _ =>
      (* Prepare messages for sending *)
      let message_data :=
        (fun m => OutMsg.mk (Message.recipient m) (Message.content m) None)
          <$> messages in
      (* Send messages *)
      let results := send_bulk_sms MOCK world message_data in
      (* Update message statuses *)
      match record_results 0 (db, 0, 0) results with
      | (Some e, (db, _, _)) => (Some e, db)
      | (None, (db, delivered_count, failed_count)) =>
        (* Update campaign statistics *)
        let campaign :=
          Campaign.set_counts delivered_count failed_count (campaign_sent campaign) in
        (None, commit (on_working (fun t =>
           set_campaigns (write_row Campaign.id campaign (campaigns t)) t) db))
      end
    end
  end.

End ProcessCampaignMessages.

(** [send_campaign_task] of app/tasks/sms_tasks.py: a session of its own on the
    database, the function above, then [db.close()] in a [finally], which
    drops what the session has not committed.  The result is the exception
    that escaped, if any, and the database after the task. *)
Definition send_campaign_task (world : nat -> World) (clock : nat -> datetime)
    (first_message_with_id : string -> list Message.t -> task_exn + option Message.t)
    (campaign_id : Z) (now : datetime) (database : Tables) : option task_exn * Tables :=
  let db := session_of database in
  let '(raised, db) :=
    process_campaign_messages world clock first_message_with_id campaign_id now db in
  (raised, stored db).

(** A database in which an INTEGER key equals no text. *)
Definition no_row_for_text (v : string) (rows : list Message.t)
    : task_exn + option Message.t := inr None.

(** A database that refuses to compare an INTEGER key with a text. *)
Definition text_is_no_integer (v : string) (rows : list Message.t)
    : task_exn + option Message.t :=
  inl (DatabaseError ("invalid input syntax for type integer: " +:+ v)).

(** Campaign 1 with two pending messages, the second to a number that fails
    the validation; a world in which the mock provider accepts. *)
Definition two_pending : Tables :=
  mkTables [] [] [] [] []
    [ Message.mk 1 (Some 1) (Some 1) "+14155550101" "Hello" MSG_PENDING None None None
        None "false" 5;
      Message.mk 2 (Some 1) (Some 2) "12345" "Hello" MSG_PENDING None None None
        None "false" 5 ]
    [Campaign.mk 1 7 CAMPAIGN_DRAFT None 2 0 0].

Definition one_pending : Tables :=
  mkTables [] [] [] [] []
    [ Message.mk 1 (Some 1) (Some 1) "+14155550101" "Hello" MSG_PENDING None None None
        None "false" 5 ]
    [Campaign.mk 1 7 CAMPAIGN_DRAFT None 1 0 0].

Definition mock_accepts (i : nat) : World :=
  mkWorld (Py.raise (Py.TimeoutError "unused")) 1700000000 0.5%float 4242.

(** ** [check_delivery_status_task]  (app/tasks/sms_tasks.py) *)

(** Truth value of a column value. *)
Definition value_truthy (v : Message.value) : bool :=
  match v with
  | Message.Null => false
  | Message.Int n => negb (n =? 0)
  | Message.Text s => truthy (Some s)
  | Message.Status _ => true
  end.

Definition message_delivered (now : datetime) (m : Message.t) : Message.t :=
  Message.mk (Message.id m) (Message.campaign_id m) (Message.contact_id m)
    (Message.recipient m) (Message.content m) MSG_DELIVERED (Message.sent_at m)
    (Some now) (Message.error_message m) (Message.message_id m)
    (Message.is_incoming m) (Message.created_at m).

Section DeliveryStatusTask.

(** The mapped class [Message], the status [random.choice] draws in the mock
    status check at each turn of the loop, and the clock read there. *)
Variable Message_class : Message.class.
Variable mock_status : nat -> string.
Variable clock : nat -> datetime.

(** The messages "sent in the last 24 hours". *)
Definition recently_sent (now : datetime) (rows : list Message.t) : list Message.t :=
  let cutoff_time := now - 86400 in
  List.filter (fun m => bool_decide (Message.status m = MSG_SENT)
                        && match Message.sent_at m with
                           | Some t => cutoff_time <=? t
                           | None => false
                           end) rows.

(** The body of [for message in messages]: [hasattr(message, name)] holds
    when the class has the attribute. *)
Definition check_message (i : nat) (db : Session) (message : Message.t) : Session :=
  match Message_class "vendor_message_id" with
  | None => db
  | Some vendor_message_id =>
    if value_truthy (vendor_message_id message)
    then
      (* result = {"success": True, "status": random.choice(statuses), ...} *)
      if String.eqb (mock_status i) "delivered"
      then on_working (fun t =>
             set_messages (write_row Message.id (message_delivered (clock i) message)
                             (messages t)) t) db
      else db
    else db
  end.

Fixpoint check_messages (i : nat) (db : Session) (messages : list Message.t) : Session :=
  match messages with
  | [] => db
  | message :: rest => check_messages (S i) (check_message i db message) rest
  end.

(** The task: a session of its own, the loop, one commit, [db.close()]. *)
Definition check_delivery_status_task_over (now : datetime) (database : Tables) : Tables :=
  let db := session_of database in
  let messages := recently_sent now (messages (working db)) in
  let db := check_messages 0 db messages in
  stored (commit db).

End DeliveryStatusTask.

(** The task of the repository. *)
Definition check_delivery_status_task : (nat -> string) -> (nat -> datetime) -> datetime
    -> Tables -> Tables :=
  check_delivery_status_task_over Message.getattr.

(** The class [Message] with one more attribute, [vendor_message_id], reading
    the column that holds the provider's identifier. *)
Definition with_vendor_message_id : Message.class := fun name =>
  if String.eqb name "vendor_message_id"
  then Some (fun r => Message.of_option Message.Text (Message.message_id r))
  else Message.getattr name.
(** * Properties *)

(** ** Python numerics *)

Lemma slice_to_from {A} (l : list A) (k : Z) :
  Py.slice_to l k ++ Py.slice_from l k = l.
Proof. apply firstn_skipn. Qed.

Lemma slice_index_in_range {A} (l : list A) (k : Z) :
  0 <= k <= Z.of_nat (length l) -> Py.slice_index l k = Z.to_nat k.
Proof.
  intros [Hk0 Hkn]. unfold Py.slice_index.
  destruct (Z.ltb_spec k 0) as [Hneg|_]; [lia|].
  f_equal. lia.
Qed.

Lemma length_slice_to {A} (l : list A) (k : Z) :
  0 <= k <= Z.of_nat (length l) -> Z.of_nat (length (Py.slice_to l k)) = k.
Proof.
  intros Hk. unfold Py.slice_to.
  rewrite slice_index_in_range by exact Hk.
  rewrite length_firstn. lia.
Qed.

Lemma length_slice_from {A} (l : list A) (k : Z) :
  0 <= k <= Z.of_nat (length l) ->
  Z.of_nat (length (Py.slice_from l k)) = Z.of_nat (length l) - k.
Proof.
  intros Hk. unfold Py.slice_from.
  rewrite slice_index_in_range by exact Hk.
  rewrite length_skipn. lia.
Qed.

(** On a float that is not negative, [int()] is the floor. *)
Lemma int_of_float_floor (x : float) (k : Z) :
  Py.floor x = Some k -> 0 <= k -> Py.int_of_float x = Py.ret k.
Proof.
  unfold Py.floor, Py.to_Q, Py.int_of_float.
  destruct (Prim2SF x) as [s| s | |s m e]; simpl; try discriminate.
  - intros [= <-] _. reflexivity.
  - destruct (Z.leb_spec 0 e) as [He|He].
    + assert (0 < Z.pos m * 2 ^ e)
        by (apply Z.mul_pos_pos; [lia | apply Z.pow_pos_nonneg; lia]).
      destruct s; simpl; intros [= <-] Hk.
      * exfalso. rewrite Z.div_1_r in Hk. lia.
      * unfold Qfloor. simpl. rewrite Z.div_1_r. reflexivity.
    + assert (Hd : 0 < 2 ^ (- e)) by (apply Z.pow_pos_nonneg; lia).
      assert (Hp : Z.pos (Z.to_pos (2 ^ (- e))) = 2 ^ (- e)) by (apply Z2Pos.id; exact Hd).
      destruct s; simpl; intros [= <-] Hk.
      * exfalso. rewrite Hp in Hk.
        assert (Z.neg m / 2 ^ (- e) < 0) by (apply Z.div_lt_upper_bound; lia).
        lia.
      * rewrite Hp. reflexivity.
Qed.

(** ** Rows and primary keys *)

Lemma find_weaken {A} (P Q : A -> bool) (l : list A) (x : A) :
  (forall y, P y = true -> Q y = true) ->
  find P l = Some x -> exists z, find Q l = Some z.
Proof.
  intros HPQ. induction l as [|y l IH]; simpl; [discriminate|].
  destruct (P y) eqn:HP.
  - intros _. rewrite (HPQ y HP). eauto.
  - intros H. destruct (Q y); eauto.
Qed.

Lemma find_write_row {A} (key : A -> Z) (r : A) (rows : list A) (x : A) :
  find (fun y => key y =? key r) rows = Some x ->
  find (fun y => key y =? key r) (write_row key r rows) = Some r.
Proof.
  unfold write_row. induction rows as [|y rows IH]; simpl; [discriminate|].
  destruct (key y =? key r) eqn:Hy.
  - intros _. rewrite Z.eqb_refl. reflexivity.
  - intros H. rewrite Hy. apply IH, H.
Qed.

Lemma find_key_eq {A} (key : A -> Z) (k : Z) (rows : list A) (x : A) :
  find (fun y => key y =? k) rows = Some x -> key x = k.
Proof.
  intros H. apply find_some in H. destruct H as [_ H]. apply Z.eqb_eq, H.
Qed.

(** ** Starting a test *)

Section StartProperties.

Variable shuffle : list Contact.t -> list Contact.t.
Variable next_recipient_id : list ABTestRecipient.t -> Z.

(** The rows [add_recipients] appends: one per contact, in order, all bound to
    the given test and variant. *)
Lemma add_recipients_spec (cid vid : Z) (cs : list Contact.t) :
  forall rows, exists new,
    add_recipients next_recipient_id cid vid cs rows = rows ++ new /\
    ABTestRecipient.contact_id <$> new = Contact.id <$> cs /\
    Forall (fun r => ABTestRecipient.campaign_id r = cid
                     /\ ABTestRecipient.variant_id r = vid) new.
Proof.
  induction cs as [|c cs IH]; intros rows.
  - exists []. rewrite app_nil_r. repeat split; constructor.
  - destruct (IH (rows ++ [new_recipient next_recipient_id cid vid rows c]))
      as (new & Hadd & Hids & Hall).
    exists (new_recipient next_recipient_id cid vid rows c :: new). repeat split.
    + unfold add_recipients in *. simpl. rewrite Hadd, <- app_assoc. reflexivity.
    + simpl. f_equal. exact Hids.
    + constructor; [split; reflexivity | exact Hall].
Qed.

Lemma start_ab_test_success (cid uid : Z) (now : datetime) (db : Session)
    (campaign : ABTestCampaign.t) (k : Z) (variant_a variant_b : ABTestVariant.t) :
  find (fun c => (ABTestCampaign.id c =? cid) && (ABTestCampaign.user_id c =? uid))
       (ab_test_campaigns (working db)) = Some campaign ->
  ABTestCampaign.status campaign = DRAFT ->
  let people := List.filter (fun c => Contact.user_id c =? uid) (contacts (working db)) in
  ABTestCampaign.minimum_sample_size campaign <= Z.of_nat (length people) ->
  Py.int_of_float (Py.of_int (Z.of_nat (length (shuffle people)))
                   * ABTestCampaign.traffic_split campaign) = Py.ret k ->
  let variants := List.filter (fun v => ABTestVariant.campaign_id v =? cid)
                    (ab_test_variants (working db)) in
  variant_named "A" variants = Some variant_a ->
  variant_named "B" variants = Some variant_b ->
  let group_a := Py.slice_to (shuffle people) k in
  let group_b := Py.slice_from (shuffle people) k in
  exists db',
    start_ab_test shuffle next_recipient_id cid uid now db
    = (Success "A/B test started successfully", db')
    /\ stored db' = working db'
    /\ ab_test_recipients (working db') =
         add_recipients next_recipient_id cid (ABTestVariant.id variant_b) group_b
           (add_recipients next_recipient_id cid (ABTestVariant.id variant_a) group_a
              (ab_test_recipients (working db)))
    /\ ab_test_campaigns (working db') =
         write_row ABTestCampaign.id
           (started now (Z.of_nat (length group_a)) (Z.of_nat (length group_b)) campaign)
           (write_row ABTestCampaign.id
              (ABTestCampaign.set_started_at (Some now)
                 (ABTestCampaign.set_status RUNNING campaign))
              (ab_test_campaigns (working db))).
Proof.
  intros Hfind Hdraft people Hmin Hsplit variants Ha Hb group_a group_b.
  unfold start_ab_test. rewrite Hfind, Hdraft.
  rewrite bool_decide_eq_true_2 by reflexivity. simpl negb. cbv iota.
  cbn [working on_working contacts set_ab_test_campaigns ab_test_variants
       ABTestCampaign.minimum_sample_size ABTestCampaign.traffic_split
       ABTestCampaign.set_started_at ABTestCampaign.set_status].
  fold people.
  destruct (Z.ltb_spec (Z.of_nat (length people))
              (ABTestCampaign.minimum_sample_size campaign)) as [Hlt|_]; [lia|].
  rewrite Hsplit. unfold Py.ret. fold variants. rewrite Ha, Hb.
  eexists. split; [reflexivity|]. repeat split.
Qed.

End StartProperties.

(** ** Variant assignment *)

Section Assignment.

Variable shuffle : list Contact.t -> list Contact.t.
Variable next_recipient_id : list ABTestRecipient.t -> Z.
Hypothesis shuffle_permutes : forall l, Permutation (shuffle l) l.

(** C4, as amended.  Whenever the double-precision product [float(N) * split]
    has a floor [k] between 0 and [N], a successful start commits [k] recipient
    rows for variant A and [N - k] for variant B, records the same two counts
    on the test, and the contacts of the new rows are the owner's contacts,
    each exactly once. *)
Theorem variant_assignment_partition (cid uid : Z) (now : datetime) (db : Session)
    (campaign : ABTestCampaign.t) (k : Z) (variant_a variant_b : ABTestVariant.t) :
  find (fun c => (ABTestCampaign.id c =? cid) && (ABTestCampaign.user_id c =? uid))
       (ab_test_campaigns (working db)) = Some campaign ->
  ABTestCampaign.status campaign = DRAFT ->
  let people := List.filter (fun c => Contact.user_id c =? uid) (contacts (working db)) in
  let N := Z.of_nat (length people) in
  ABTestCampaign.minimum_sample_size campaign <= N ->
  Py.floor (Py.of_int N * ABTestCampaign.traffic_split campaign) = Some k ->
  0 <= k <= N ->
  let variants := List.filter (fun v => ABTestVariant.campaign_id v =? cid)
                    (ab_test_variants (working db)) in
  variant_named "A" variants = Some variant_a ->
  variant_named "B" variants = Some variant_b ->
  exists db' rows_a rows_b test,
    start_ab_test shuffle next_recipient_id cid uid now db
    = (Success "A/B test started successfully", db')
    /\ ab_test_recipients (stored db') = ab_test_recipients (working db) ++ rows_a ++ rows_b
    /\ Forall (fun r => ABTestRecipient.variant_id r = ABTestVariant.id variant_a) rows_a
    /\ Forall (fun r => ABTestRecipient.variant_id r = ABTestVariant.id variant_b) rows_b
    /\ Z.of_nat (length rows_a) = k
    /\ Z.of_nat (length rows_b) = N - k
    /\ Permutation (ABTestRecipient.contact_id <$> (rows_a ++ rows_b)) (Contact.id <$> people)
    /\ (NoDup (Contact.id <$> people) ->
        NoDup (ABTestRecipient.contact_id <$> (rows_a ++ rows_b)))
    /\ test_by_id cid (stored db') = Some test
    /\ ABTestCampaign.status test = RUNNING
    /\ ABTestCampaign.variant_a_recipients test = k
    /\ ABTestCampaign.variant_b_recipients test = N - k.
Proof.
  intros Hfind Hdraft. cbv zeta.
  remember (List.filter (fun c => Contact.user_id c =? uid) (contacts (working db)))
    as people eqn:Hpeople.
  intros Hmin Hfloor Hk Ha Hb.
  assert (Hlen : length (shuffle people) = length people)
    by (apply Permutation_length, shuffle_permutes).
  assert (HkN : 0 <= k <= Z.of_nat (length (shuffle people))) by (rewrite Hlen; exact Hk).
  pose proof (start_ab_test_success shuffle next_recipient_id cid uid now db campaign k
                variant_a variant_b
                Hfind Hdraft) as Hs.
  cbv zeta in Hs. rewrite <- Hpeople in Hs.
  destruct Hs as (db' & Hrun & Hstored & Hrec & Hcamp); try assumption.
  { rewrite Hlen. apply int_of_float_floor; [exact Hfloor | lia]. }
  set (group_a := Py.slice_to (shuffle people) k) in *.
  set (group_b := Py.slice_from (shuffle people) k) in *.
  destruct (add_recipients_spec next_recipient_id cid (ABTestVariant.id variant_a) group_a
              (ab_test_recipients (working db))) as (rows_a & Hadd_a & Hids_a & Hall_a).
  destruct (add_recipients_spec next_recipient_id cid (ABTestVariant.id variant_b) group_b
              (ab_test_recipients (working db) ++ rows_a))
    as (rows_b & Hadd_b & Hids_b & Hall_b).
  assert (Hla : Z.of_nat (length rows_a) = k).
  { rewrite <- (length_fmap ABTestRecipient.contact_id), Hids_a, length_fmap.
    apply length_slice_to, HkN. }
  assert (Hlb : Z.of_nat (length rows_b) = Z.of_nat (length people) - k).
  { rewrite <- (length_fmap ABTestRecipient.contact_id), Hids_b, length_fmap.
    unfold group_b. rewrite length_slice_from by exact HkN. rewrite Hlen. reflexivity. }
  assert (Hperm : Permutation (ABTestRecipient.contact_id <$> (rows_a ++ rows_b))
                    (Contact.id <$> people)).
  { rewrite fmap_app, Hids_a, Hids_b, <- fmap_app.
    unfold group_a, group_b. rewrite slice_to_from.
    apply Permutation_map, shuffle_permutes. }
  destruct (find_weaken _ (fun c => ABTestCampaign.id c =? cid) _ _
              (fun y Hy => proj1 (andb_prop _ _ Hy)) Hfind) as (c0 & Hc0).
  assert (Hid : ABTestCampaign.id campaign = cid).
  { apply find_some in Hfind. destruct Hfind as [_ Hp].
    apply andb_prop in Hp. apply Z.eqb_eq, Hp. }
  exists db', rows_a, rows_b,
    (started now (Z.of_nat (length group_a)) (Z.of_nat (length group_b)) campaign).
  split; [exact Hrun|]. rewrite Hstored.
  split; [rewrite Hrec, Hadd_a, Hadd_b, <- app_assoc; reflexivity|].
  split; [eapply Forall_impl; [exact Hall_a | intros r Hr; apply Hr]|].
  split; [eapply Forall_impl; [exact Hall_b | intros r Hr; apply Hr]|].
  split; [exact Hla|]. split; [exact Hlb|]. split; [exact Hperm|].
  split; [intros Hnd; rewrite Hperm; exact Hnd|].
  split.
  - unfold test_by_id. rewrite Hcamp. rewrite <- Hid in *.
    eapply (find_write_row ABTestCampaign.id
              (started now (Z.of_nat (length group_a)) (Z.of_nat (length group_b)) campaign)).
    eapply (find_write_row ABTestCampaign.id
              (ABTestCampaign.set_started_at (Some now)
                 (ABTestCampaign.set_status RUNNING campaign))).
    exact Hc0.
  - split; [reflexivity|]. split.
    + simpl. unfold group_a. apply length_slice_to, HkN.
    + simpl. unfold group_b. rewrite length_slice_from by exact HkN.
      rewrite Hlen. reflexivity.
Qed.

End Assignment.

(** The theorem at the 200-contact scenario: split 0.5 gives 100 and 100. *)
Lemma variant_assignment_partition_200 :
  exists db' rows_a rows_b test,
    start_ab_test (@rev Contact.t) (next_after_largest ABTestRecipient.id) 1 7 0
      (session_of (sample_tables 200 scenario_draft))
      = (Success "A/B test started successfully", db')
    /\ ab_test_recipients (stored db') = [] ++ rows_a ++ rows_b
    /\ Forall (fun r => ABTestRecipient.variant_id r = 1) rows_a
    /\ Forall (fun r => ABTestRecipient.variant_id r = 2) rows_b
    /\ Z.of_nat (length rows_a) = 100
    /\ Z.of_nat (length rows_b) = 200 - 100
    /\ Permutation (ABTestRecipient.contact_id <$> (rows_a ++ rows_b))
         (Contact.id <$> population 200)
    /\ (NoDup (Contact.id <$> population 200) ->
        NoDup (ABTestRecipient.contact_id <$> (rows_a ++ rows_b)))
    /\ test_by_id 1 (stored db') = Some test
    /\ ABTestCampaign.status test = RUNNING
    /\ ABTestCampaign.variant_a_recipients test = 100
    /\ ABTestCampaign.variant_b_recipients test = 200 - 100.
Proof.
  apply (variant_assignment_partition (@rev Contact.t) (next_after_largest ABTestRecipient.id)
           (fun l => Permutation_sym (Permutation_rev l)) 1 7 0
           (session_of (sample_tables 200 scenario_draft)) scenario_draft 100
           (sample_variant 1 "A") (sample_variant 2 "B")).
  - reflexivity.
  - reflexivity.
  - vm_compute. discriminate.
  - vm_compute. reflexivity.
  - vm_compute. split; discriminate.
  - reflexivity.
  - reflexivity.
Defined.

(** C4 as stated fails outside the unit interval and on products that round:
    with two contacts and a split of 1.5 variant A receives both contacts, not
    floor(2 * 1.5) = 3, and variant B none; with 100 contacts and a split of
    0.29 variant A receives 28 contacts although floor(100 * 29/100) = 29,
    because the double 100 * 0.29 is 28.999999999999996. *)
Lemma assignment_counts_differ_from_floor :
  (exists db' test,
     start_ab_test (fun l => l) (next_after_largest ABTestRecipient.id) 1 7 0
       (session_of (sample_tables 2 (sample_test DRAFT 1.5 2 0.95 0 0 0 0)))
       = (Success "A/B test started successfully", db')
     /\ test_by_id 1 (stored db') = Some test
     /\ ABTestCampaign.variant_a_recipients test = 2
     /\ ABTestCampaign.variant_b_recipients test = 0
     /\ Py.floor (Py.of_int 2 * 1.5) = Some 3)
  /\ (exists db' test,
     start_ab_test (fun l => l) (next_after_largest ABTestRecipient.id) 1 7 0
       (session_of (sample_tables 100 (sample_test DRAFT 0.29 100 0.95 0 0 0 0)))
       = (Success "A/B test started successfully", db')
     /\ test_by_id 1 (stored db') = Some test
     /\ ABTestCampaign.variant_a_recipients test = 28
     /\ ABTestCampaign.variant_b_recipients test = 72
     /\ Qfloor (inject_Z 100 * (29 # 100)) = 29).
Proof.
  split; eexists; eexists; (split; [vm_compute; reflexivity|]); vm_compute;
    repeat split.
Qed.

(** The split point at some population sizes and splits. *)
Lemma split_point_examples :
  Py.int_of_float (Py.of_int 200 * 0.5) = Py.ret 100
  /\ Py.int_of_float (Py.of_int 3 * 0.5) = Py.ret 1
  /\ Py.int_of_float (Py.of_int 10 * 0.7) = Py.ret 7
  /\ Py.int_of_float (Py.of_int 100 * 0.29) = Py.ret 28
  /\ Py.int_of_float (Py.of_int 10 * (-0.55)) = Py.ret (-5)
  /\ Py.floor (Py.of_int 10 * (-0.55)) = Some (-6).
Proof. vm_compute. repeat split. Qed.

(** ** Starting on too few contacts *)

Lemma start_ab_test_insufficient (shuffle : list Contact.t -> list Contact.t)
    (next_recipient_id : list ABTestRecipient.t -> Z)
    (cid uid : Z) (now : datetime) (db : Session) (campaign : ABTestCampaign.t) :
  find (fun c => (ABTestCampaign.id c =? cid) && (ABTestCampaign.user_id c =? uid))
       (ab_test_campaigns (working db)) = Some campaign ->
  ABTestCampaign.status campaign = DRAFT ->
  let people := List.filter (fun c => Contact.user_id c =? uid) (contacts (working db)) in
  Z.of_nat (length people) < ABTestCampaign.minimum_sample_size campaign ->
  exists db',
    start_ab_test shuffle next_recipient_id cid uid now db =
      (Failure (not_enough_contacts (ABTestCampaign.minimum_sample_size campaign)
                  (length people)), db')
    /\ stored db' = stored db
    /\ test_by_id cid (working db') =
         Some (ABTestCampaign.set_started_at (Some now)
                 (ABTestCampaign.set_status RUNNING campaign)).
Proof.
  intros Hfind Hdraft people Hlt.
  unfold start_ab_test. rewrite Hfind, Hdraft.
  rewrite bool_decide_eq_true_2 by reflexivity. simpl negb. cbv iota.
  cbn [working on_working contacts set_ab_test_campaigns
       ABTestCampaign.minimum_sample_size
       ABTestCampaign.set_started_at ABTestCampaign.set_status].
  fold people.
  destruct (Z.ltb_spec (Z.of_nat (length people))
              (ABTestCampaign.minimum_sample_size campaign)) as [_|Hge]; [|lia].
  eexists. split; [reflexivity|]. split; [reflexivity|].
  unfold test_by_id. cbn [working on_working ab_test_campaigns set_ab_test_campaigns].
  destruct (find_weaken _ (fun c => ABTestCampaign.id c =? cid) _ _
              (fun y Hy => proj1 (andb_prop _ _ Hy)) Hfind) as (c0 & Hc0).
  assert (Hid : ABTestCampaign.id campaign = cid).
  { apply find_some in Hfind. destruct Hfind as [_ Hp].
    apply andb_prop in Hp. apply Z.eqb_eq, Hp. }
  rewrite <- Hid in *.
  eapply (find_write_row ABTestCampaign.id
            (ABTestCampaign.set_started_at (Some now)
               (ABTestCampaign.set_status RUNNING campaign))).
  exact Hc0.
Qed.

(** C3, the failing input.  A draft test that needs 100 contacts is started for
    an owner with 40: the call fails with the count-based message and nothing
    is committed, but the session's test row has already been set to
    "running" with a start time: a later commit of the session stores
    "running", and only a rollback restores the draft. *)
Theorem start_underpopulated_marks_running
    (shuffle : list Contact.t -> list Contact.t)
    (next_recipient_id : list ABTestRecipient.t -> Z) (now : datetime) :
  let db := session_of (sample_tables 40 (sample_test DRAFT 0.5 100 0.95 0 0 0 0)) in
  let r := start_ab_test shuffle next_recipient_id 1 7 now db in
  r.1 = Failure "Not enough contacts. Need 100, have 40"
  /\ stored r.2 = stored db
  /\ ABTestCampaign.status <$> test_by_id 1 (stored r.2) = Some DRAFT
  /\ ABTestCampaign.status <$> test_by_id 1 (working r.2) = Some RUNNING
  /\ ABTestCampaign.started_at <$> test_by_id 1 (working r.2) = Some (Some now)
  /\ ABTestCampaign.status <$> test_by_id 1 (stored (commit r.2)) = Some RUNNING
  /\ ABTestCampaign.status <$> test_by_id 1 (working (rollback r.2)) = Some DRAFT.
Proof.
  vm_compute. repeat split.
Qed.

(** ** Analysis *)

Lemma bind_ret {A B} (a : A) (k : A -> Py.Exc B) : Py.bind (Py.ret a) k = k a.
Proof. reflexivity. Qed.

Lemma bind_inr {A B} (m : Py.Exc A) (k : A -> Py.Exc B) (b : B) :
  Py.bind m k = inr b -> exists a, m = inr a /\ k a = inr b.
Proof. destruct m as [e|a]; simpl; [discriminate | eauto]. Qed.


Lemma int_quotient_zero (b : Z) : 0 < b -> Py.int_quotient 0 b = 0%float.
Proof.
  intros Hb. unfold Py.int_quotient. simpl.
  destruct (Z.ltb_spec b 0); [lia | reflexivity].
Qed.


Section AnalysisProperties.

Variables erf asin : float -> float.
Variable aware_timestamps : Session -> ABTestCampaign.t -> bool.

Lemma analyze_ab_test_unfold (cid : Z) (now : datetime) (db : Session)
    (campaign : ABTestCampaign.t) :
  test_by_id cid (working db) = Some campaign ->
  ABTestCampaign.variant_a_recipients campaign <> 0 ->
  ABTestCampaign.variant_b_recipients campaign <> 0 ->
  analyze_ab_test erf asin aware_timestamps cid now db =
    match analysis_of erf asin aware_timestamps db now campaign with
    | inl e => (Failure (Py.str e), db)
    | inr (result, campaign', analysis) =>
        (Success analysis,
         commit (on_working (fun t =>
           set_ab_test_campaigns
             (write_row ABTestCampaign.id campaign' (ab_test_campaigns t))
             (set_ab_test_results (ab_test_results t ++ [result]) t)) db))
    end.
Proof.
  intros Hfind Ha Hb. unfold analyze_ab_test. unfold test_by_id in Hfind. rewrite Hfind.
  destruct (Z.eqb_spec (ABTestCampaign.variant_a_recipients campaign) 0); [contradiction|].
  destruct (Z.eqb_spec (ABTestCampaign.variant_b_recipients campaign) 0); [contradiction|].
  simpl orb. cbv iota.
  destruct (analysis_of erf asin aware_timestamps db now campaign)
    as [e|[[result campaign'] analysis]]; reflexivity.
Qed.

(** A failed analysis leaves the session as it was: nothing is added. *)
Lemma analyze_ab_test_failure_keeps_session (cid : Z) (now : datetime) (db db' : Session)
    (error : string) :
  analyze_ab_test erf asin aware_timestamps cid now db = (Failure error, db') -> db' = db.
Proof.
  unfold analyze_ab_test.
  destruct (find _ _) as [campaign|]; [|intros [= _ <-]; reflexivity].
  destruct (_ || _); [intros [= _ <-]; reflexivity|].
  destruct (analysis_of erf asin aware_timestamps db now campaign)
    as [e|[[result campaign'] analysis]].
  - intros [= _ <-]. reflexivity.
  - discriminate.
Qed.

(** The duration of the test is the one step of the analysis that is no
    arithmetic on the counters: it raises on a start time with a time zone, and
    returns otherwise. *)
Lemma _calculate_test_duration_cases (now : datetime) (db : Session)
    (campaign : ABTestCampaign.t) :
  if start_time_is_aware aware_timestamps db campaign
  then _calculate_test_duration aware_timestamps db now campaign
       = Py.raise (Py.TypeError Py.naive_minus_aware)
  else exists hours,
       _calculate_test_duration aware_timestamps db now campaign = Py.ret hours.
Proof.
  unfold start_time_is_aware, _calculate_test_duration.
  destruct (ABTestCampaign.started_at campaign) as [s|];
    destruct (ABTestCampaign.completed_at campaign) as [c|];
    try destruct (aware_timestamps db campaign); eauto.
Qed.


End AnalysisProperties.

Section AnalysisOutcome.

Variables erf asin : float -> float.
Variable aware_timestamps : Session -> ABTestCampaign.t -> bool.

Lemma z_test_needs_recipients (campaign : ABTestCampaign.t) (zt : ZTest) :
  z_test erf asin campaign = Py.ret zt ->
  ABTestCampaign.variant_a_recipients campaign <> 0
  /\ ABTestCampaign.variant_b_recipients campaign <> 0.
Proof.
  intros Hzt. unfold z_test in Hzt.
  apply bind_inr in Hzt. destruct Hzt as (ra & Hra & Hzt).
  apply bind_inr in Hzt. destruct Hzt as (rb & Hrb & _).
  unfold Py.int_truediv in Hra, Hrb.
  split; intros H0; rewrite H0 in *; discriminate.
Qed.

(** The ways the analysis ends once the Z-test has been computed: with the
    report, unless the duration of the test raises; with the failure of the
    improvement percentage. *)
Lemma analyze_ab_test_reports (cid : Z) (now : datetime) (db : Session)
    (campaign : ABTestCampaign.t) (zt : ZTest) (w : option string) (pct : float) :
  test_by_id cid (working db) = Some campaign ->
  z_test erf asin campaign = Py.ret zt ->
  determine_winner (zt_is_significant zt) (zt_rate_a zt) (zt_rate_b zt) = Py.ret (w, pct) ->
  if start_time_is_aware aware_timestamps db campaign
  then analyze_ab_test erf asin aware_timestamps cid now db
       = (Failure Py.naive_minus_aware, db)
  else exists db',
       analyze_ab_test erf asin aware_timestamps cid now db =
         (Success (mkAnalysis (zt_rate_a zt) (zt_rate_b zt) (zt_p_value zt)
                     (zt_is_significant zt) w pct (zt_effect_size zt)
                     (zt_ci_lower zt, zt_ci_upper zt)), db').
Proof.
  intros Hfind Hzt Hw.
  destruct (z_test_needs_recipients campaign zt Hzt) as [Hna Hnb].
  rewrite (analyze_ab_test_unfold erf asin aware_timestamps cid now db campaign
             Hfind Hna Hnb).
  unfold analysis_of. rewrite Hzt, bind_ret, Hw, bind_ret.
  pose proof (_calculate_test_duration_cases aware_timestamps now db campaign) as Hd.
  destruct (start_time_is_aware aware_timestamps db campaign).
  - rewrite Hd. reflexivity.
  - destruct Hd as (hours & ->). rewrite bind_ret. simpl. eexists. reflexivity.
Qed.

(** What a successful analysis reports, whichever way the duration went. *)
Lemma analyze_ab_test_reported (cid : Z) (now : datetime) (db db' : Session)
    (campaign : ABTestCampaign.t) (zt : ZTest) (w : option string) (pct : float)
    (analysis : Analysis) :
  test_by_id cid (working db) = Some campaign ->
  z_test erf asin campaign = Py.ret zt ->
  determine_winner (zt_is_significant zt) (zt_rate_a zt) (zt_rate_b zt) = Py.ret (w, pct) ->
  analyze_ab_test erf asin aware_timestamps cid now db = (Success analysis, db') ->
  analysis = mkAnalysis (zt_rate_a zt) (zt_rate_b zt) (zt_p_value zt)
               (zt_is_significant zt) w pct (zt_effect_size zt)
               (zt_ci_lower zt, zt_ci_upper zt).
Proof.
  intros Hfind Hzt Hw Hrun.
  pose proof (analyze_ab_test_reports cid now db campaign zt w pct Hfind Hzt Hw) as H.
  destruct (start_time_is_aware aware_timestamps db campaign).
  - rewrite H in Hrun. discriminate Hrun.
  - destruct H as (db'' & H). rewrite H in Hrun. injection Hrun as <- _. reflexivity.
Qed.

Lemma analyze_ab_test_raises (cid : Z) (now : datetime) (db : Session)
    (campaign : ABTestCampaign.t) (zt : ZTest) (e : Py.exn) :
  test_by_id cid (working db) = Some campaign ->
  z_test erf asin campaign = Py.ret zt ->
  determine_winner (zt_is_significant zt) (zt_rate_a zt) (zt_rate_b zt) = Py.raise e ->
  analyze_ab_test erf asin aware_timestamps cid now db = (Failure (Py.str e), db).
Proof.
  intros Hfind Hzt Hw.
  destruct (z_test_needs_recipients campaign zt Hzt) as [Hna Hnb].
  rewrite (analyze_ab_test_unfold erf asin aware_timestamps cid now db campaign
             Hfind Hna Hnb).
  unfold analysis_of. rewrite Hzt, bind_ret, Hw. reflexivity.
Qed.

(** The conversion rates the Z-test works on, and its significance flag. *)
Lemma z_test_rates (campaign : ABTestCampaign.t) (zt : ZTest) :
  z_test erf asin campaign = Py.ret zt ->
  zt_rate_a zt = Py.int_quotient (ABTestCampaign.variant_a_opened campaign)
                   (ABTestCampaign.variant_a_recipients campaign)
  /\ zt_rate_b zt = Py.int_quotient (ABTestCampaign.variant_b_opened campaign)
                      (ABTestCampaign.variant_b_recipients campaign)
  /\ zt_is_significant zt
     = PrimFloat.ltb (zt_p_value zt) (1 - ABTestCampaign.confidence_level campaign).
Proof.
  unfold z_test. intros H.
  apply bind_inr in H. destruct H as (ra & Hra & H).
  apply bind_inr in H. destruct H as (rb & Hrb & H).
  repeat (apply bind_inr in H; destruct H as (? & _ & H)).
  injection H as <-. simpl.
  unfold Py.int_truediv in Hra, Hrb.
  destruct (_ =? 0) in Hra; [discriminate|]. destruct (_ =? 0) in Hrb; [discriminate|].
  injection Hra as <-. injection Hrb as <-. repeat split.
Qed.

(** C10.  A test whose variant A has recipients but no conversions and whose
    Z-test is significant with a positive rate for variant B: the improvement
    percentage divides by the zero rate of A, the analysis returns the failure
    "float division by zero", and the session, hence the table of analysis
    results, is left as it was. *)
Theorem zero_rate_a_significant_b_raises (cid : Z) (now : datetime) (db : Session)
    (campaign : ABTestCampaign.t) (zt : ZTest) :
  test_by_id cid (working db) = Some campaign ->
  0 < ABTestCampaign.variant_a_recipients campaign ->
  ABTestCampaign.variant_a_opened campaign = 0 ->
  z_test erf asin campaign = Py.ret zt ->
  PrimFloat.ltb (zt_p_value zt) (1 - ABTestCampaign.confidence_level campaign) = true ->
  PrimFloat.ltb 0 (zt_rate_b zt) = true ->
  zt_rate_a zt = 0%float
  /\ determine_winner (zt_is_significant zt) (zt_rate_a zt) (zt_rate_b zt)
     = Py.raise (Py.ZeroDivisionError "float division by zero")
  /\ analyze_ab_test erf asin aware_timestamps cid now db
     = (Failure "float division by zero", db).
Proof.
  intros Hfind Hna Hoa Hzt Hsig Hrb.
  destruct (z_test_rates campaign zt Hzt) as (Hra & _ & Hdef).
  rewrite Hoa, int_quotient_zero in Hra by exact Hna.
  assert (Hw : determine_winner (zt_is_significant zt) (zt_rate_a zt) (zt_rate_b zt)
               = Py.raise (Py.ZeroDivisionError "float division by zero")).
  { unfold determine_winner. rewrite Hdef, Hsig, Hra, Hrb. reflexivity. }
  split; [exact Hra|]. split; [exact Hw|].
  apply (analyze_ab_test_raises cid now db campaign zt _ Hfind Hzt Hw).
Qed.

End AnalysisOutcome.

(** The theorem on a test with 100 recipients per variant, no open for A and
    35 opens for B. *)
Lemma zero_rate_a_significant_b_raises_100 :
  analyze_ab_test erf_points asin_points with_time_zone 1 0
    (session_of (sample_tables 200 (sample_test RUNNING 0.5 100 0.95 100 100 0 35)))
  = (Failure "float division by zero",
     session_of (sample_tables 200 (sample_test RUNNING 0.5 100 0.95 100 100 0 35))).
Proof.
  refine (proj2 (proj2 (zero_rate_a_significant_b_raises erf_points asin_points
    with_time_zone 1 0
    (session_of (sample_tables 200 (sample_test RUNNING 0.5 100 0.95 100 100 0 35)))
    (sample_test RUNNING 0.5 100 0.95 100 100 0 35)
    (mkZTest (Py.int_quotient 0 100) (Py.int_quotient 35 100)
       0.053735463150511691 6.5133894727892958 0 true 1.1832159566199232
       0.24467849222499705 0.45532150777500291)
    _ _ _ _ _ _))).
  - reflexivity.
  - vm_compute. reflexivity.
  - reflexivity.
  - vm_compute. reflexivity.
  - vm_compute. reflexivity.
  - vm_compute. reflexivity.
Defined.

Section NoConversions.

Variables erf asin : float -> float.
Variable aware_timestamps : Session -> ABTestCampaign.t -> bool.
Hypothesis erf_zero : erf 0 = 0%float.


End NoConversions.


(** The side condition of the theorem at some usual confidence levels. *)
Lemma threshold_not_above_one_examples :
  Forall (fun cl => PrimFloat.ltb 1 (1 - cl) = false)
    [ 0%float; 0.5%float; 0.8%float; 0.9%float; 0.95%float; 0.99%float; 0.999%float;
      1%float ].
Proof. repeat constructor. Qed.


(** ** The 200-contact scenario *)

(** [update_ab_test_metrics] on a test that is found and whose assignments
    all return: the commit of the row with its rates refreshed, which the
    database takes or refuses. *)
Lemma update_ab_test_metrics_unfold (refuses : Tables -> Tables -> option string)
    (setattr_other : string -> Z -> ABTestCampaign.t -> Py.Exc ABTestCampaign.t)
    (cid : Z) (metrics_data : list (string * Z))
    (db : Session) (campaign assigned : ABTestCampaign.t) :
  test_by_id cid (working db) = Some campaign ->
  apply_metrics setattr_other metrics_data campaign = (None, assigned) ->
  let new :=
    set_ab_test_campaigns
      (write_row_at ABTestCampaign.id (ABTestCampaign.id campaign)
         (refresh_conversion_rates assigned) (ab_test_campaigns (working db)))
      (working db) in
  update_ab_test_metrics refuses setattr_other cid metrics_data db =
    match refuses (stored db) new with
    | Some error => (Failure error, rollback db)
    | None => (Success (), session_of new)
    end.
Proof.
  intros Hfind Hloop. unfold update_ab_test_metrics. unfold test_by_id in Hfind.
  rewrite Hfind, Hloop. reflexivity.
Qed.

(** A metric update that returns success has found the test, run the loop
    without an exception and committed the row. *)
Lemma update_ab_test_metrics_success_inv (refuses : Tables -> Tables -> option string)
    (setattr_other : string -> Z -> ABTestCampaign.t -> Py.Exc ABTestCampaign.t)
    (cid : Z) (metrics_data : list (string * Z)) (db db' : Session) :
  update_ab_test_metrics refuses setattr_other cid metrics_data db = (Success (), db') ->
  exists campaign assigned,
    test_by_id cid (working db) = Some campaign
    /\ apply_metrics setattr_other metrics_data campaign = (None, assigned)
    /\ db' = session_of
               (set_ab_test_campaigns
                  (write_row_at ABTestCampaign.id (ABTestCampaign.id campaign)
                     (refresh_conversion_rates assigned) (ab_test_campaigns (working db)))
                  (working db)).
Proof.
  intros Hrun.
  destruct (test_by_id cid (working db)) as [campaign|] eqn:Hfind.
  2:{ unfold update_ab_test_metrics in Hrun. unfold test_by_id in Hfind.
      rewrite Hfind in Hrun. discriminate Hrun. }
  destruct (apply_metrics setattr_other metrics_data campaign) as [[e|] assigned] eqn:Hloop.
  { unfold update_ab_test_metrics in Hrun. unfold test_by_id in Hfind.
    rewrite Hfind, Hloop in Hrun. discriminate Hrun. }
  rewrite (update_ab_test_metrics_unfold refuses setattr_other cid metrics_data db
             campaign assigned Hfind Hloop) in Hrun.
  cbv zeta in Hrun.
  destruct (refuses _ _); [discriminate Hrun|].
  injection Hrun as <-. exists campaign, assigned.
  split; [reflexivity|]. split; [exact Hloop | reflexivity].
Qed.

Section Scenario.

Variables erf asin : float -> float.
Variable aware_timestamps : Session -> ABTestCampaign.t -> bool.
Variable shuffle : list Contact.t -> list Contact.t.
Variable next_recipient_id : list ABTestRecipient.t -> Z.
Variable refuses : Tables -> Tables -> option string.
Variable setattr_other : string -> Z -> ABTestCampaign.t -> Py.Exc ABTestCampaign.t.
Hypothesis shuffle_permutes : forall l, Permutation (shuffle l) l.
Hypothesis erf_accurate : In (erf scenario_erf_argument) scenario_erf_values.

(** C1, as amended.  200 contacts and a split of 0.5: the start assigns 100
    recipients to each variant.  Once 20 opens for A and 35 for B have been
    recorded, at confidence 0.95, the analysis ends in one of two ways.  When
    the start time of the test comes back without a time zone, it reports the
    rates 0.2 and 0.35, the winner "B", a p-value below 0.05 and the
    improvement percentage 74.99999999999997, the double that
    (0.35 - 0.2) / 0.2 * 100 evaluates to, which is not 75.0.  When it comes
    back with a time zone, the duration of the test raises and the analysis
    returns that failure and stores nothing. *)
Theorem scenario_analysis_reports_B (now now' : datetime) :
  exists db1 test,
    start_ab_test shuffle next_recipient_id 1 7 now
      (session_of (sample_tables 200 scenario_draft))
      = (Success "A/B test started successfully", db1)
    /\ test_by_id 1 (working db1) = Some test
    /\ ABTestCampaign.variant_a_recipients test = 100
    /\ ABTestCampaign.variant_b_recipients test = 100
    /\ forall db2,
         update_ab_test_metrics refuses setattr_other 1
           [("variant_a_opened", 20); ("variant_b_opened", 35)] db1 = (Success (), db2) ->
         exists measured,
           test_by_id 1 (working db2) = Some measured
           /\ ABTestCampaign.variant_a_opened measured = 20
           /\ ABTestCampaign.variant_b_opened measured = 35
           /\ ABTestCampaign.started_at measured = Some now
           /\ (aware_timestamps db2 measured = false ->
               exists analysis db3,
                 analyze_ab_test erf asin aware_timestamps 1 now' db2
                 = (Success analysis, db3)
                 /\ variant_a_rate analysis = 0.2%float
                 /\ variant_b_rate analysis = 0.35%float
                 /\ winner analysis = Some "B"
                 /\ PrimFloat.ltb (statistical_significance analysis) 0.05 = true
                 /\ improvement_percentage analysis = 74.99999999999997%float
                 /\ PrimFloat.eqb (improvement_percentage analysis) 75 = false)
           /\ (aware_timestamps db2 measured = true ->
               analyze_ab_test erf asin aware_timestamps 1 now' db2
               = (Failure Py.naive_minus_aware, db2)).
Proof.
  set (db0 := session_of (sample_tables 200 scenario_draft)).
  set (people := List.filter (fun c => Contact.user_id c =? 7) (contacts (working db0))).
  assert (Hlen : length (shuffle people) = 200%nat)
    by (rewrite (Permutation_length (shuffle_permutes people)); reflexivity).
  destruct (start_ab_test_success shuffle next_recipient_id 1 7 now db0 scenario_draft 100
              (sample_variant 1 "A") (sample_variant 2 "B"))
    as (db1 & Hstart & _ & _ & Hcamp); try reflexivity.
  { vm_compute. discriminate. }
  { fold people. rewrite Hlen. vm_compute. reflexivity. }
  fold people in Hcamp.
  assert (Ha : Z.of_nat (length (Py.slice_to (shuffle people) 100)) = 100)
    by (apply length_slice_to; rewrite Hlen; lia).
  assert (Hb : Z.of_nat (length (Py.slice_from (shuffle people) 100)) = 100)
    by (rewrite length_slice_from; rewrite Hlen; lia).
  rewrite Ha, Hb in Hcamp.
  set (test := started now 100 100 scenario_draft) in *.
  assert (Htest : test_by_id 1 (working db1) = Some test)
    by (unfold test_by_id; rewrite Hcamp; reflexivity).
  exists db1, test.
  split; [exact Hstart|]. split; [exact Htest|].
  split; [reflexivity|]. split; [reflexivity|].
  intros db2 Hupd.
  set (metrics := [("variant_a_opened", 20); ("variant_b_opened", 35)]) in *.
  destruct (update_ab_test_metrics_success_inv refuses setattr_other 1 metrics db1 db2 Hupd)
    as (test' & assigned & Htest' & Hloop & ->).
  rewrite Htest in Htest'. injection Htest' as <-.
  injection Hloop as <-.
  set (measured := refresh_conversion_rates _).
  set (db2 := session_of _).
  assert (Hmeasured : test_by_id 1 (working db2) = Some measured)
    by (unfold db2, test_by_id; simpl; rewrite Hcamp; reflexivity).
  assert (Hcase : exists e, In e scenario_erf_values /\ erf scenario_erf_argument = e)
    by eauto.
  destruct Hcase as (e & He & Herf).
  assert (Hzt : exists p,
    z_test erf asin measured =
      Py.ret (mkZTest 0.2 0.35 0.063146654701575447 2.375422747394687 p
                (PrimFloat.ltb p (1 - 0.95)) (2 * (asin (PrimFloat.sqrt 0.35)
                                                 - asin (PrimFloat.sqrt 0.2)))
                0.026232556784912098 0.27376744321508784)
    /\ PrimFloat.ltb p (1 - 0.95) = true /\ PrimFloat.ltb p 0.05 = true).
  { exists (2 * (1 - 0.5 * (1 + e)))%float. split.
    - unfold z_test, measured, test, metrics. vm_compute.
      change 1.6796775328675624%float with scenario_erf_argument. rewrite Herf.
      reflexivity.
    - simpl in He. destruct He as [<-|[<-|[<-|[]]]]; vm_compute; split; reflexivity. }
  destruct Hzt as (p & Hzt & Hsig & Hp).
  pose proof (analyze_ab_test_reports erf asin aware_timestamps 1 now' db2 measured _
                (Some "B") 74.99999999999997%float Hmeasured Hzt) as Hrun.
  assert (Haware : start_time_is_aware aware_timestamps db2 measured
                   = aware_timestamps db2 measured) by reflexivity.
  rewrite Haware in Hrun.
  exists measured.
  split; [exact Hmeasured|].
  split; [reflexivity|]. split; [reflexivity|]. split; [reflexivity|].
  split.
  - intros Hnaive. rewrite Hnaive in Hrun.
    destruct Hrun as (db3 & Hrun).
    { cbn [zt_is_significant zt_rate_a zt_rate_b]. rewrite Hsig. vm_compute. reflexivity. }
    eexists. exists db3. split; [exact Hrun|]. simpl.
    repeat split; try reflexivity. exact Hp.
  - intros Htz. rewrite Htz in Hrun. apply Hrun.
    cbn [zt_is_significant zt_rate_a zt_rate_b]. rewrite Hsig. vm_compute. reflexivity.
Qed.

End Scenario.

(** The theorem with the contacts taken in reverse order, keys that count up,
    a database that takes the update and hands the start time back without a
    time zone, and the analysis an hour after the start. *)
Lemma scenario_analysis_reports_B_reversed :
  exists db1 db2 db3 test analysis,
    start_ab_test (@rev Contact.t) (next_after_largest ABTestRecipient.id) 1 7 0
      (session_of (sample_tables 200 scenario_draft))
      = (Success "A/B test started successfully", db1)
    /\ test_by_id 1 (working db1) = Some test
    /\ ABTestCampaign.variant_a_recipients test = 100
    /\ ABTestCampaign.variant_b_recipients test = 100
    /\ update_ab_test_metrics accepts setattr_sample 1
         [("variant_a_opened", 20); ("variant_b_opened", 35)] db1 = (Success (), db2)
    /\ analyze_ab_test erf_points asin_points without_time_zone 1 3600 db2
       = (Success analysis, db3)
    /\ variant_a_rate analysis = 0.2%float
    /\ variant_b_rate analysis = 0.35%float
    /\ winner analysis = Some "B"
    /\ PrimFloat.ltb (statistical_significance analysis) 0.05 = true
    /\ improvement_percentage analysis = 74.99999999999997%float
    /\ PrimFloat.eqb (improvement_percentage analysis) 75 = false.
Proof.
  destruct (scenario_analysis_reports_B erf_points asin_points without_time_zone
              (@rev Contact.t) (next_after_largest ABTestRecipient.id)
              accepts setattr_sample
              (fun l => Permutation_sym (Permutation_rev l))
              (or_intror (or_introl eq_refl)) 0 3600)
    as (db1 & test & Hstart & Htest & Ha & Hb & Hrest).
  assert (Hupd : update_ab_test_metrics accepts setattr_sample 1
                   [("variant_a_opened", 20); ("variant_b_opened", 35)] db1
                 = (Success (),
                    (update_ab_test_metrics accepts setattr_sample 1
                       [("variant_a_opened", 20); ("variant_b_opened", 35)] db1).2)).
  { rewrite (update_ab_test_metrics_unfold accepts setattr_sample 1
               [("variant_a_opened", 20); ("variant_b_opened", 35)] db1 test
               (ABTestCampaign.set_variant_b_opened 35
                  (ABTestCampaign.set_variant_a_opened 20 test))
               Htest eq_refl). reflexivity. }
  destruct (Hrest _ Hupd) as (measured & _ & _ & _ & _ & Hnaive & _).
  destruct (Hnaive eq_refl) as (analysis & db3 & Hrun & Hreport).
  exists db1, (update_ab_test_metrics accepts setattr_sample 1
                 [("variant_a_opened", 20); ("variant_b_opened", 35)] db1).2,
    db3, test, analysis.
  split; [exact Hstart|]. split; [exact Htest|]. split; [exact Ha|]. split; [exact Hb|].
  split; [exact Hupd|]. split; [exact Hrun | exact Hreport].
Defined.

(** C1 as stated fails on the improvement percentage: whatever [math.erf] and
    [math.asin] return and however the database hands the start time back,
    the analysis of the scenario never reports a value equal to 75.0.  When
    the test is significant the value is 74.99999999999997, since 0.35 - 0.2
    is 0.14999999999999997 in double precision. *)
Lemma scenario_improvement_is_not_75 :
  ~ exists (erf asin : float -> float)
      (aware_timestamps : Session -> ABTestCampaign.t -> bool)
      (analysis : Analysis) (db' : Session),
      analyze_ab_test erf asin aware_timestamps 1 3600
        (update_ab_test_metrics accepts setattr_sample 1
           [("variant_a_opened", 20); ("variant_b_opened", 35)]
           (start_ab_test (fun l => l) (next_after_largest ABTestRecipient.id) 1 7 0
              (session_of (sample_tables 200 scenario_draft))).2).2
        = (Success analysis, db')
      /\ PrimFloat.eqb (improvement_percentage analysis) 75 = true.
Proof.
  intros (erf & asin & aware & analysis & db' & Hrun & H75).
  set (db := (update_ab_test_metrics _ _ _ _ _).2) in Hrun.
  set (measured := refresh_conversion_rates
                     (ABTestCampaign.set_variant_b_opened 35
                        (ABTestCampaign.set_variant_a_opened 20
                           (started 0 100 100 scenario_draft)))).
  assert (Hfind : test_by_id 1 (working db) = Some measured)
    by (vm_compute; reflexivity).
  set (p := (2 * (1 - 0.5 * (1 + erf scenario_erf_argument)))%float).
  assert (Hzt : z_test erf asin measured =
      Py.ret (mkZTest 0.2 0.35 0.063146654701575447 2.375422747394687 p
                (PrimFloat.ltb p (1 - 0.95)) (2 * (asin (PrimFloat.sqrt 0.35)
                                                 - asin (PrimFloat.sqrt 0.2)))
                0.026232556784912098 0.27376744321508784))
    by (vm_compute; reflexivity).
  destruct (PrimFloat.ltb p (1 - 0.95)) eqn:Hsig.
  - rewrite (analyze_ab_test_reported erf asin aware 1 3600 db db' measured _
               (Some "B") 74.99999999999997%float analysis Hfind Hzt) in H75.
    + vm_compute in H75. discriminate H75.
    + cbn [zt_is_significant zt_rate_a zt_rate_b]. vm_compute. reflexivity.
    + exact Hrun.
  - rewrite (analyze_ab_test_reported erf asin aware 1 3600 db db' measured _
               (Some "inconclusive") 0%float analysis Hfind Hzt) in H75.
    + vm_compute in H75. discriminate H75.
    + reflexivity.
    + exact Hrun.
Qed.

(** ** Creating a test *)

Section CreateProperties.

Variable next_test_id : list ABTestCampaign.t -> Z.
Variable next_variant_id : list ABTestVariant.t -> Z.
Variable refuses : Tables -> Tables -> option string.

Lemma add_variants_spec (cid : Z) (ty : TestType) (vs : list VariantData) :
  forall rows, exists new,
    add_variants next_variant_id cid ty vs rows = rows ++ new /\
    ABTestVariant.variant_name <$> new = vd_variant_name <$> vs /\
    Forall (fun v => ABTestVariant.campaign_id v = cid
                     /\ ABTestVariant.recipients_count v = 0) new.
Proof.
  induction vs as [|v vs IH]; intros rows.
  - exists []. rewrite app_nil_r. repeat split; constructor.
  - destruct (IH (rows ++ [new_variant next_variant_id cid ty rows v]))
      as (new & Hadd & Hnames & Hall).
    exists (new_variant next_variant_id cid ty rows v :: new). repeat split.
    + unfold add_variants in *. simpl. rewrite Hadd, <- app_assoc. reflexivity.
    + simpl. f_equal. exact Hnames.
    + constructor; [split; reflexivity | exact Hall].
Qed.

(** C7, as amended.  [create_ab_test] validates nothing: whatever the number
    of variants and the traffic split of the specification, it asks the
    database to store the test, in draft status and with the split as given
    (0.5 when absent), and then one variant row per entry of the
    specification, each bound to the test.  The only rejections are the
    database's: when it refuses the test row nothing is stored, when it
    refuses the variant rows the test row stays stored without them, and
    otherwise the call returns the key of the test with all rows stored. *)
Theorem create_ab_test_leaves_rejection_to_the_database (user_id : Z)
    (test_data : TestData) (db : Session) :
  let id := next_test_id (ab_test_campaigns (working db)) in
  let test := new_campaign id user_id test_data in
  let with_test :=
    set_ab_test_campaigns (ab_test_campaigns (working db) ++ [test]) (working db) in
  exists new_variants,
    let with_variants :=
      set_ab_test_variants (ab_test_variants (working db) ++ new_variants) with_test in
    ABTestCampaign.status test = DRAFT
    /\ ABTestCampaign.traffic_split test = default 0.5%float (td_traffic_split test_data)
    /\ length new_variants = length (td_variants test_data)
    /\ ABTestVariant.variant_name <$> new_variants
       = vd_variant_name <$> td_variants test_data
    /\ Forall (fun v => ABTestVariant.campaign_id v = id) new_variants
    /\ create_ab_test next_test_id next_variant_id refuses user_id test_data db
       = match refuses (stored db) with_test with
         | Some error => (Failure error, rollback db)
         | None =>
             match refuses with_test with_variants with
             | Some error => (Failure error, session_of with_test)
             | None => (Success id, session_of with_variants)
             end
         end.
Proof.
  intros id test with_test.
  destruct (add_variants_spec id (td_test_type test_data) (td_variants test_data)
              (ab_test_variants (working db))) as (new & Hadd & Hnames & Hall).
  exists new. cbv zeta.
  split; [reflexivity|]. split; [reflexivity|].
  split; [rewrite <- (length_fmap ABTestVariant.variant_name), Hnames, length_fmap;
          reflexivity|].
  split; [exact Hnames|].
  split; [eapply Forall_impl; [exact Hall | intros v Hv; apply Hv]|].
  assert (Hvariants :
    set_ab_test_variants
      (add_variants next_variant_id id (td_test_type test_data) (td_variants test_data)
         (ab_test_variants with_test)) with_test
    = set_ab_test_variants (ab_test_variants (working db) ++ new) with_test).
  { f_equal. exact Hadd. }
  unfold create_ab_test, commit, rollback, on_working, session_of.
  cbn [stored working].
  fold id. fold test. fold with_test.
  destruct (refuses (stored db) with_test) as [error|]; [reflexivity|].
  rewrite Hvariants.
  destruct (refuses with_test _) as [error|]; reflexivity.
Qed.

(** A successful creation has stored the test in draft status and its variant
    rows, one per entry of the specification. *)
Lemma create_ab_test_success_inv (user_id : Z) (test_data : TestData)
    (db db' : Session) (id : Z) :
  create_ab_test next_test_id next_variant_id refuses user_id test_data db
  = (Success id, db') ->
  id = next_test_id (ab_test_campaigns (working db))
  /\ stored db' = working db'
  /\ ab_test_campaigns (working db')
     = ab_test_campaigns (working db) ++ [new_campaign id user_id test_data]
  /\ ab_test_variants (working db')
     = add_variants next_variant_id id (td_test_type test_data) (td_variants test_data)
         (ab_test_variants (working db))
  /\ contacts (working db') = contacts (working db).
Proof.
  unfold create_ab_test. cbn [stored working on_working commit rollback].
  destruct (refuses _ _) as [error|]; [discriminate|].
  destruct (refuses _ _) as [error|]; [discriminate|].
  intros [= <- <-]. repeat split.
Qed.

End CreateProperties.

(** C7 as stated fails: a specification with three variants and a traffic
    split of 1.5 is not rejected.  On an empty database that checks the range
    of its integer columns the call succeeds and commits the test, in draft
    status with split 1.5, and three variant rows. *)
Lemma create_accepts_three_variants_and_split_above_one :
  let spec :=
    mkTestData "three arms" MESSAGE_CONTENT (Some 1.5%float) (Some 100) (Some 0.95%float)
      [ mkVariantData "A" (Some "Hi") None None None;
        mkVariantData "B" (Some "Hello") None None None;
        mkVariantData "C" (Some "Hey") None None None ] in
  exists db' test,
    create_ab_test (next_after_largest ABTestCampaign.id)
      (next_after_largest ABTestVariant.id) int4_columns
      7 spec (session_of (mkTables [] [] [] [] [] [] []))
      = (Success 1, db')
    /\ ab_test_campaigns (stored db') = [test]
    /\ ABTestCampaign.status test = DRAFT
    /\ ABTestCampaign.traffic_split test = 1.5%float
    /\ ABTestVariant.variant_name <$> ab_test_variants (stored db') = ["A"; "B"; "C"].
Proof.
  eexists. eexists. split; [vm_compute; reflexivity|]. vm_compute. repeat split.
Qed.

(** What the same database does refuse: a specification with two variants and
    a split of 0.5 whose minimum sample size is beyond the range of the
    column.  The call returns the failure and nothing is stored. *)
Lemma create_out_of_range_stores_nothing :
  let spec :=
    mkTestData "two arms" MESSAGE_CONTENT (Some 0.5%float) (Some 3000000000)
      (Some 0.95%float)
      [ mkVariantData "A" (Some "Hi") None None None;
        mkVariantData "B" (Some "Hello") None None None ] in
  create_ab_test (next_after_largest ABTestCampaign.id)
    (next_after_largest ABTestVariant.id) int4_columns
    7 spec (session_of (mkTables [] [] [] [] [] [] []))
  = (Failure "integer out of range", session_of (mkTables [] [] [] [] [] [] [])).
Proof. vm_compute. reflexivity. Qed.

(** ** Metric updates *)

Ltac case_key key :=
  let E := fresh "E" in
  destruct (String.eqb_spec key "variant_a_recipients") as [E|_];
  [|destruct (String.eqb_spec key "variant_b_recipients") as [E|_];
  [|destruct (String.eqb_spec key "variant_a_delivered") as [E|_];
  [|destruct (String.eqb_spec key "variant_b_delivered") as [E|_];
  [|destruct (String.eqb_spec key "variant_a_opened") as [E|_];
  [|destruct (String.eqb_spec key "variant_b_opened") as [E|_];
  [|destruct (String.eqb_spec key "variant_a_clicked") as [E|_];
  [|destruct (String.eqb_spec key "variant_b_clicked") as [E|_];
  [|destruct (String.eqb_spec key "variant_a_replied") as [E|_];
  [|destruct (String.eqb_spec key "variant_b_replied") as [E|_];
  [|destruct (String.eqb_spec key "minimum_sample_size") as [E|_]]]]]]]]]]];
  try (rewrite E in *; clear E).

(** The counters by name and as a list. *)
Lemma counter_of_counters (c c' : ABTestCampaign.t) :
  counters c' = counters c -> forall key, counter key c' = counter key c.
Proof.
  unfold counters, counter. intros H key.
  injection H as H1 H2 H3 H4 H5 H6 H7 H8 H9 H10.
  rewrite H1, H2, H3, H4, H5, H6, H7, H8, H9, H10. reflexivity.
Qed.

Lemma counter_is_Some (key : string) (c c' : ABTestCampaign.t) :
  is_Some (counter key c) -> is_Some (counter key c').
Proof.
  unfold counter. repeat (destruct (String.eqb key _); [eauto|]). auto.
Qed.

Lemma counters_by_name (c c' : ABTestCampaign.t) :
  (forall key old new,
     counter key c = Some old -> counter key c' = Some new -> old <= new) ->
  Forall2 Z.le (counters c) (counters c').
Proof.
  intros H. unfold counters.
  constructor; [apply (H "variant_a_recipients"); reflexivity|].
  constructor; [apply (H "variant_b_recipients"); reflexivity|].
  constructor; [apply (H "variant_a_delivered"); reflexivity|].
  constructor; [apply (H "variant_b_delivered"); reflexivity|].
  constructor; [apply (H "variant_a_opened"); reflexivity|].
  constructor; [apply (H "variant_b_opened"); reflexivity|].
  constructor; [apply (H "variant_a_clicked"); reflexivity|].
  constructor; [apply (H "variant_b_clicked"); reflexivity|].
  constructor; [apply (H "variant_a_replied"); reflexivity|].
  constructor; [apply (H "variant_b_replied"); reflexivity|].
  constructor.
Qed.

(** One assignment to an integer metric column: it keeps the primary key,
    gives the named counter the value, and keeps every other counter. *)
Lemma setattr_metric_counter (key : string) (value : Z) (c c' : ABTestCampaign.t) :
  setattr_metric key value c = Some c' ->
  ABTestCampaign.id c' = ABTestCampaign.id c
  /\ (forall k, k <> key -> counter k c' = counter k c)
  /\ (is_Some (counter key c) -> counter key c' = Some value).
Proof.
  unfold setattr_metric.
  case_key key; intros [= <-]; (split; [reflexivity|]); split;
    try (intros k Hk; unfold counter;
         cbn [ABTestCampaign.variant_a_recipients ABTestCampaign.variant_b_recipients
              ABTestCampaign.variant_a_delivered ABTestCampaign.variant_b_delivered
              ABTestCampaign.variant_a_opened ABTestCampaign.variant_b_opened
              ABTestCampaign.variant_a_clicked ABTestCampaign.variant_b_clicked
              ABTestCampaign.variant_a_replied ABTestCampaign.variant_b_replied
              ABTestCampaign.set_variant_a_recipients
              ABTestCampaign.set_variant_b_recipients
              ABTestCampaign.set_variant_a_delivered ABTestCampaign.set_variant_b_delivered
              ABTestCampaign.set_variant_a_opened ABTestCampaign.set_variant_b_opened
              ABTestCampaign.set_variant_a_clicked ABTestCampaign.set_variant_b_clicked
              ABTestCampaign.set_variant_a_replied ABTestCampaign.set_variant_b_replied
              ABTestCampaign.set_minimum_sample_size];
         repeat (match goal with
                 | |- context [String.eqb k ?s] =>
                     destruct (String.eqb_spec k s); [try contradiction; reflexivity|]
                 end);
         reflexivity);
    try (intros _; reflexivity).
  intros [old Hold]. discriminate Hold.
Qed.

(** The counters are among the integer metric columns. *)
Lemma setattr_metric_None_counter (key : string) (value : Z) (c : ABTestCampaign.t) :
  setattr_metric key value c = None -> counter key c = None.
Proof.
  unfold setattr_metric, counter.
  repeat (destruct (String.eqb key _); [discriminate|]). reflexivity.
Qed.

Lemma refresh_conversion_rates_counters (c : ABTestCampaign.t) :
  ABTestCampaign.id (refresh_conversion_rates c) = ABTestCampaign.id c
  /\ counters (refresh_conversion_rates c) = counters c.
Proof.
  unfold refresh_conversion_rates.
  destruct (0 <? ABTestCampaign.variant_a_recipients c);
    destruct (0 <? _); split; reflexivity.
Qed.

Lemma find_write_row_at {A} (key : A -> Z) (k : Z) (r : A) (rows : list A) (x : A) :
  find (fun y => key y =? k) rows = Some x ->
  key r = k ->
  find (fun y => key y =? k) (write_row_at key k r rows) = Some r.
Proof.
  intros Hfind Hr. unfold write_row_at.
  induction rows as [|y rows IH]; simpl in *; [discriminate|].
  destruct (Z.eqb_spec (key y) k) as [E|E].
  - rewrite Hr, Z.eqb_refl. reflexivity.
  - destruct (Z.eqb_spec (key y) k); [contradiction|]. apply IH, Hfind.
Qed.

(** The delivery webhook writes message and campaign rows only. *)
Lemma handle_delivery_report_keeps_tests (class : Message.class) (now : datetime)
    (data : gmap string string) (db : Session) :
  let db' := (handle_delivery_report_over class now data db).2 in
  ab_test_campaigns (working db') = ab_test_campaigns (working db)
  /\ ab_test_variants (working db') = ab_test_variants (working db).
Proof.
  unfold handle_delivery_report_over.
  destruct (_ || _); [split; reflexivity|].
  unfold Message.class_attribute.
  destruct (class "provider_message_id") as [column|]; [|split; reflexivity]. simpl.
  destruct (find _ _) as [message|]; [|split; reflexivity].
  unfold update_campaign_statistics. simpl.
  destruct (Message.campaign_id message) as [cid|]; [|split; reflexivity].
  destruct (find _ _) as [campaign|]; split; reflexivity.
Qed.

Section MetricUpdates.

Variable refuses : Tables -> Tables -> option string.
Variable setattr_other : string -> Z -> ABTestCampaign.t -> Py.Exc ABTestCampaign.t.

(** An assignment to another attribute of the object leaves the counters. *)
Hypothesis setattr_other_keeps_counters : forall key value c c',
  setattr_other key value c = inr c' -> counters c' = counters c.

Lemma setattr_key_counter (key : string) (value : Z) (c c' : ABTestCampaign.t) :
  setattr_key setattr_other key value c = inr c' ->
  (forall k, k <> key -> counter k c' = counter k c)
  /\ (is_Some (counter key c) -> counter key c' = Some value).
Proof.
  unfold setattr_key.
  destruct (setattr_metric key value c) as [c1|] eqn:Hmetric.
  - intros [= <-]. apply (setattr_metric_counter key value c c1 Hmetric).
  - intros Hother. split.
    + intros k _. apply counter_of_counters.
      apply (setattr_other_keeps_counters key value c c' Hother).
    + rewrite (setattr_metric_None_counter key value c Hmetric). intros [? [=]].
Qed.

(** The loop over a dictionary: every counter it names ends with the value
    supplied for it, and every counter it does not name is kept. *)
Lemma apply_metrics_counters (metrics_data : list (string * Z)) :
  forall c c',
    apply_metrics setattr_other metrics_data c = (None, c') ->
    NoDup metrics_data.*1 ->
    (forall key value, (key, value) ∈ metrics_data ->
       is_Some (counter key c) -> counter key c' = Some value)
    /\ (forall key, key ∉ metrics_data.*1 -> counter key c' = counter key c).
Proof.
  induction metrics_data as [|[key value] md IH]; intros c c' Hloop Hdict.
  - injection Hloop as <-. split; [intros key value Hin; inversion Hin | reflexivity].
  - simpl in Hloop.
    destruct (setattr_key setattr_other key value c) as [e|c1] eqn:Hstep;
      [discriminate Hloop|].
    rewrite fmap_cons in Hdict. apply NoDup_cons in Hdict. destruct Hdict as [Hfresh Hdict].
    destruct (IH c1 c' Hloop Hdict) as [Hnamed Hkept].
    destruct (setattr_key_counter key value c c1 Hstep) as [Hothers Hthis].
    split.
    + intros k v Hin Hsome. apply elem_of_cons in Hin. destruct Hin as [[= -> ->]|Hin].
      * rewrite (Hkept key Hfresh). apply Hthis, Hsome.
      * apply (Hnamed k v Hin). apply (counter_is_Some k c c1 Hsome).
    + intros k Hk. rewrite fmap_cons in Hk. apply not_elem_of_cons in Hk.
      destruct Hk as [Hne Hk]. rewrite (Hkept k Hk). apply Hothers, Hne.
Qed.

(** C9, as amended.  The delivery webhook, over any [Message] class, leaves
    the counters of every A/B test as they are.  A metric update that is
    committed, whatever the status of the test, has stored the row of the
    test with every counter named in [metrics_data] at the value supplied for
    it and every other counter as it was: no counter of the stored row is
    below its previous value provided no supplied value is below the counter
    it replaces. *)
Theorem metric_update_overwrites_named_counters (cid : Z)
    (metrics_data : list (string * Z)) (db db' : Session) (campaign : ABTestCampaign.t)
    (class : Message.class) (now : datetime) (data : gmap string string) :
  test_by_id cid (working db) = Some campaign ->
  NoDup metrics_data.*1 ->
  update_ab_test_metrics refuses setattr_other cid metrics_data db = (Success (), db') ->
  ab_test_campaigns (working (handle_delivery_report_over class now data db).2)
    = ab_test_campaigns (working db)
  /\ exists campaign',
       stored db' = working db'
       /\ ab_test_campaigns (stored db')
          = write_row_at ABTestCampaign.id cid campaign' (ab_test_campaigns (working db))
       /\ (ABTestCampaign.id campaign' = cid ->
           test_by_id cid (stored db') = Some campaign')
       /\ (forall key value, (key, value) ∈ metrics_data ->
             is_Some (counter key campaign) -> counter key campaign' = Some value)
       /\ (forall key, key ∉ metrics_data.*1 ->
             counter key campaign' = counter key campaign)
       /\ ((forall key value old, (key, value) ∈ metrics_data ->
              counter key campaign = Some old -> old <= value) ->
           Forall2 Z.le (counters campaign) (counters campaign')).
Proof.
  intros Hfind Hdict Hrun.
  split; [apply (handle_delivery_report_keeps_tests class)|].
  destruct (update_ab_test_metrics_success_inv refuses setattr_other cid metrics_data
              db db' Hrun) as (campaign0 & assigned & Hfind0 & Hloop & ->).
  rewrite Hfind in Hfind0. injection Hfind0 as <-.
  assert (Hkey : ABTestCampaign.id campaign = cid)
    by apply (find_key_eq _ _ _ _ Hfind).
  rewrite Hkey.
  destruct (refresh_conversion_rates_counters assigned) as [_ Hcnt].
  destruct (apply_metrics_counters metrics_data campaign assigned Hloop Hdict)
    as [Hnamed Hkept].
  exists (refresh_conversion_rates assigned).
  split; [reflexivity|]. split; [reflexivity|].
  split.
  { intros Hid. unfold test_by_id in *.
    cbn [stored session_of ab_test_campaigns set_ab_test_campaigns].
    apply (find_write_row_at _ _ _ _ _ Hfind Hid). }
  split.
  { intros key value Hin Hsome.
    rewrite (counter_of_counters _ _ Hcnt). apply (Hnamed key value Hin Hsome). }
  split.
  { intros key Hkey'. rewrite (counter_of_counters _ _ Hcnt). apply Hkept, Hkey'. }
  intros Hge. apply counters_by_name. intros key old new Hold Hnew.
  rewrite (counter_of_counters _ _ Hcnt) in Hnew.
  destruct (decide (key ∈ metrics_data.*1)) as [Hin|Hout].
  - apply list_elem_of_fmap in Hin. destruct Hin as ([k v] & -> & Hin). simpl in *.
    rewrite (Hnamed k v Hin) in Hnew by (rewrite Hold; eauto).
    injection Hnew as <-. apply (Hge k v old Hin Hold).
  - rewrite (Hkept key Hout), Hold in Hnew. injection Hnew as <-. lia.
Qed.

End MetricUpdates.

Lemma setattr_sample_keeps_counters (key : string) (value : Z)
    (c c' : ABTestCampaign.t) :
  setattr_sample key value c = inr c' -> counters c' = counters c.
Proof.
  unfold setattr_sample.
  repeat (destruct (String.eqb key _); [intros [= <-]; reflexivity || discriminate|]).
  intros [= <-]. reflexivity.
Qed.

(** The theorem on a running test with 5 opens for A: an update that records
    8 opens and moves the test to the key 99, over a database that takes it. *)
Lemma metric_update_overwrites_named_counters_5_to_8 :
  let test := sample_test RUNNING 0.5 100 0.95 100 100 5 0 in
  let db := session_of (sample_tables 200 test) in
  let metrics_data := [("variant_a_opened", 8); ("id", 99)] in
  let db' := (update_ab_test_metrics accepts setattr_sample 1 metrics_data db).2 in
  ab_test_campaigns (working (handle_delivery_report 0 delivered_callback db).2)
    = ab_test_campaigns (working db)
  /\ exists campaign',
       stored db' = working db'
       /\ ab_test_campaigns (stored db')
          = write_row_at ABTestCampaign.id 1 campaign' (ab_test_campaigns (working db))
       /\ (ABTestCampaign.id campaign' = 1 -> test_by_id 1 (stored db') = Some campaign')
       /\ (forall key value, (key, value) ∈ metrics_data ->
             is_Some (counter key test) -> counter key campaign' = Some value)
       /\ (forall key, key ∉ metrics_data.*1 -> counter key campaign' = counter key test)
       /\ ((forall key value old, (key, value) ∈ metrics_data ->
              counter key test = Some old -> old <= value) ->
           Forall2 Z.le (counters test) (counters campaign')).
Proof.
  intros test db metrics_data db'.
  apply (metric_update_overwrites_named_counters accepts setattr_sample
           setattr_sample_keeps_counters 1 metrics_data db db' test Message.getattr
           0 delivered_callback).
  - reflexivity.
  - refine (bool_decide_unpack (NoDup _) _). vm_compute. exact I.
  - vm_compute. reflexivity.
Defined.

(** C9 as stated fails: on a running test with 5 opens recorded for variant A,
    a metric update that supplies 3 succeeds and commits 3. *)
Lemma metric_update_lowers_a_counter :
  exists campaign' db',
    ABTestCampaign.status (sample_test RUNNING 0.5 100 0.95 100 100 5 0) = RUNNING
    /\ update_ab_test_metrics accepts setattr_sample 1 [("variant_a_opened", 3)]
         (session_of (sample_tables 200 (sample_test RUNNING 0.5 100 0.95 100 100 5 0)))
       = (Success (), db')
    /\ test_by_id 1 (stored db') = Some campaign'
    /\ ABTestCampaign.status campaign' = RUNNING
    /\ ABTestCampaign.variant_a_opened (sample_test RUNNING 0.5 100 0.95 100 100 5 0) = 5
    /\ ABTestCampaign.variant_a_opened campaign' = 3.
Proof.
  eexists. eexists. split; [reflexivity|]. split; [vm_compute; reflexivity|].
  vm_compute. repeat split.
Qed.

(** ** The delivery webhook *)

Lemma write_row_twice {A} (key : A -> Z) (r1 r2 : A) (rows : list A) :
  key r1 = key r2 -> write_row key r2 (write_row key r1 rows) = write_row key r2 rows.
Proof.
  intros Hk. unfold write_row. rewrite <- list_fmap_compose.
  apply list_fmap_ext. intros i x _. simpl.
  destruct (Z.eqb_spec (key x) (key r1)) as [E|E].
  - rewrite Hk, Z.eqb_refl. rewrite <- Hk, E, Z.eqb_refl. reflexivity.
  - reflexivity.
Qed.

Lemma write_row_observation {A B} (key : A -> Z) (obs : A -> B) (r1 r2 : A)
    (rows : list A) :
  key r1 = key r2 -> obs r1 = obs r2 ->
  obs <$> write_row key r1 rows = obs <$> write_row key r2 rows.
Proof.
  intros Hk Ho. unfold write_row. rewrite <- !list_fmap_compose.
  apply list_fmap_ext. intros i x _. simpl. rewrite Hk.
  destruct (key x =? key r2); [exact Ho | reflexivity].
Qed.

Lemma find_in_written_rows {A} (key : A -> Z) (P : A -> bool) (r' : A) (rows : list A)
    (r : A) :
  find P rows = Some r -> key r' = key r -> P r' = true ->
  find P (write_row key r' rows) = Some r'.
Proof.
  intros Hfind Hk HP. unfold write_row.
  induction rows as [|x rows IH]; simpl in *; [discriminate|].
  destruct (Z.eqb_spec (key x) (key r')) as [E|E].
  - rewrite HP. reflexivity.
  - destruct (P x) eqn:HPx.
    + injection Hfind as ->. congruence.
    + apply IH, Hfind.
Qed.

(** The statistics of a campaign depend on the message rows through their
    campaign and status only. *)
Lemma counts_of_shape (cid : Z) (st : MessageStatus) (rows rows' : list Message.t) :
  delivery_shape <$> rows = delivery_shape <$> rows' ->
  count_in_status cid st rows = count_in_status cid st rows'
  /\ count_messages cid rows = count_messages cid rows'.
Proof.
  unfold count_in_status, count_messages, of_campaign.
  revert rows'. induction rows as [|m rows IH]; intros [|m' rows']; simpl;
    try discriminate; [split; reflexivity|].
  intros [= Hc Hs Hrest]. destruct (IH rows' Hrest) as [IH1 IH2].
  rewrite Hc, Hs.
  destruct (bool_decide (Message.campaign_id m' = Some cid));
    destruct (bool_decide (Message.status m' = st)); simpl; split; lia.
Qed.

Lemma recalculate_counts (now : datetime) (rows : list Message.t) (c : Campaign.t) :
  Campaign.id (recalculate now rows c) = Campaign.id c
  /\ Campaign.delivered_count (recalculate now rows c)
     = count_in_status (Campaign.id c) MSG_SENT rows
  /\ Campaign.failed_count (recalculate now rows c)
     = count_in_status (Campaign.id c) MSG_FAILED rows.
Proof.
  unfold recalculate. simpl. destruct (_ <=? _); repeat split.
Qed.

(** Once the counted rows cover all rows of the campaign, the recalculation
    marks the campaign sent. *)
Lemma recalculate_completes (now : datetime) (rows : list Message.t) (c : Campaign.t) :
  count_messages (Campaign.id c) rows
    <= count_in_status (Campaign.id c) MSG_SENT rows
       + count_in_status (Campaign.id c) MSG_FAILED rows ->
  Campaign.status (recalculate now rows c) = CAMPAIGN_SENT.
Proof.
  intros H. unfold recalculate. simpl.
  destruct (Z.leb_spec (count_messages (Campaign.id c) rows)
              (count_in_status (Campaign.id c) MSG_SENT rows
               + count_in_status (Campaign.id c) MSG_FAILED rows)); [reflexivity | lia].
Qed.

Section Reconciliation.

Variable class : Message.class.
Variable column : Message.t -> Message.value.
Hypothesis class_has_column : class "provider_message_id" = Some column.
Hypothesis column_kept :
  forall st d err m, column (Message.set_delivery st d err m) = column m.

(** The handler on a callback that names a stored message. *)
Lemma handle_delivery_report_found (now : datetime) (data : gmap string string)
    (db : Session) (key : string) (m : Message.t) :
  truthy (py_or (py_or (data !! "message_id") (data !! "sid")) (data !! "id")) = true ->
  truthy (py_or (data !! "status") (data !! "delivery_status")) = true ->
  default "" (py_or (py_or (data !! "message_id") (data !! "sid")) (data !! "id")) = key ->
  find (fun m => bool_decide (column m = Message.Text key)) (messages (working db))
    = Some m ->
  handle_delivery_report_over class now data db =
    (Success "Status updated",
     update_campaign_statistics now (reconciled now data m)
       (commit (on_working (fun t =>
          set_messages (write_row Message.id (reconciled now data m) (messages t)) t) db))).
Proof.
  intros Hid Hst Hkey Hfind.
  unfold handle_delivery_report_over, Message.class_attribute.
  rewrite Hid, Hst, class_has_column, Hkey. simpl. rewrite Hfind. reflexivity.
Qed.

Lemma handle_delivery_report_not_found (now : datetime) (data : gmap string string)
    (db : Session) (key : string) :
  truthy (py_or (py_or (data !! "message_id") (data !! "sid")) (data !! "id")) = true ->
  truthy (py_or (data !! "status") (data !! "delivery_status")) = true ->
  default "" (py_or (py_or (data !! "message_id") (data !! "sid")) (data !! "id")) = key ->
  find (fun m => bool_decide (column m = Message.Text key)) (messages (working db)) = None ->
  handle_delivery_report_over class now data db = (Failure "Message not found", db).
Proof.
  intros Hid Hst Hkey Hfind.
  unfold handle_delivery_report_over, Message.class_attribute.
  rewrite Hid, Hst, class_has_column, Hkey. simpl. rewrite Hfind. reflexivity.
Qed.

Lemma update_campaign_statistics_messages (now : datetime) (m : Message.t) (db : Session) :
  messages (working (update_campaign_statistics now m db)) = messages (working db).
Proof.
  unfold update_campaign_statistics.
  destruct (Message.campaign_id m); [|reflexivity].
  destruct (find _ _); reflexivity.
Qed.

(** Applying a callback a second time leaves the campaign counters as the
    first application left them. *)
Lemma handle_delivery_report_over_idempotent (now1 now2 : datetime)
    (data : gmap string string) (db : Session) :
  let once := (handle_delivery_report_over class now1 data db).2 in
  let twice := (handle_delivery_report_over class now2 data once).2 in
  campaign_counters twice = campaign_counters once.
Proof.
  cbv zeta.
  destruct (truthy (py_or (py_or (data !! "message_id") (data !! "sid")) (data !! "id")))
    eqn:Hid;
    [|unfold handle_delivery_report_over; rewrite Hid; reflexivity].
  destruct (truthy (py_or (data !! "status") (data !! "delivery_status"))) eqn:Hst;
    [|unfold handle_delivery_report_over; rewrite Hid, Hst; reflexivity].
  set (key := default "" (py_or (py_or (data !! "message_id") (data !! "sid"))
                            (data !! "id"))).
  set (P := fun m => bool_decide (column m = Message.Text key)).
  destruct (find P (messages (working db))) as [m|] eqn:Hfind.
  2:{ rewrite (handle_delivery_report_not_found now1 data db key Hid Hst eq_refl Hfind).
      simpl snd.
      rewrite (handle_delivery_report_not_found now2 data db key Hid Hst eq_refl Hfind).
      reflexivity. }
  rewrite (handle_delivery_report_found now1 data db key m Hid Hst eq_refl Hfind).
  set (m1 := reconciled now1 data m).
  set (db1 := commit _). simpl snd.
  assert (HP1 : P m1 = true).
  { unfold P, m1, reconciled. rewrite column_kept.
    apply find_some in Hfind. apply Hfind. }
  assert (Hfind1 : find P (messages (working (update_campaign_statistics now1 m1 db1)))
                   = Some m1).
  { rewrite update_campaign_statistics_messages. unfold db1. simpl.
    apply (find_in_written_rows Message.id P m1 _ m Hfind); [reflexivity | exact HP1]. }
  rewrite (handle_delivery_report_found now2 data _ key m1 Hid Hst eq_refl Hfind1).
  set (m2 := reconciled now2 data m1). simpl snd.
  set (db2 := update_campaign_statistics now1 m1 db1) in *.
  set (db3 := commit _).
  assert (Hshape : delivery_shape <$> messages (working db3)
                   = delivery_shape <$> messages (working db1)).
  { unfold db3. simpl. unfold db2. rewrite update_campaign_statistics_messages.
    unfold db1. simpl. rewrite write_row_twice by reflexivity.
    apply write_row_observation; reflexivity. }
  assert (Hcamp3 : campaigns (working db3) = campaigns (working db2)) by reflexivity.
  unfold update_campaign_statistics at 1.
  change (Message.campaign_id m2) with (Message.campaign_id m).
  destruct (Message.campaign_id m) as [cid|] eqn:Hcid;
    [|unfold campaign_counters; rewrite Hcamp3; reflexivity].
  rewrite Hcamp3.
  assert (Hdb2 : db2 = update_campaign_statistics now1 m1 db1) by reflexivity.
  unfold update_campaign_statistics in Hdb2.
  change (Message.campaign_id m1) with (Message.campaign_id m) in Hdb2.
  rewrite Hcid in Hdb2.
  change (campaigns (working db1)) with (campaigns (working db)) in Hdb2.
  destruct (find (fun c => Campaign.id c =? cid) (campaigns (working db)))
    as [c|] eqn:Hc.
  2:{ rewrite Hdb2. simpl. rewrite Hc. unfold campaign_counters.
      rewrite Hcamp3, Hdb2. reflexivity. }
  set (c1 := recalculate now1 (messages (working db1)) c) in Hdb2.
  destruct (recalculate_counts now1 (messages (working db1)) c) as (Hid1 & Hd1 & Hf1).
  fold c1 in Hid1, Hd1, Hf1.
  pose proof (find_key_eq _ _ _ _ Hc) as Hcid'.
  assert (Hc1 : find (fun c => Campaign.id c =? cid) (campaigns (working db2)) = Some c1).
  { rewrite Hdb2. simpl. rewrite <- Hcid', <- Hid1 in *.
    apply (find_write_row Campaign.id c1 _ c Hc). }
  rewrite Hc1.
  set (c2 := recalculate now2 (messages (working db3)) c1).
  destruct (recalculate_counts now2 (messages (working db3)) c1) as (Hid2 & Hd2 & Hf2).
  fold c2 in Hid2, Hd2, Hf2.
  unfold campaign_counters.
  cbn [campaigns working commit on_working set_campaigns]. rewrite ?Hcamp3.
  assert (Hcs : campaigns (working db2) = write_row Campaign.id c1 (campaigns (working db)))
    by (rewrite Hdb2; reflexivity).
  rewrite Hcs, write_row_twice by (symmetry; exact Hid2).
  apply write_row_observation; [exact Hid2|].
  rewrite Hid2, Hd2, Hf2, Hd1, Hf1, Hid1.
  destruct (counts_of_shape (Campaign.id c) MSG_SENT _ _ Hshape) as [-> _].
  destruct (counts_of_shape (Campaign.id c) MSG_FAILED _ _ Hshape) as [-> _].
  reflexivity.
Qed.

(** A callback that names a message of a campaign: when the rows counted as
    sent or failed afterwards cover all rows of the campaign, the committed
    campaign row is in status "sent". *)
Lemma handle_delivery_report_over_completes (now : datetime) (data : gmap string string)
    (db : Session) (key : string) (m : Message.t) (cid : Z) (c : Campaign.t) :
  truthy (py_or (py_or (data !! "message_id") (data !! "sid")) (data !! "id")) = true ->
  truthy (py_or (data !! "status") (data !! "delivery_status")) = true ->
  default "" (py_or (py_or (data !! "message_id") (data !! "sid")) (data !! "id")) = key ->
  find (fun m => bool_decide (column m = Message.Text key)) (messages (working db))
    = Some m ->
  Message.campaign_id m = Some cid ->
  find (fun c => Campaign.id c =? cid) (campaigns (working db)) = Some c ->
  let db' := (handle_delivery_report_over class now data db).2 in
  count_messages cid (messages (working db'))
    <= count_in_status cid MSG_SENT (messages (working db'))
       + count_in_status cid MSG_FAILED (messages (working db')) ->
  exists c',
    find (fun c => Campaign.id c =? cid) (campaigns (stored db')) = Some c'
    /\ Campaign.status c' = CAMPAIGN_SENT.
Proof.
  intros Hid Hst Hkey Hfind Hcid Hc db'.
  set (m' := reconciled now data m).
  set (rows := write_row Message.id m' (messages (working db))).
  set (db1 := commit (on_working (fun t =>
                set_messages (write_row Message.id m' (messages t)) t) db)).
  assert (Hdb' : db' = commit (on_working (fun t =>
                   set_campaigns
                     (write_row Campaign.id (recalculate now rows c) (campaigns t)) t) db1)).
  { unfold db'.
    rewrite (handle_delivery_report_found now data db key m Hid Hst Hkey Hfind).
    simpl snd. unfold update_campaign_statistics.
    change (Message.campaign_id (reconciled now data m)) with (Message.campaign_id m).
    rewrite Hcid.
    change (campaigns (working (commit (on_working (fun t =>
              set_messages (write_row Message.id (reconciled now data m) (messages t)) t)
              db)))) with (campaigns (working db)).
    rewrite Hc. reflexivity. }
  clearbody db'. subst db'.
  change (messages (working (commit (on_working (fun t =>
            set_campaigns (write_row Campaign.id (recalculate now rows c) (campaigns t)) t)
            db1)))) with rows.
  change (campaigns (stored (commit (on_working (fun t =>
            set_campaigns (write_row Campaign.id (recalculate now rows c) (campaigns t)) t)
            db1)))) with (write_row Campaign.id (recalculate now rows c)
                            (campaigns (working db))).
  pose proof (find_key_eq _ _ _ _ Hc) as Hk. rewrite <- Hk in *.
  intros Hcover. exists (recalculate now rows c). split.
  - destruct (recalculate_counts now rows c) as (Hid' & _).
    rewrite <- Hid'. apply (find_write_row Campaign.id _ _ c). rewrite Hid'. exact Hc.
  - apply recalculate_completes, Hcover.
Qed.

End Reconciliation.

(** The handler of the repository resolves [Message.provider_message_id] on a
    class that has no such attribute: every callback leaves the session as it
    was. *)
Lemma handle_delivery_report_changes_nothing (now : datetime)
    (data : gmap string string) (db : Session) :
  (handle_delivery_report now data db).2 = db
  /\ exists error, (handle_delivery_report now data db).1 = Failure error.
Proof.
  unfold handle_delivery_report, handle_delivery_report_over.
  destruct (_ || _); split; try reflexivity; eexists; reflexivity.
Qed.

(** C2.  The same callback applied twice in a row: the delivered and failed
    counters of every campaign after the second application are those after the
    first.  This holds of the handler as written, and of the handler over a
    [Message] class on which [provider_message_id] reads the provider's
    identifier, where the counters are set from counts over the message rows. *)
Theorem delivery_report_twice_same_counters (now1 now2 : datetime)
    (data : gmap string string) (db : Session) :
  campaign_counters
    (handle_delivery_report now2 data (handle_delivery_report now1 data db).2).2
  = campaign_counters (handle_delivery_report now1 data db).2
  /\ campaign_counters
       (handle_delivery_report_over Message.with_provider_message_id now2 data
          (handle_delivery_report_over Message.with_provider_message_id now1 data db).2).2
     = campaign_counters
         (handle_delivery_report_over Message.with_provider_message_id now1 data db).2.
Proof.
  split.
  - rewrite !(proj1 (handle_delivery_report_changes_nothing _ _ _)). reflexivity.
  - apply (handle_delivery_report_over_idempotent Message.with_provider_message_id
             (fun r => Message.of_option Message.Text (Message.message_id r))).
    + reflexivity.
    + reflexivity.
Qed.

(** C8, the failing input.  Campaign 1 is in status "sending" and its only
    message, which carries the provider identifier SM1, is counted as sent, so
    sent plus failed equals the number of its messages.  The callback for SM1
    raises inside the handler and is answered "Internal server error": the
    campaign stays in status "sending".  The same holds when the message is
    still pending.  Over a class that has the attribute, the same callbacks
    commit the campaign in status "sent". *)
Theorem delivery_report_leaves_campaign_sending (now : datetime) :
  let sent := session_of (sending_tables MSG_SENT) in
  let pending := session_of (sending_tables MSG_PENDING) in
  let status_of db := Campaign.status <$> find (fun c => Campaign.id c =? 1)
                                              (campaigns (stored db)) in
  handle_delivery_report now delivered_callback sent
    = (Failure "Internal server error", sent)
  /\ count_messages 1 (messages (working sent))
     = count_in_status 1 MSG_SENT (messages (working sent))
       + count_in_status 1 MSG_FAILED (messages (working sent))
  /\ status_of (handle_delivery_report now delivered_callback sent).2
     = Some CAMPAIGN_SENDING
  /\ handle_delivery_report now delivered_callback pending
     = (Failure "Internal server error", pending)
  /\ status_of (handle_delivery_report_over Message.with_provider_message_id
                  now delivered_callback sent).2 = Some CAMPAIGN_SENT
  /\ status_of (handle_delivery_report_over Message.with_provider_message_id
                  now delivered_callback pending).2 = Some CAMPAIGN_SENT.
Proof.
  vm_compute. repeat split.
Qed.

(** ** The bulk sender *)

Section BulkSender.

Variable task : nat -> OutMsg.t -> Py.Exc SendResult.t.

Lemma range_step_covers (n : nat) : (n <= 10 * ((n + 9) / 10))%nat.
Proof.
  pose proof (Nat.div_mod_eq (n + 9) 10) as Hd.
  pose proof (Nat.mod_upper_bound (n + 9) 10) as Hm. lia.
Qed.

(** After the first [k] batches the results are the outcomes of the first
    [10 * k] messages, in input order. *)
Lemma gather_prefix (messages : list OutMsg.t) (k : nat) :
  fold_left
    (fun results i =>
       results ++ send_batch task i (firstn batch_size (skipn i messages)))
    ((fun i => i * batch_size)%nat <$> seq 0 k) []
  = imap (fun i msg => outcome (task i msg) (OutMsg.phone msg))
      (firstn (10 * k) messages).
Proof.
  induction k as [|k IH]; [reflexivity|].
  rewrite seq_S, fmap_app, fold_left_app, IH. simpl fold_left.
  unfold send_batch, batch_size.
  replace (10 * S k)%nat with (10 * k + 10)%nat by lia.
  rewrite <- (take_take_drop messages (10 * k) 10), imap_app.
  f_equal. replace (k * 10)%nat with (10 * k)%nat by lia.
  destruct (Nat.le_gt_cases (10 * k) (length messages)) as [Hle|Hgt].
  - rewrite length_take, Nat.min_l by exact Hle. reflexivity.
  - rewrite (drop_ge messages (10 * k)) by lia. reflexivity.
Qed.

Lemma gather_in_batches_imap (messages : list OutMsg.t) :
  gather_in_batches task messages
  = imap (fun i msg => outcome (task i msg) (OutMsg.phone msg)) messages.
Proof.
  unfold gather_in_batches, Py.range_step.
  change (length messages + (batch_size - 1))%nat with (length messages + 9)%nat.
  change (Nat.div (length messages + 9) batch_size)
    with ((length messages + 9) / 10)%nat.
  rewrite gather_prefix, take_ge; [reflexivity | apply range_step_covers].
Qed.

End BulkSender.

(** C6.  The results of the bulk sender are the outcomes of the input messages
    position by position: as many results as messages, each tagged with the
    phone number of its message; a task that raises yields a failed outcome
    that carries the text of the exception, and every other position holds the
    result of its own send.  [send_bulk_sms] is the instance in which the task
    is [send_sms]; in a batch of ten whose seventh provider call times out the
    ten outcomes are all there and the seventh alone is failed. *)
Theorem send_bulk_sms_one_outcome_per_message
    (task : nat -> OutMsg.t -> Py.Exc SendResult.t)
    (provider : SmsProvider) (world : nat -> World) (messages : list OutMsg.t) :
  let results := gather_in_batches task messages in
  length results = length messages
  /\ SendResult.phone <$> results = (fun msg => Some (OutMsg.phone msg)) <$> messages
  /\ (forall i msg, messages !! i = Some msg ->
        results !! i = Some (outcome (task i msg) (OutMsg.phone msg)))
  /\ (forall i msg e, messages !! i = Some msg -> task i msg = Py.raise e ->
        results !! i
        = Some (SendResult.with_phone (OutMsg.phone msg) (SendResult.failed (Py.str e))))
  /\ send_bulk_sms provider world messages
     = imap (fun i msg => SendResult.with_phone (OutMsg.phone msg)
                            (send_sms provider (world i) (OutMsg.phone msg))) messages
  /\ length (send_bulk_sms provider world messages) = length messages
  /\ SendResult.success <$> send_bulk_sms TWILIO seventh_times_out ten_messages
     = [true; true; true; true; true; true; false; true; true; true].
Proof.
  cbv zeta. rewrite gather_in_batches_imap.
  assert (Hlookup : forall i msg, messages !! i = Some msg ->
            imap (fun i msg => outcome (task i msg) (OutMsg.phone msg)) messages !! i
            = Some (outcome (task i msg) (OutMsg.phone msg))).
  { intros i msg Hi. rewrite list_lookup_imap, Hi. reflexivity. }
  split; [apply length_imap|].
  split.
  { apply list_eq. intros i. rewrite !list_lookup_fmap, list_lookup_imap.
    destruct (messages !! i) as [msg|]; [|reflexivity]. simpl.
    destruct (task i msg); reflexivity. }
  split; [exact Hlookup|].
  split; [intros i msg e Hi He; rewrite (Hlookup i msg Hi), He; reflexivity|].
  split; [unfold send_bulk_sms; rewrite gather_in_batches_imap; reflexivity|].
  split; [unfold send_bulk_sms; rewrite gather_in_batches_imap; apply length_imap|].
  vm_compute. reflexivity.
Qed.

(** * Further properties of the modelled code *)

(** ** [start_ab_test]: rejections and what a start commits *)

Section StartOutcomes.

Variable shuffle : list Contact.t -> list Contact.t.
Variable next_recipient_id : list ABTestRecipient.t -> Z.

(** A start that reports success went through every check of the body. *)
Lemma start_ab_test_success_inv (cid uid : Z) (now : datetime) (db db' : Session)
    (message : string) :
  start_ab_test shuffle next_recipient_id cid uid now db = (Success message, db') ->
  exists campaign k variant_a variant_b,
    find (fun c => (ABTestCampaign.id c =? cid) && (ABTestCampaign.user_id c =? uid))
         (ab_test_campaigns (working db)) = Some campaign
    /\ ABTestCampaign.status campaign = DRAFT
    /\ ABTestCampaign.minimum_sample_size campaign
       <= Z.of_nat (length (List.filter (fun c => Contact.user_id c =? uid)
                              (contacts (working db))))
    /\ Py.int_of_float
         (Py.of_int (Z.of_nat (length (shuffle
            (List.filter (fun c => Contact.user_id c =? uid) (contacts (working db))))))
          * ABTestCampaign.traffic_split campaign) = Py.ret k
    /\ variant_named "A" (List.filter (fun v => ABTestVariant.campaign_id v =? cid)
                            (ab_test_variants (working db))) = Some variant_a
    /\ variant_named "B" (List.filter (fun v => ABTestVariant.campaign_id v =? cid)
                            (ab_test_variants (working db))) = Some variant_b.
Proof.
  unfold start_ab_test.
  destruct (find _ (ab_test_campaigns (working db))) as [campaign|] eqn:Hfind;
    [|discriminate].
  destruct (bool_decide (ABTestCampaign.status campaign = DRAFT)) eqn:Hdraft;
    simpl negb; cbv iota; [|discriminate].
  apply bool_decide_eq_true_1 in Hdraft.
  cbn [working on_working contacts set_ab_test_campaigns ab_test_variants
       ABTestCampaign.minimum_sample_size ABTestCampaign.traffic_split
       ABTestCampaign.set_started_at ABTestCampaign.set_status].
  destruct (Z.ltb_spec (Z.of_nat (length (List.filter (fun c => Contact.user_id c =? uid)
                                            (contacts (working db)))))
              (ABTestCampaign.minimum_sample_size campaign)) as [|Hmin]; [discriminate|].
  destruct (Py.int_of_float _) as [e|k] eqn:Hk; [discriminate|].
  destruct (variant_named "A" _) as [variant_a|] eqn:Ha; [|discriminate].
  destruct (variant_named "B" _) as [variant_b|] eqn:Hb; [|discriminate].
  intros _. exists campaign, k, variant_a, variant_b. repeat split; assumption.
Qed.

(** X1.  A start that fails never commits and never writes a recipient or a
    variant row: the stored tables are those before the call, and so are the
    session's recipient, variant and contact rows.  Only the session's test row
    can differ, and it does not when the test is missing, belongs to another
    user or is not a draft. *)
Theorem failed_start_commits_nothing (cid uid : Z) (now : datetime) (db db' : Session)
    (error : string) :
  start_ab_test shuffle next_recipient_id cid uid now db = (Failure error, db') ->
  stored db' = stored db
  /\ ab_test_recipients (working db') = ab_test_recipients (working db)
  /\ ab_test_variants (working db') = ab_test_variants (working db)
  /\ contacts (working db') = contacts (working db)
  /\ ((find (fun c => (ABTestCampaign.id c =? cid) && (ABTestCampaign.user_id c =? uid))
            (ab_test_campaigns (working db)) = None
       \/ exists campaign,
            find (fun c => (ABTestCampaign.id c =? cid) && (ABTestCampaign.user_id c =? uid))
                 (ab_test_campaigns (working db)) = Some campaign
            /\ ABTestCampaign.status campaign <> DRAFT) ->
      db' = db).
Proof.
  unfold start_ab_test.
  destruct (find _ (ab_test_campaigns (working db))) as [campaign|] eqn:Hfind.
  2:{ intros [= _ <-]. repeat split; reflexivity. }
  destruct (bool_decide (ABTestCampaign.status campaign = DRAFT)) eqn:Hdraft;
    simpl negb; cbv iota.
  2:{ intros [= _ <-]. repeat split; reflexivity. }
  apply bool_decide_eq_true_1 in Hdraft.
  assert (Hguard : Some campaign = None
                   \/ (exists c0, Some campaign = Some c0
                                   /\ ABTestCampaign.status c0 <> DRAFT) -> False).
  { intros [H|(c0 & [= <-] & H)]; [discriminate H | contradiction]. }
  destruct (_ <? _).
  { intros [= _ <-]. repeat split; try reflexivity. intros H. destruct (Hguard H). }
  destruct (Py.int_of_float _) as [e|k].
  { intros [= _ <-]. repeat split; try reflexivity. intros H. destruct (Hguard H). }
  destruct (variant_named "A" _) as [variant_a|].
  2:{ intros [= _ <-]. repeat split; try reflexivity. intros H. destruct (Hguard H). }
  destruct (variant_named "B" _) as [variant_b|]; [discriminate|].
  intros [= _ <-]. repeat split; try reflexivity. intros H. destruct (Hguard H).
Qed.

(** X2.  A test that has been started cannot be started again: after a
    successful start every further start of the same test by the same user is
    rejected with "Campaign is not in draft status" and changes nothing. *)
Theorem started_test_cannot_be_restarted (cid uid : Z) (now now' : datetime)
    (db db' : Session) (message : string) :
  start_ab_test shuffle next_recipient_id cid uid now db = (Success message, db') ->
  start_ab_test shuffle next_recipient_id cid uid now' db'
  = (Failure "Campaign is not in draft status", db').
Proof.
  intros Hstart.
  destruct (start_ab_test_success_inv cid uid now db db' message Hstart)
    as (campaign & k & va & vb & Hfind & Hdraft & Hmin & Hk & Ha & Hb).
  destruct (start_ab_test_success shuffle next_recipient_id cid uid now db campaign k va vb
              Hfind Hdraft Hmin Hk Ha Hb) as (db'' & Hrun & _ & _ & Hcamp).
  rewrite Hrun in Hstart. injection Hstart as _ <-.
  set (running := ABTestCampaign.set_started_at (Some now)
                    (ABTestCampaign.set_status RUNNING campaign)) in *.
  set (final := started now _ _ campaign) in *.
  assert (Hfound : find (fun c => (ABTestCampaign.id c =? cid)
                                  && (ABTestCampaign.user_id c =? uid))
                        (ab_test_campaigns (working db'')) = Some final).
  { rewrite Hcamp.
    pose proof (find_some _ _ Hfind) as [_ HP].
    eapply (find_in_written_rows ABTestCampaign.id _ final _ running);
      [|reflexivity|exact HP].
    eapply (find_in_written_rows ABTestCampaign.id _ running _ campaign);
      [exact Hfind|reflexivity|exact HP]. }
  unfold start_ab_test. rewrite Hfound. reflexivity.
Qed.

End StartOutcomes.

(** The theorem on the start of a 100-contact test for an owner with 40
    contacts. *)
Lemma failed_start_commits_nothing_40 :
  let db := session_of (sample_tables 40 (sample_test DRAFT 0.5 100 0.95 0 0 0 0)) in
  let db' := (start_ab_test (@rev Contact.t) (next_after_largest ABTestRecipient.id) 1 7 0 db).2 in
  stored db' = stored db
  /\ ab_test_recipients (working db') = ab_test_recipients (working db)
  /\ ab_test_variants (working db') = ab_test_variants (working db)
  /\ contacts (working db') = contacts (working db)
  /\ ((find (fun c => (ABTestCampaign.id c =? 1) && (ABTestCampaign.user_id c =? 7))
            (ab_test_campaigns (working db)) = None
       \/ exists campaign,
            find (fun c => (ABTestCampaign.id c =? 1) && (ABTestCampaign.user_id c =? 7))
                 (ab_test_campaigns (working db)) = Some campaign
            /\ ABTestCampaign.status campaign <> DRAFT) ->
      db' = db).
Proof.
  apply (failed_start_commits_nothing (@rev Contact.t) (next_after_largest ABTestRecipient.id) 1 7 0
           (session_of (sample_tables 40 (sample_test DRAFT 0.5 100 0.95 0 0 0 0)))
           _ "Not enough contacts. Need 100, have 40").
  vm_compute. reflexivity.
Defined.

(** The theorem on the 200-contact scenario. *)
Lemma started_test_cannot_be_restarted_200 :
  let db' := (start_ab_test (@rev Contact.t) (next_after_largest ABTestRecipient.id) 1 7 0
                (session_of (sample_tables 200 scenario_draft))).2 in
  start_ab_test (@rev Contact.t) (next_after_largest ABTestRecipient.id) 1 7 60 db'
  = (Failure "Campaign is not in draft status", db').
Proof.
  apply (started_test_cannot_be_restarted (@rev Contact.t)
           (next_after_largest ABTestRecipient.id) 1 7 0 60
           (session_of (sample_tables 200 scenario_draft)) _
           "A/B test started successfully").
  vm_compute. reflexivity.
Defined.

Section StartAccounting.

Variable shuffle : list Contact.t -> list Contact.t.
Variable next_recipient_id : list ABTestRecipient.t -> Z.
Hypothesis shuffle_permutes : forall l, Permutation (shuffle l) l.

Lemma length_slices {A} (l : list A) (k : Z) :
  (length (Py.slice_to l k) + length (Py.slice_from l k) = length l)%nat.
Proof. rewrite <- length_app, slice_to_from. reflexivity. Qed.

(** X3.  Whatever the traffic split, a start that succeeds accounts for every
    contact of the owner exactly once: it commits, the test is running with the
    start time, its two recipient counts are not negative and add up to the
    population, and the recipient rows it appends are one per contact. *)
Theorem successful_start_accounts_for_every_contact (cid uid : Z) (now : datetime)
    (db db' : Session) (message : string) :
  start_ab_test shuffle next_recipient_id cid uid now db = (Success message, db') ->
  let people := List.filter (fun c => Contact.user_id c =? uid) (contacts (working db)) in
  exists test rows,
    stored db' = working db'
    /\ test_by_id cid (stored db') = Some test
    /\ ABTestCampaign.status test = RUNNING
    /\ ABTestCampaign.started_at test = Some now
    /\ 0 <= ABTestCampaign.variant_a_recipients test
    /\ 0 <= ABTestCampaign.variant_b_recipients test
    /\ ABTestCampaign.variant_a_recipients test + ABTestCampaign.variant_b_recipients test
       = Z.of_nat (length people)
    /\ ab_test_recipients (stored db') = ab_test_recipients (working db) ++ rows
    /\ Permutation (ABTestRecipient.contact_id <$> rows) (Contact.id <$> people)
    /\ Forall (fun r => ABTestRecipient.campaign_id r = cid) rows.
Proof.
  intros Hstart. cbv zeta.
  remember (List.filter (fun c => Contact.user_id c =? uid) (contacts (working db)))
    as people eqn:Hpeople.
  destruct (start_ab_test_success_inv shuffle next_recipient_id cid uid now db db' message Hstart)
    as (campaign & k & va & vb & Hfind & Hdraft & Hmin & Hk & Ha & Hb).
  pose proof (start_ab_test_success shuffle next_recipient_id cid uid now db campaign k va vb
                Hfind Hdraft Hmin Hk Ha Hb) as Hs.
  cbv zeta in Hs. rewrite <- Hpeople in Hs.
  destruct Hs as (db'' & Hrun & Hstored & Hrec & Hcamp).
  rewrite Hrun in Hstart. injection Hstart as _ <-.
  set (group_a := Py.slice_to (shuffle people) k) in *.
  set (group_b := Py.slice_from (shuffle people) k) in *.
  destruct (add_recipients_spec next_recipient_id cid (ABTestVariant.id va) group_a
              (ab_test_recipients (working db))) as (rows_a & Hadd_a & Hids_a & Hall_a).
  destruct (add_recipients_spec next_recipient_id cid (ABTestVariant.id vb) group_b
              (ab_test_recipients (working db) ++ rows_a))
    as (rows_b & Hadd_b & Hids_b & Hall_b).
  destruct (find_weaken _ (fun c => ABTestCampaign.id c =? cid) _ _
              (fun y Hy => proj1 (andb_prop _ _ Hy)) Hfind) as (c0 & Hc0).
  assert (Hid : ABTestCampaign.id campaign = cid).
  { apply find_some in Hfind. destruct Hfind as [_ Hp].
    apply andb_prop in Hp. apply Z.eqb_eq, Hp. }
  exists (started now (Z.of_nat (length group_a)) (Z.of_nat (length group_b)) campaign),
    (rows_a ++ rows_b).
  split; [exact Hstored|]. rewrite Hstored. split.
  { unfold test_by_id. rewrite Hcamp. rewrite <- Hid in *.
    eapply (find_write_row ABTestCampaign.id
              (started now (Z.of_nat (length group_a)) (Z.of_nat (length group_b)) campaign)).
    eapply (find_write_row ABTestCampaign.id
              (ABTestCampaign.set_started_at (Some now)
                 (ABTestCampaign.set_status RUNNING campaign))).
    exact Hc0. }
  split; [reflexivity|]. split; [reflexivity|].
  split; [simpl; lia|]. split; [simpl; lia|].
  split.
  { simpl. pose proof (length_slices (shuffle people) k) as Hl.
    fold group_a group_b in Hl.
    rewrite (Permutation_length (shuffle_permutes people)) in Hl. lia. }
  split; [rewrite Hrec, Hadd_a, Hadd_b, <- app_assoc; reflexivity|].
  split.
  { rewrite fmap_app, Hids_a, Hids_b, <- fmap_app.
    unfold group_a, group_b. rewrite slice_to_from.
    apply Permutation_map, shuffle_permutes. }
  apply Forall_app. split.
  - eapply Forall_impl; [exact Hall_a | intros r Hr; apply Hr].
  - eapply Forall_impl; [exact Hall_b | intros r Hr; apply Hr].
Qed.

End StartAccounting.

(** The theorem on ten contacts and a split of -0.55, where the negative split
    point counts from the end of the list. *)
Lemma successful_start_accounts_for_every_contact_negative_split :
  let db := session_of (sample_tables 10 (sample_test DRAFT (-0.55) 10 0.95 0 0 0 0)) in
  let db' := (start_ab_test (@rev Contact.t) (next_after_largest ABTestRecipient.id) 1 7 0 db).2 in
  exists test rows,
    stored db' = working db'
    /\ test_by_id 1 (stored db') = Some test
    /\ ABTestCampaign.status test = RUNNING
    /\ ABTestCampaign.started_at test = Some 0
    /\ 0 <= ABTestCampaign.variant_a_recipients test
    /\ 0 <= ABTestCampaign.variant_b_recipients test
    /\ ABTestCampaign.variant_a_recipients test + ABTestCampaign.variant_b_recipients test
       = Z.of_nat (length (List.filter (fun c => Contact.user_id c =? 7)
                             (contacts (working db))))
    /\ ab_test_recipients (stored db') = ab_test_recipients (working db) ++ rows
    /\ Permutation (ABTestRecipient.contact_id <$> rows)
         (Contact.id <$> List.filter (fun c => Contact.user_id c =? 7)
                           (contacts (working db)))
    /\ Forall (fun r => ABTestRecipient.campaign_id r = 1) rows.
Proof.
  apply (successful_start_accounts_for_every_contact (@rev Contact.t)
           (next_after_largest ABTestRecipient.id)
           (fun l => Permutation_sym (Permutation_rev l)) 1 7 0
           (session_of (sample_tables 10 (sample_test DRAFT (-0.55) 10 0.95 0 0 0 0)))
           _ "A/B test started successfully").
  vm_compute. reflexivity.
Defined.

(** X4.  A traffic split that is not a number makes the start of a draft test
    with enough contacts fail with the message of the conversion error; nothing
    is committed. *)
Theorem nan_split_fails_the_start (shuffle : list Contact.t -> list Contact.t)
    (next_recipient_id : list ABTestRecipient.t -> Z)
    (cid uid : Z) (now : datetime) (db : Session) (campaign : ABTestCampaign.t) :
  find (fun c => (ABTestCampaign.id c =? cid) && (ABTestCampaign.user_id c =? uid))
       (ab_test_campaigns (working db)) = Some campaign ->
  ABTestCampaign.status campaign = DRAFT ->
  ABTestCampaign.minimum_sample_size campaign
    <= Z.of_nat (length (List.filter (fun c => Contact.user_id c =? uid)
                           (contacts (working db)))) ->
  Prim2SF (ABTestCampaign.traffic_split campaign) = S754_nan ->
  exists db',
    start_ab_test shuffle next_recipient_id cid uid now db
    = (Failure "cannot convert float NaN to integer", db')
    /\ stored db' = stored db.
Proof.
  intros Hfind Hdraft Hmin Hnan.
  unfold start_ab_test. rewrite Hfind, Hdraft.
  rewrite bool_decide_eq_true_2 by reflexivity. simpl negb. cbv iota.
  cbn [working on_working contacts set_ab_test_campaigns
       ABTestCampaign.minimum_sample_size ABTestCampaign.traffic_split
       ABTestCampaign.set_started_at ABTestCampaign.set_status].
  destruct (Z.ltb_spec (Z.of_nat (length (List.filter (fun c => Contact.user_id c =? uid)
                                            (contacts (working db)))))
              (ABTestCampaign.minimum_sample_size campaign)) as [Hlt|_]; [lia|].
  unfold Py.int_of_float at 1. rewrite FloatAxioms.mul_spec, Hnan.
  destruct (Prim2SF (Py.of_int _)); simpl; eexists; split; reflexivity.
Qed.

(** The theorem on a 200-contact test whose split is NaN. *)
Lemma nan_split_fails_the_start_200 :
  exists db',
    start_ab_test (@rev Contact.t) (next_after_largest ABTestRecipient.id) 1 7 0
      (session_of (sample_tables 200 (sample_test DRAFT PrimFloat.nan 100 0.95 0 0 0 0)))
    = (Failure "cannot convert float NaN to integer", db')
    /\ stored db'
       = stored (session_of
                   (sample_tables 200 (sample_test DRAFT PrimFloat.nan 100 0.95 0 0 0 0))).
Proof.
  apply (nan_split_fails_the_start (@rev Contact.t) (next_after_largest ABTestRecipient.id) 1 7 0
           (session_of (sample_tables 200 (sample_test DRAFT PrimFloat.nan 100 0.95 0 0 0 0)))
           (sample_test DRAFT PrimFloat.nan 100 0.95 0 0 0 0)).
  - reflexivity.
  - reflexivity.
  - vm_compute. discriminate.
  - vm_compute. reflexivity.
Defined.

(** ** [analyze_ab_test]: what a successful analysis records *)

Section AnalysisRecords.

Variables erf asin : float -> float.
Variable aware_timestamps : Session -> ABTestCampaign.t -> bool.

Lemma analysis_of_inv (db : Session) (now : datetime)
    (campaign campaign' : ABTestCampaign.t)
    (result : ABTestResult.t) (analysis : Analysis) :
  analysis_of erf asin aware_timestamps db now campaign = Py.ret (result, campaign', analysis) ->
  exists zt w pct,
    z_test erf asin campaign = Py.ret zt
    /\ determine_winner (zt_is_significant zt) (zt_rate_a zt) (zt_rate_b zt)
       = Py.ret (w, pct)
    /\ campaign' = ABTestCampaign.set_winner_variant w
                     (ABTestCampaign.set_statistical_significance (zt_p_value zt) campaign)
    /\ analysis = mkAnalysis (zt_rate_a zt) (zt_rate_b zt) (zt_p_value zt)
                    (zt_is_significant zt) w pct (zt_effect_size zt)
                    (zt_ci_lower zt, zt_ci_upper zt)
    /\ ABTestResult.campaign_id result = ABTestCampaign.id campaign
    /\ ABTestResult.winner_variant result = w
    /\ ABTestResult.improvement_percentage result = pct
    /\ ABTestResult.p_value result = zt_p_value zt
    /\ ABTestResult.statistical_significance result = zt_p_value zt
    /\ ABTestResult.sample_size result
       = ABTestCampaign.variant_a_recipients campaign
         + ABTestCampaign.variant_b_recipients campaign.
Proof.
  unfold analysis_of. intros H.
  apply bind_inr in H. destruct H as (zt & Hzt & H).
  apply bind_inr in H. destruct H as ([w pct] & Hw & H).
  apply bind_inr in H. destruct H as (hours & _ & H).
  injection H as <- <- <-.
  exists zt, w, pct. repeat split; assumption.
Qed.

Lemma analyze_ab_test_success_inv (cid : Z) (now : datetime) (db db' : Session)
    (analysis : Analysis) :
  analyze_ab_test erf asin aware_timestamps cid now db = (Success analysis, db') ->
  exists campaign result campaign',
    test_by_id cid (working db) = Some campaign
    /\ analysis_of erf asin aware_timestamps db now campaign = Py.ret (result, campaign', analysis)
    /\ db' = commit (on_working (fun t =>
               set_ab_test_campaigns
                 (write_row ABTestCampaign.id campaign' (ab_test_campaigns t))
                 (set_ab_test_results (ab_test_results t ++ [result]) t)) db).
Proof.
  unfold analyze_ab_test, test_by_id.
  destruct (find _ _) as [campaign|] eqn:Hfind; [|discriminate].
  destruct (_ || _); [discriminate|].
  destruct (analysis_of erf asin aware_timestamps db now campaign)
    as [e|[[result campaign'] a]] eqn:Han;
    [discriminate|].
  intros [= <- <-]. exists campaign, result, campaign'.
  split; [reflexivity|]. split; [exact Han | reflexivity].
Qed.

(** X5.  An analysis that succeeds commits, appends exactly one result row,
    which carries the key of the test, the winner, the improvement and (in both
    of its significance columns) the p-value of the reply, and writes the
    winner and the p-value on the test row.  It leaves the status of the test,
    its completion time and its counters as they were, and touches no other
    table. *)
Theorem successful_analysis_records_one_result (cid : Z) (now : datetime)
    (db db' : Session) (analysis : Analysis) :
  analyze_ab_test erf asin aware_timestamps cid now db = (Success analysis, db') ->
  exists before after result,
    test_by_id cid (working db) = Some before
    /\ stored db' = working db'
    /\ ab_test_results (stored db') = ab_test_results (working db) ++ [result]
    /\ ABTestResult.campaign_id result = cid
    /\ ABTestResult.winner_variant result = winner analysis
    /\ ABTestResult.improvement_percentage result = improvement_percentage analysis
    /\ ABTestResult.p_value result = statistical_significance analysis
    /\ ABTestResult.statistical_significance result = statistical_significance analysis
    /\ ABTestResult.sample_size result
       = ABTestCampaign.variant_a_recipients before
         + ABTestCampaign.variant_b_recipients before
    /\ test_by_id cid (stored db') = Some after
    /\ ABTestCampaign.winner_variant after = winner analysis
    /\ ABTestCampaign.statistical_significance after = statistical_significance analysis
    /\ ABTestCampaign.status after = ABTestCampaign.status before
    /\ ABTestCampaign.completed_at after = ABTestCampaign.completed_at before
    /\ counters after = counters before
    /\ ab_test_variants (stored db') = ab_test_variants (working db)
    /\ ab_test_recipients (stored db') = ab_test_recipients (working db)
    /\ contacts (stored db') = contacts (working db)
    /\ messages (stored db') = messages (working db)
    /\ campaigns (stored db') = campaigns (working db).
Proof.
  intros Hrun.
  destruct (analyze_ab_test_success_inv cid now db db' analysis Hrun)
    as (campaign & result & campaign' & Hfind & Han & ->).
  destruct (analysis_of_inv db now campaign campaign' result analysis Han)
    as (zt & w & pct & _ & _ & -> & -> & Hcid & Hwin & Hpct & Hp & Hs & Hn).
  pose proof (find_key_eq _ _ _ _ Hfind) as Hkey.
  exists campaign,
    (ABTestCampaign.set_winner_variant w
       (ABTestCampaign.set_statistical_significance (zt_p_value zt) campaign)),
    result.
  split; [exact Hfind|]. split; [reflexivity|]. split; [reflexivity|].
  split; [rewrite Hcid; exact Hkey|].
  split; [exact Hwin|]. split; [exact Hpct|]. split; [exact Hp|]. split; [exact Hs|].
  split; [exact Hn|].
  split.
  { unfold test_by_id in *. cbn [stored commit on_working working ab_test_campaigns
                                  set_ab_test_campaigns set_ab_test_results].
    rewrite <- Hkey in *.
    apply (find_write_row ABTestCampaign.id
             (ABTestCampaign.set_winner_variant w
                (ABTestCampaign.set_statistical_significance (zt_p_value zt) campaign))
             _ campaign Hfind). }
  repeat split.
Qed.

(** X6.  The winner a successful analysis reports is justified by the rates
    and the significance flag it reports: "inconclusive" with improvement 0
    exactly when the test is not significant, "B" only when significant with
    the rate of A strictly below that of B and not zero, "A" symmetrically, and
    no winner at all only when significant with neither rate below the other.
    The rates are the quotients of opens by recipients and the flag compares
    the p-value with one minus the confidence level of the test. *)
Theorem reported_winner_is_justified (cid : Z) (now : datetime) (db db' : Session)
    (analysis : Analysis) :
  analyze_ab_test erf asin aware_timestamps cid now db = (Success analysis, db') ->
  exists campaign,
    test_by_id cid (working db) = Some campaign
    /\ ABTestCampaign.variant_a_recipients campaign <> 0
    /\ ABTestCampaign.variant_b_recipients campaign <> 0
    /\ variant_a_rate analysis
       = Py.int_quotient (ABTestCampaign.variant_a_opened campaign)
           (ABTestCampaign.variant_a_recipients campaign)
    /\ variant_b_rate analysis
       = Py.int_quotient (ABTestCampaign.variant_b_opened campaign)
           (ABTestCampaign.variant_b_recipients campaign)
    /\ is_significant analysis
       = PrimFloat.ltb (statistical_significance analysis)
           (1 - ABTestCampaign.confidence_level campaign)
    /\ (is_significant analysis = false <-> winner analysis = Some "inconclusive")
    /\ (is_significant analysis = false -> improvement_percentage analysis = 0%float)
    /\ (winner analysis = Some "B" ->
          is_significant analysis = true
          /\ PrimFloat.ltb (variant_a_rate analysis) (variant_b_rate analysis) = true
          /\ PrimFloat.eqb (variant_a_rate analysis) 0 = false)
    /\ (winner analysis = Some "A" ->
          is_significant analysis = true
          /\ PrimFloat.ltb (variant_b_rate analysis) (variant_a_rate analysis) = true
          /\ PrimFloat.eqb (variant_b_rate analysis) 0 = false)
    /\ (winner analysis = None ->
          is_significant analysis = true
          /\ PrimFloat.ltb (variant_a_rate analysis) (variant_b_rate analysis) = false
          /\ PrimFloat.ltb (variant_b_rate analysis) (variant_a_rate analysis) = false)
    /\ In (winner analysis) [Some "A"; Some "B"; Some "inconclusive"; None].
Proof.
  intros Hrun.
  destruct (analyze_ab_test_success_inv cid now db db' analysis Hrun)
    as (campaign & result & campaign' & Hfind & Han & _).
  destruct (analysis_of_inv db now campaign campaign' result analysis Han)
    as (zt & w & pct & Hzt & Hw & _ & -> & _).
  destruct (z_test_rates erf asin campaign zt Hzt) as (Hra & Hrb & Hsig).
  exists campaign. split; [exact Hfind|].
  assert (Hn : ABTestCampaign.variant_a_recipients campaign <> 0
               /\ ABTestCampaign.variant_b_recipients campaign <> 0).
  { unfold z_test in Hzt.
    apply bind_inr in Hzt. destruct Hzt as (ra & Hra' & Hzt).
    apply bind_inr in Hzt. destruct Hzt as (rb & Hrb' & _).
    unfold Py.int_truediv in Hra', Hrb'.
    split; intros H0; rewrite H0 in *; discriminate. }
  destruct Hn as [Hna Hnb].
  split; [exact Hna|]. split; [exact Hnb|].
  cbn [variant_a_rate variant_b_rate is_significant statistical_significance winner
       improvement_percentage].
  split; [exact Hra|]. split; [exact Hrb|]. split; [exact Hsig|].
  clear Hra Hrb Hsig Hzt Han Hrun Hfind.
  unfold determine_winner, Py.float_truediv in Hw.
  destruct (zt_is_significant zt).
  - destruct (PrimFloat.ltb (zt_rate_a zt) (zt_rate_b zt)) eqn:Hab.
    + destruct (PrimFloat.eqb (zt_rate_a zt) 0) eqn:Hz; [discriminate Hw|].
      injection Hw as <- <-.
      repeat split; try discriminate; try (intros [= ?]; fail);
        simpl; auto.
    + destruct (PrimFloat.ltb (zt_rate_b zt) (zt_rate_a zt)) eqn:Hba.
      * destruct (PrimFloat.eqb (zt_rate_b zt) 0) eqn:Hz; [discriminate Hw|].
        injection Hw as <- <-.
        repeat split; try discriminate; try (intros [= ?]; fail);
          simpl; auto.
      * injection Hw as <- <-.
        repeat split; try discriminate; try (intros [= ?]; fail);
          simpl; auto.
  - injection Hw as <- <-.
    repeat split; try discriminate; try (intros [= ?]; fail); simpl; auto.
Qed.


End AnalysisRecords.

(** The theorem on a test with 100 recipients per variant and no open. *)
Lemma successful_analysis_records_one_result_100 :
  let db := session_of (sample_tables 200 (sample_test RUNNING 0.5 100 0.95 100 100 0 0)) in
  let run := analyze_ab_test erf_points asin_points with_time_zone 1 0 db in
  exists before after result,
    test_by_id 1 (working db) = Some before
    /\ stored run.2 = working run.2
    /\ ab_test_results (stored run.2) = ab_test_results (working db) ++ [result]
    /\ ABTestResult.campaign_id result = 1
    /\ ABTestResult.winner_variant result = Some "inconclusive"
    /\ ABTestResult.improvement_percentage result = 0%float
    /\ ABTestResult.p_value result = 1%float
    /\ ABTestResult.statistical_significance result = 1%float
    /\ ABTestResult.sample_size result
       = ABTestCampaign.variant_a_recipients before
         + ABTestCampaign.variant_b_recipients before
    /\ test_by_id 1 (stored run.2) = Some after
    /\ ABTestCampaign.winner_variant after = Some "inconclusive"
    /\ ABTestCampaign.statistical_significance after = 1%float
    /\ ABTestCampaign.status after = ABTestCampaign.status before
    /\ ABTestCampaign.completed_at after = ABTestCampaign.completed_at before
    /\ counters after = counters before
    /\ ab_test_variants (stored run.2) = ab_test_variants (working db)
    /\ ab_test_recipients (stored run.2) = ab_test_recipients (working db)
    /\ contacts (stored run.2) = contacts (working db)
    /\ messages (stored run.2) = messages (working db)
    /\ campaigns (stored run.2) = campaigns (working db).
Proof.
  apply (successful_analysis_records_one_result erf_points asin_points with_time_zone 1 0
           (session_of (sample_tables 200 (sample_test RUNNING 0.5 100 0.95 100 100 0 0)))
           _ (mkAnalysis 0 0 1 false (Some "inconclusive") 0 0 (0, 0)%float)).
  vm_compute. reflexivity.
Defined.

(** The theorem on the same test. *)
Lemma reported_winner_is_justified_100 :
  let db := session_of (sample_tables 200 (sample_test RUNNING 0.5 100 0.95 100 100 0 0)) in
  let analysis := mkAnalysis 0 0 1 false (Some "inconclusive") 0 0 (0, 0)%float in
  exists campaign,
    test_by_id 1 (working db) = Some campaign
    /\ ABTestCampaign.variant_a_recipients campaign <> 0
    /\ ABTestCampaign.variant_b_recipients campaign <> 0
    /\ variant_a_rate analysis
       = Py.int_quotient (ABTestCampaign.variant_a_opened campaign)
           (ABTestCampaign.variant_a_recipients campaign)
    /\ variant_b_rate analysis
       = Py.int_quotient (ABTestCampaign.variant_b_opened campaign)
           (ABTestCampaign.variant_b_recipients campaign)
    /\ is_significant analysis
       = PrimFloat.ltb (statistical_significance analysis)
           (1 - ABTestCampaign.confidence_level campaign)
    /\ (is_significant analysis = false <-> winner analysis = Some "inconclusive")
    /\ (is_significant analysis = false -> improvement_percentage analysis = 0%float)
    /\ (winner analysis = Some "B" ->
          is_significant analysis = true
          /\ PrimFloat.ltb (variant_a_rate analysis) (variant_b_rate analysis) = true
          /\ PrimFloat.eqb (variant_a_rate analysis) 0 = false)
    /\ (winner analysis = Some "A" ->
          is_significant analysis = true
          /\ PrimFloat.ltb (variant_b_rate analysis) (variant_a_rate analysis) = true
          /\ PrimFloat.eqb (variant_b_rate analysis) 0 = false)
    /\ (winner analysis = None ->
          is_significant analysis = true
          /\ PrimFloat.ltb (variant_a_rate analysis) (variant_b_rate analysis) = false
          /\ PrimFloat.ltb (variant_b_rate analysis) (variant_a_rate analysis) = false)
    /\ In (winner analysis) [Some "A"; Some "B"; Some "inconclusive"; None].
Proof.
  apply (reported_winner_is_justified erf_points asin_points with_time_zone 1 0
           (session_of (sample_tables 200 (sample_test RUNNING 0.5 100 0.95 100 100 0 0)))
           (analyze_ab_test erf_points asin_points with_time_zone 1 0
              (session_of (sample_tables 200
                 (sample_test RUNNING 0.5 100 0.95 100 100 0 0)))).2
           (mkAnalysis 0 0 1 false (Some "inconclusive") 0 0 (0, 0)%float)).
  vm_compute. reflexivity.
Defined.
(** ** [update_ab_test_metrics]: what an update commits *)

Lemma find_other_key_write_row {A} (key : A -> Z) (k : Z) (r : A) (rows : list A) :
  key r <> k ->
  find (fun y => key y =? k) (write_row key r rows) = find (fun y => key y =? k) rows.
Proof.
  intros Hk. unfold write_row. induction rows as [|y rows IH]; simpl; [reflexivity|].
  destruct (Z.eqb_spec (key y) (key r)) as [E|E].
  - destruct (Z.eqb_spec (key r) k) as [|_]; [contradiction|].
    destruct (Z.eqb_spec (key y) k) as [E'|_]; [congruence | exact IH].
  - destruct (key y =? k); [reflexivity | exact IH].
Qed.

(** Among the rows written over those of key [k], a row of key [k] is the one
    written. *)
Lemma find_in_write_row_at {A} (key : A -> Z) (k : Z) (r : A) (rows : list A) (x : A) :
  find (fun y => key y =? k) (write_row_at key k r rows) = Some x -> x = r.
Proof.
  unfold write_row_at. induction rows as [|y rows IH]; simpl; [discriminate|].
  destruct (Z.eqb_spec (key y) k) as [E|E].
  - destruct (key r =? k); [intros [= <-]; reflexivity | exact IH].
  - destruct (Z.eqb_spec (key y) k); [contradiction | exact IH].
Qed.

Lemma lookup_write_row_at {A} (key : A -> Z) (k : Z) (r : A) (rows : list A)
    (i : nat) (x : A) :
  rows !! i = Some x ->
  write_row_at key k r rows !! i = Some (if key x =? k then r else x).
Proof.
  intros Hi. unfold write_row_at. rewrite list_lookup_fmap, Hi. reflexivity.
Qed.

Lemma refresh_conversion_rates_rates (c : ABTestCampaign.t) :
  let c' := refresh_conversion_rates c in
  (0 < ABTestCampaign.variant_a_recipients c' ->
   ABTestCampaign.variant_a_conversion_rate c'
   = Py.int_quotient (ABTestCampaign.variant_a_opened c')
       (ABTestCampaign.variant_a_recipients c'))
  /\ (0 < ABTestCampaign.variant_b_recipients c' ->
      ABTestCampaign.variant_b_conversion_rate c'
      = Py.int_quotient (ABTestCampaign.variant_b_opened c')
          (ABTestCampaign.variant_b_recipients c'))
  /\ (ABTestCampaign.variant_a_recipients c' <= 0 ->
      ABTestCampaign.variant_a_conversion_rate c'
      = ABTestCampaign.variant_a_conversion_rate c)
  /\ (ABTestCampaign.variant_b_recipients c' <= 0 ->
      ABTestCampaign.variant_b_conversion_rate c'
      = ABTestCampaign.variant_b_conversion_rate c)
  /\ exists rate_a rate_b,
       c' = ABTestCampaign.set_variant_b_conversion_rate rate_b
              (ABTestCampaign.set_variant_a_conversion_rate rate_a c).
Proof.
  cbv zeta. unfold refresh_conversion_rates.
  destruct (Z.ltb_spec 0 (ABTestCampaign.variant_a_recipients c)) as [Ha|Ha];
    cbn [ABTestCampaign.variant_b_recipients
         ABTestCampaign.set_variant_a_conversion_rate];
    destruct (Z.ltb_spec 0 (ABTestCampaign.variant_b_recipients c)) as [Hb|Hb];
    cbn; (split; [|split; [|split; [|split]]]);
    try (intros; try reflexivity; lia).
  - eexists _, _. reflexivity.
  - exists (Py.int_quotient (ABTestCampaign.variant_a_opened c)
              (ABTestCampaign.variant_a_recipients c)),
      (ABTestCampaign.variant_b_conversion_rate c).
    destruct c; reflexivity.
  - exists (ABTestCampaign.variant_a_conversion_rate c),
      (Py.int_quotient (ABTestCampaign.variant_b_opened c)
         (ABTestCampaign.variant_b_recipients c)).
    destruct c; reflexivity.
  - exists (ABTestCampaign.variant_a_conversion_rate c),
      (ABTestCampaign.variant_b_conversion_rate c).
    destruct c; reflexivity.
Qed.

(** X8.  A metric update that succeeds commits the row of the addressed test
    and nothing else.  The row is the one the loop of assignments leaves, but
    for the two conversion rates: the rate of a variant with recipients is the
    quotient of its opens by its recipients (both within the 53 bits a double
    holds exactly), and the rate of a variant without recipients is the one
    the loop leaves.  The row is stored where the test was, also when an
    assignment has changed its key; every other test row, and every other
    table, is as before. *)
Theorem metric_update_commits_one_test_row
    (refuses : Tables -> Tables -> option string)
    (setattr_other : string -> Z -> ABTestCampaign.t -> Py.Exc ABTestCampaign.t)
    (cid : Z) (metrics_data : list (string * Z)) (db db' : Session) :
  update_ab_test_metrics refuses setattr_other cid metrics_data db = (Success (), db') ->
  exists old assigned new rate_a rate_b,
    test_by_id cid (working db) = Some old
    /\ apply_metrics setattr_other metrics_data old = (None, assigned)
    /\ new = ABTestCampaign.set_variant_b_conversion_rate rate_b
               (ABTestCampaign.set_variant_a_conversion_rate rate_a assigned)
    /\ (0 < ABTestCampaign.variant_a_recipients new <= 2 ^ 53 ->
        Z.abs (ABTestCampaign.variant_a_opened new) <= 2 ^ 53 ->
        rate_a = Py.int_quotient (ABTestCampaign.variant_a_opened new)
                   (ABTestCampaign.variant_a_recipients new))
    /\ (ABTestCampaign.variant_a_recipients new <= 0 ->
        rate_a = ABTestCampaign.variant_a_conversion_rate assigned)
    /\ (0 < ABTestCampaign.variant_b_recipients new <= 2 ^ 53 ->
        Z.abs (ABTestCampaign.variant_b_opened new) <= 2 ^ 53 ->
        rate_b = Py.int_quotient (ABTestCampaign.variant_b_opened new)
                   (ABTestCampaign.variant_b_recipients new))
    /\ (ABTestCampaign.variant_b_recipients new <= 0 ->
        rate_b = ABTestCampaign.variant_b_conversion_rate assigned)
    /\ stored db' = working db'
    /\ length (ab_test_campaigns (stored db')) = length (ab_test_campaigns (working db))
    /\ (forall i row, ab_test_campaigns (working db) !! i = Some row ->
          ab_test_campaigns (stored db') !! i
          = Some (if ABTestCampaign.id row =? cid then new else row))
    /\ ab_test_variants (stored db') = ab_test_variants (working db)
    /\ ab_test_recipients (stored db') = ab_test_recipients (working db)
    /\ ab_test_results (stored db') = ab_test_results (working db)
    /\ contacts (stored db') = contacts (working db)
    /\ messages (stored db') = messages (working db)
    /\ campaigns (stored db') = campaigns (working db).
Proof.
  intros Hrun.
  destruct (update_ab_test_metrics_success_inv refuses setattr_other cid metrics_data
              db db' Hrun) as (old & assigned & Hfind & Hloop & ->).
  pose proof (find_key_eq _ _ _ _ Hfind) as Hkey. rewrite Hkey.
  destruct (refresh_conversion_rates_rates assigned)
    as (Ha & Hb & Ha0 & Hb0 & rate_a & rate_b & Hnew).
  exists old, assigned, (refresh_conversion_rates assigned), rate_a, rate_b.
  split; [exact Hfind|]. split; [exact Hloop|]. split; [exact Hnew|].
  assert (Hra : ABTestCampaign.variant_a_conversion_rate (refresh_conversion_rates assigned)
                = rate_a) by (rewrite Hnew; reflexivity).
  assert (Hrb : ABTestCampaign.variant_b_conversion_rate (refresh_conversion_rates assigned)
                = rate_b) by (rewrite Hnew; reflexivity).
  split; [intros [Hpos _] _; rewrite <- Hra; apply Ha, Hpos|].
  split; [intros Hle; rewrite <- Hra; apply Ha0, Hle|].
  split; [intros [Hpos _] _; rewrite <- Hrb; apply Hb, Hpos|].
  split; [intros Hle; rewrite <- Hrb; apply Hb0, Hle|].
  split; [reflexivity|].
  cbn [stored session_of ab_test_campaigns set_ab_test_campaigns ab_test_variants
       ab_test_recipients ab_test_results contacts messages campaigns].
  split; [unfold write_row_at; apply length_fmap|].
  split; [intros i row Hi; apply lookup_write_row_at, Hi|].
  repeat split.
Qed.

(** The theorem on a running test with 100 recipients for variant A: an
    update that records 8 opens, takes the recipients of variant B away and
    assigns a rate to variant A, over a database that takes it. *)
Lemma metric_update_commits_one_test_row_100 :
  let db := session_of (sample_tables 200 (sample_test RUNNING 0.5 100 0.95 100 100 5 0)) in
  let md := [("variant_a_opened", 8); ("variant_b_recipients", 0);
             ("variant_a_conversion_rate", 5)] in
  let db' := (update_ab_test_metrics accepts setattr_sample 1 md db).2 in
  exists old assigned new rate_a rate_b,
    test_by_id 1 (working db) = Some old
    /\ apply_metrics setattr_sample md old = (None, assigned)
    /\ new = ABTestCampaign.set_variant_b_conversion_rate rate_b
               (ABTestCampaign.set_variant_a_conversion_rate rate_a assigned)
    /\ (0 < ABTestCampaign.variant_a_recipients new <= 2 ^ 53 ->
        Z.abs (ABTestCampaign.variant_a_opened new) <= 2 ^ 53 ->
        rate_a = Py.int_quotient (ABTestCampaign.variant_a_opened new)
                   (ABTestCampaign.variant_a_recipients new))
    /\ (ABTestCampaign.variant_a_recipients new <= 0 ->
        rate_a = ABTestCampaign.variant_a_conversion_rate assigned)
    /\ (0 < ABTestCampaign.variant_b_recipients new <= 2 ^ 53 ->
        Z.abs (ABTestCampaign.variant_b_opened new) <= 2 ^ 53 ->
        rate_b = Py.int_quotient (ABTestCampaign.variant_b_opened new)
                   (ABTestCampaign.variant_b_recipients new))
    /\ (ABTestCampaign.variant_b_recipients new <= 0 ->
        rate_b = ABTestCampaign.variant_b_conversion_rate assigned)
    /\ stored db' = working db'
    /\ length (ab_test_campaigns (stored db')) = length (ab_test_campaigns (working db))
    /\ (forall i row, ab_test_campaigns (working db) !! i = Some row ->
          ab_test_campaigns (stored db') !! i
          = Some (if ABTestCampaign.id row =? 1 then new else row))
    /\ ab_test_variants (stored db') = ab_test_variants (working db)
    /\ ab_test_recipients (stored db') = ab_test_recipients (working db)
    /\ ab_test_results (stored db') = ab_test_results (working db)
    /\ contacts (stored db') = contacts (working db)
    /\ messages (stored db') = messages (working db)
    /\ campaigns (stored db') = campaigns (working db).
Proof.
  apply (metric_update_commits_one_test_row accepts setattr_sample 1
           [("variant_a_opened", 8); ("variant_b_recipients", 0);
            ("variant_a_conversion_rate", 5)]
           (session_of (sample_tables 200 (sample_test RUNNING 0.5 100 0.95 100 100 5 0)))).
  vm_compute. reflexivity.
Defined.

(** ** [create_ab_test] followed by [start_ab_test] *)

Lemma find_appended {A} (P : A -> bool) (rows : list A) (x : A) :
  (forall y, In y rows -> P y = false) -> P x = true -> find P (rows ++ [x]) = Some x.
Proof.
  intros Hold Hx. induction rows as [|y rows IH]; simpl.
  - rewrite Hx. reflexivity.
  - rewrite (Hold y (or_introl eq_refl)). apply IH. intros z Hz. apply Hold. right. exact Hz.
Qed.

Lemma find_exists {A} (P : A -> bool) (l : list A) (x : A) :
  In x l -> P x = true -> exists y, find P l = Some y.
Proof.
  intros Hin HP. destruct (find P l) as [y|] eqn:Hfind; [eauto|].
  rewrite (find_none _ _ Hfind x Hin) in HP. discriminate HP.
Qed.

Section CreateThenStart.

Variable shuffle : list Contact.t -> list Contact.t.
Variable next_test_id : list ABTestCampaign.t -> Z.
Variable next_variant_id : list ABTestVariant.t -> Z.
Variable next_recipient_id : list ABTestRecipient.t -> Z.
Variable refuses : Tables -> Tables -> option string.

Lemma created_variant_is_found (name : string) (id : Z) (test_data : TestData)
    (rows : list ABTestVariant.t) :
  In name (vd_variant_name <$> td_variants test_data) ->
  exists v,
    variant_named name
      (List.filter (fun v => ABTestVariant.campaign_id v =? id)
         (add_variants next_variant_id id (td_test_type test_data)
            (td_variants test_data) rows))
    = Some v.
Proof.
  intros Hname.
  destruct (add_variants_spec next_variant_id id (td_test_type test_data)
              (td_variants test_data) rows)
    as (new & -> & Hnames & Hall).
  rewrite <- Hnames in Hname. apply in_map_iff in Hname.
  destruct Hname as (v & Hv & Hin).
  rewrite Forall_forall in Hall.
  destruct (Hall v (proj2 (list_elem_of_In _ _) Hin)) as [Hcid _].
  unfold variant_named.
  apply (find_exists _ _ v).
  - apply filter_In. split; [apply in_or_app; right; exact Hin|].
    apply Z.eqb_eq, Hcid.
  - apply String.eqb_eq, Hv.
Qed.

(** X9.  A test that has been created, under a key no other test has, from a
    specification that names a variant "A" and a variant "B" can be started
    by its owner as soon as the owner has the minimum number of contacts and
    the split point is a number: the key [create_ab_test] returns is the one
    [start_ab_test] finds, in draft status, with its two variants. *)
Theorem created_test_can_be_started (user_id : Z) (test_data : TestData)
    (now : datetime) (db db1 : Session) (id k : Z) :
  let people :=
    List.filter (fun c => Contact.user_id c =? user_id) (contacts (working db)) in
  create_ab_test next_test_id next_variant_id refuses user_id test_data db
  = (Success id, db1) ->
  (forall test, In test (ab_test_campaigns (working db)) -> ABTestCampaign.id test <> id) ->
  In "A" (vd_variant_name <$> td_variants test_data) ->
  In "B" (vd_variant_name <$> td_variants test_data) ->
  default 100 (td_minimum_sample_size test_data) <= Z.of_nat (length people) ->
  Py.int_of_float (Py.of_int (Z.of_nat (length (shuffle people)))
                   * default 0.5%float (td_traffic_split test_data)) = Py.ret k ->
  exists db2,
    start_ab_test shuffle next_recipient_id id user_id now db1
    = (Success "A/B test started successfully", db2)
    /\ stored db2 = working db2.
Proof.
  intros people Hcreate Hfresh HA HB Hmin Hk.
  destruct (create_ab_test_success_inv next_test_id next_variant_id refuses user_id
              test_data db db1 id Hcreate) as (_ & _ & Htests & Hvariants & Hcontacts).
  destruct (created_variant_is_found "A" id test_data (ab_test_variants (working db)) HA)
    as (va & Hva).
  destruct (created_variant_is_found "B" id test_data (ab_test_variants (working db)) HB)
    as (vb & Hvb).
  rewrite <- Hvariants in Hva, Hvb.
  destruct (start_ab_test_success shuffle next_recipient_id id user_id now db1
              (new_campaign id user_id test_data) k va vb)
    as (db2 & Hstart & Hstored & _).
  - rewrite Htests. apply find_appended.
    + intros y Hy. specialize (Hfresh y Hy).
      destruct (Z.eqb_spec (ABTestCampaign.id y) id); [contradiction | reflexivity].
    + cbn [new_campaign ABTestCampaign.id ABTestCampaign.user_id].
      rewrite !Z.eqb_refl. reflexivity.
  - reflexivity.
  - rewrite Hcontacts. exact Hmin.
  - rewrite Hcontacts. exact Hk.
  - exact Hva.
  - exact Hvb.
  - exists db2. split; [exact Hstart | exact Hstored].
Qed.

End CreateThenStart.

(** The theorem on the 200 contacts of user 7 and a specification with the
    defaults of [create_ab_test], over a database that numbers its rows
    upwards and checks the range of its integer columns. *)
Lemma created_test_can_be_started_200 :
  let spec :=
    mkTestData "greeting" MESSAGE_CONTENT None None None
      [ mkVariantData "A" (Some "Hi") None None None;
        mkVariantData "B" (Some "Hello") None None None ] in
  let db1 :=
    (create_ab_test (next_after_largest ABTestCampaign.id)
       (next_after_largest ABTestVariant.id) int4_columns 7 spec
       (session_of (sample_tables 200 scenario_draft))).2 in
  exists db2,
    start_ab_test (@rev Contact.t) (next_after_largest ABTestRecipient.id) 2 7 0 db1
    = (Success "A/B test started successfully", db2)
    /\ stored db2 = working db2.
Proof.
  apply (created_test_can_be_started (@rev Contact.t)
           (next_after_largest ABTestCampaign.id) (next_after_largest ABTestVariant.id)
           (next_after_largest ABTestRecipient.id) int4_columns 7
           (mkTestData "greeting" MESSAGE_CONTENT None None None
              [ mkVariantData "A" (Some "Hi") None None None;
                mkVariantData "B" (Some "Hello") None None None ])
           0 (session_of (sample_tables 200 scenario_draft)) _ 2 100).
  - vm_compute. reflexivity.
  - intros test [<-|[]]. vm_compute. discriminate.
  - simpl. auto.
  - simpl. auto.
  - vm_compute. discriminate.
  - vm_compute. reflexivity.
Defined.

(** ** The senders: shape of the results *)

Lemma send_sms_well_formed (provider : SmsProvider) (w : World) (phone : string) :
  well_formed (send_sms provider w phone)
  /\ SendResult.phone (send_sms provider w phone) = None.
Proof.
  unfold send_sms, well_formed.
  destruct (validate_phone_number phone); simpl; [|repeat split; eauto].
  destruct provider; simpl.
  - unfold _send_via_twilio. destruct (twilio_post w) as [e|[code sid]]; simpl.
    + repeat split; eauto.
    + destruct (_ || _); simpl; repeat split; eauto.
  - repeat split; eauto.
  - repeat split; eauto.
  - unfold _send_mock. destruct (PrimFloat.ltb _ _); simpl; repeat split; eauto.
Qed.

Lemma outcome_well_formed (result : Py.Exc SendResult.t) (phone : string) :
  (forall r, result = inr r -> well_formed r) ->
  well_formed (outcome result phone).
Proof.
  intros H. destruct result as [e|r]; simpl.
  - unfold well_formed. simpl. repeat split; eauto.
  - specialize (H r eq_refl). unfold well_formed in *. simpl.
    destruct (SendResult.success r); exact H.
Qed.

(** X10.  Every result of the bulk sender is a well-formed dictionary tagged
    with the number it was sent to: a success has status "sent", no error, a
    cost and a provider; a failure has status "failed", an error text and
    neither identifier nor cost.  A message whose number fails the validation
    is answered "Invalid phone number format" whatever the provider and the
    world are: no provider call is made for it. *)
Theorem bulk_results_are_well_formed (provider : SmsProvider) (world : nat -> World)
    (messages : list OutMsg.t) :
  Forall well_formed (send_bulk_sms provider world messages)
  /\ (forall i msg, messages !! i = Some msg ->
        validate_phone_number (OutMsg.phone msg) = false ->
        send_bulk_sms provider world messages !! i
        = Some (SendResult.with_phone (OutMsg.phone msg)
                  (SendResult.failed "Invalid phone number format")))
  /\ (forall i r, send_bulk_sms provider world messages !! i = Some r ->
        SendResult.success r = true ->
        exists msg, messages !! i = Some msg
                    /\ validate_phone_number (OutMsg.phone msg) = true
                    /\ SendResult.phone r = Some (OutMsg.phone msg)).
Proof.
  unfold send_bulk_sms. rewrite gather_in_batches_imap.
  split; [|split].
  - apply Forall_lookup_2. intros i r Hi.
    rewrite list_lookup_imap in Hi.
    destruct (messages !! i) as [msg|]; [|discriminate Hi].
    injection Hi as <-.
    apply (outcome_well_formed
             (Py.ret (send_sms provider (world i) (OutMsg.phone msg)))).
    intros r [= <-]. apply send_sms_well_formed.
  - intros i msg Hi Hinvalid. rewrite list_lookup_imap, Hi. simpl.
    unfold send_sms. rewrite Hinvalid. reflexivity.
  - intros i r Hi Hok. rewrite list_lookup_imap in Hi.
    destruct (messages !! i) as [msg|]; [|discriminate Hi].
    injection Hi as <-. exists msg. split; [reflexivity|].
    simpl in *. split; [|reflexivity].
    unfold send_sms in Hok.
    destruct (validate_phone_number (OutMsg.phone msg)); [reflexivity|].
    discriminate Hok.
Qed.

(** ** [validate_phone_number] *)

Lemma digits_of_app (a b : string) :
  digits_of (a +:+ b) = digits_of a +:+ digits_of b.
Proof.
  induction a as [|c a IH]; [reflexivity|].
  simpl. destruct (is_digit c); simpl; rewrite IH; reflexivity.
Qed.

Lemma digits_of_idempotent (s : string) : digits_of (digits_of s) = digits_of s.
Proof.
  induction s as [|c s IH]; [reflexivity|].
  simpl. destruct (is_digit c) eqn:Hc; [|exact IH].
  simpl. rewrite Hc, IH. reflexivity.
Qed.

(** X11.  The validation reads the digits of a number and nothing else: a
    character that is not a digit can be inserted anywhere without changing the
    verdict, cleaning a number twice is cleaning it once, and an accepted
    number has between 10 and 15 digits. *)
Theorem phone_validation_reads_digits_only (a b : string) (c : Ascii.ascii) :
  (is_digit c = false ->
   validate_phone_number (a +:+ String c b) = validate_phone_number (a +:+ b))
  /\ validate_phone_number (digits_of a) = validate_phone_number a
  /\ (validate_phone_number a = true ->
      (10 <= String.length (digits_of a) <= 15)%nat).
Proof.
  split; [|split].
  - intros Hc. unfold validate_phone_number.
    rewrite !digits_of_app. simpl. rewrite Hc. reflexivity.
  - unfold validate_phone_number. rewrite digits_of_idempotent. reflexivity.
  - unfold validate_phone_number.
    destruct (Nat.ltb_spec (String.length (digits_of a)) 10) as [|H10]; [discriminate|].
    destruct (Nat.ltb_spec 15 (String.length (digits_of a))) as [|H15]; [discriminate|].
    intros _. lia.
Qed.

(** ** [calculate_sms_count] *)

(** X12.  The number of parts charged for a message never decreases with its
    length, is 1 up to 160 characters, and above that is one more than the
    number of full 153-character parts: the parts always hold the message, and
    a message whose length is a multiple of 153 is charged one part more than
    it fills. *)
Theorem sms_count_is_monotone_and_sufficient (m1 m2 : string) :
  let n1 := Z.of_nat (String.length m1) in
  let n2 := Z.of_nat (String.length m2) in
  (n1 <= n2 -> calculate_sms_count m1 <= calculate_sms_count m2)
  /\ 1 <= calculate_sms_count m1
  /\ (160 < n1 ->
      153 * (calculate_sms_count m1 - 1) <= n1 < 153 * calculate_sms_count m1)
  /\ (160 < n1 -> n1 mod 153 = 0 -> 153 * calculate_sms_count m1 = n1 + 153).
Proof.
  cbv zeta. unfold calculate_sms_count.
  set (n1 := Z.of_nat (String.length m1)). set (n2 := Z.of_nat (String.length m2)).
  assert (H1 : 0 <= n1) by apply Nat2Z.is_nonneg.
  pose proof (Z.div_mod n1 153 ltac:(lia)) as Hd1.
  pose proof (Z.mod_pos_bound n1 153 ltac:(lia)) as Hm1.
  pose proof (Z.div_mod n2 153 ltac:(lia)) as Hd2.
  pose proof (Z.mod_pos_bound n2 153 ltac:(lia)) as Hm2.
  destruct (Z.leb_spec n1 160), (Z.leb_spec n2 160); repeat split; try lia;
    intros Hle; pose proof (Z.div_le_mono n1 n2 153 ltac:(lia) Hle); lia.
Qed.

(** ** The webhooks *)

(** X13.  Neither webhook of the repository ever writes a row.  Both resolve
    [Message.provider_message_id], which the mapped class does not declare: a
    callback that carries an identifier and a status is answered with an error
    and every other one is rejected for its missing fields, so for every body
    and every database the session after the call is the session before it and
    no call reports success. *)
Theorem webhooks_never_write (now : datetime) (data : gmap string string) (db : Session) :
  (handle_twilio_webhook now data db).2 = db
  /\ (handle_twilio_webhook now data db).1 = "error"
  /\ (handle_delivery_report now data db).2 = db
  /\ (handle_delivery_report now data db).1 <> Success "Status updated"
  /\ Message.class_attribute Message.getattr "provider_message_id"
     = Py.raise (Py.AttributeError
                   "type object 'Message' has no attribute 'provider_message_id'").
Proof.
  destruct (handle_delivery_report_changes_nothing now data db) as [Hdb [error Herr]].
  unfold handle_twilio_webhook, handle_twilio_webhook_over.
  split; [destruct (_ || _); reflexivity|].
  split; [destruct (_ || _); reflexivity|].
  split; [exact Hdb|].
  split; [rewrite Herr; discriminate | reflexivity].
Qed.

Section TwilioReconciliation.

Variable class : Message.class.
Variable column : Message.t -> Message.value.
Hypothesis class_has_column : class "provider_message_id" = Some column.

(** X14.  Over a [Message] class that has the attribute, a Twilio callback
    for a stored message commits the mapped status on that row and keeps what
    the generic handler clears: the delivery time is set for a sent message and
    kept otherwise, the error text is set for a failed message (to "Delivery
    failed" when the form has none) and kept otherwise.  Unlike the generic
    handler it never touches a campaign row, whatever the callback: the
    counters and the status of every campaign are as before. *)
Theorem twilio_callback_updates_message_only (now : datetime)
    (data : gmap string string) (db : Session) :
  let reply := handle_twilio_webhook_over class now data db in
  campaigns (working reply.2) = campaigns (working db)
  /\ ab_test_campaigns (working reply.2) = ab_test_campaigns (working db)
  /\ Message.id <$> messages (working reply.2) = Message.id <$> messages (working db)
  /\ forall sid word m,
       data !! "MessageSid" = Some sid -> sid <> "" ->
       data !! "MessageStatus" = Some word -> word <> "" ->
       find (fun m => bool_decide (column m = Message.Text sid)) (messages (working db))
         = Some m ->
       let st := default MSG_PENDING (status_mapping (Py.lower word)) in
       exists m',
         reply.1 = "success"
         /\ stored reply.2 = working reply.2
         /\ find (fun r => Message.id r =? Message.id m) (messages (stored reply.2))
            = Some m'
         /\ Message.status m' = st
         /\ Message.delivered_at m'
            = (if bool_decide (st = MSG_SENT) then Some now else Message.delivered_at m)
         /\ Message.error_message m'
            = (if bool_decide (st = MSG_FAILED)
               then Some (default "Delivery failed" (data !! "ErrorMessage"))
               else Message.error_message m)
         /\ Message.campaign_id m' = Message.campaign_id m
         /\ Message.message_id m' = Message.message_id m.
Proof.
  cbv zeta.
  assert (Hframe :
    campaigns (working (handle_twilio_webhook_over class now data db).2)
      = campaigns (working db)
    /\ ab_test_campaigns (working (handle_twilio_webhook_over class now data db).2)
       = ab_test_campaigns (working db)
    /\ Message.id <$> messages (working (handle_twilio_webhook_over class now data db).2)
       = Message.id <$> messages (working db)).
  { unfold handle_twilio_webhook_over, Message.class_attribute.
    rewrite class_has_column.
    unfold Py.ret.
    destruct (_ || _); cbv beta iota zeta; [repeat split|].
    destruct (find _ _) as [m|]; cbv beta iota zeta; [|repeat split].
    set (m' := if bool_decide _ then _ else _).
    assert (Hid : Message.id m' = Message.id m).
    { unfold m'. destruct (bool_decide _); [reflexivity|].
      destruct (bool_decide _); reflexivity. }
    clearbody m'.
    cbn [snd working commit on_working campaigns ab_test_campaigns messages
         set_messages].
    split; [reflexivity|]. split; [reflexivity|].
    unfold write_row. rewrite <- list_fmap_compose.
    apply list_fmap_ext. intros i x _. simpl.
    destruct (Z.eqb_spec (Message.id x) (Message.id m')); congruence. }
  destruct Hframe as (H1 & H2 & H3).
  split; [exact H1|]. split; [exact H2|]. split; [exact H3|].
  intros sid word m Hsid Hsid' Hword Hword' Hfind.
  destruct sid as [|s0 sid]; [contradiction|].
  destruct word as [|w0 word]; [contradiction|].
  pose proof (find_some _ _ Hfind) as [Hin _].
  destruct (find_exists (fun r => Message.id r =? Message.id m) _ m Hin (Z.eqb_refl _))
    as (y & Hy).
  unfold handle_twilio_webhook_over, Message.class_attribute.
  rewrite Hsid, Hword, class_has_column. unfold Py.ret.
  cbn [truthy negb orb default from_option id]. cbv beta iota zeta. rewrite Hfind.
  set (st := default MSG_PENDING (status_mapping (Py.lower (String w0 word)))).
  set (m' := if bool_decide (st = MSG_SENT) then _ else _).
  assert (Hm' : Message.id m' = Message.id m
                /\ Message.status m' = st
                /\ Message.delivered_at m'
                   = (if bool_decide (st = MSG_SENT) then Some now
                      else Message.delivered_at m)
                /\ Message.error_message m'
                   = (if bool_decide (st = MSG_FAILED)
                      then Some (default "Delivery failed" (data !! "ErrorMessage"))
                      else Message.error_message m)
                /\ Message.campaign_id m' = Message.campaign_id m
                /\ Message.message_id m' = Message.message_id m).
  { unfold m'. destruct st; cbn; repeat split. }
  destruct Hm' as (Hid & Hst & Hd & He & Hc & Hp).
  exists m'. split; [reflexivity|]. split; [reflexivity|].
  split.
  { cbn [snd stored commit on_working working messages set_messages].
    rewrite <- Hid in *. apply (find_write_row Message.id m' _ y Hy). }
  repeat split; assumption.
Qed.

End TwilioReconciliation.

(** The theorem over the class with the attribute, on the callback for SM1. *)
Lemma twilio_callback_updates_message_only_SM1 :
  let db := session_of (sending_tables MSG_PENDING) in
  let reply :=
    handle_twilio_webhook_over Message.with_provider_message_id 0 twilio_delivered db in
  campaigns (working reply.2) = campaigns (working db)
  /\ ab_test_campaigns (working reply.2) = ab_test_campaigns (working db)
  /\ Message.id <$> messages (working reply.2) = Message.id <$> messages (working db)
  /\ forall sid word m,
       twilio_delivered !! "MessageSid" = Some sid -> sid <> "" ->
       twilio_delivered !! "MessageStatus" = Some word -> word <> "" ->
       find (fun m => bool_decide (Message.of_option Message.Text (Message.message_id m)
                                   = Message.Text sid)) (messages (working db))
         = Some m ->
       let st := default MSG_PENDING (status_mapping (Py.lower word)) in
       exists m',
         reply.1 = "success"
         /\ stored reply.2 = working reply.2
         /\ find (fun r => Message.id r =? Message.id m) (messages (stored reply.2))
            = Some m'
         /\ Message.status m' = st
         /\ Message.delivered_at m'
            = (if bool_decide (st = MSG_SENT) then Some 0 else Message.delivered_at m)
         /\ Message.error_message m'
            = (if bool_decide (st = MSG_FAILED)
               then Some (default "Delivery failed" (twilio_delivered !! "ErrorMessage"))
               else Message.error_message m)
         /\ Message.campaign_id m' = Message.campaign_id m
         /\ Message.message_id m' = Message.message_id m.
Proof.
  apply (twilio_callback_updates_message_only Message.with_provider_message_id
           (fun r => Message.of_option Message.Text (Message.message_id r)) eq_refl
           0 twilio_delivered (session_of (sending_tables MSG_PENDING))).
Defined.

Section GenericReconciliation.

Variable class : Message.class.
Variable column : Message.t -> Message.value.
Hypothesis class_has_column : class "provider_message_id" = Some column.

(** X15.  Over a [Message] class that has the attribute, a generic callback
    for a stored message commits on that row the status its word maps to, a
    delivery time exactly when that status is "sent" and the error text of the
    body exactly when it is "failed".  A word the mapping does not know resets
    the row to "pending" and clears both.  When the message belongs to a stored
    campaign, the committed counters of that campaign are the numbers of its
    message rows in status "sent" and "failed" after the write. *)
Theorem delivery_report_commits_mapped_status (now : datetime)
    (data : gmap string string) (db : Session) (key word : string) (m : Message.t) :
  py_or (py_or (data !! "message_id") (data !! "sid")) (data !! "id") = Some key ->
  key <> "" ->
  py_or (data !! "status") (data !! "delivery_status") = Some word ->
  word <> "" ->
  find (fun m => bool_decide (column m = Message.Text key)) (messages (working db))
    = Some m ->
  let reply := handle_delivery_report_over class now data db in
  let st := default MSG_PENDING (status_mapping (Py.lower word)) in
  exists m',
    reply.1 = Success "Status updated"
    /\ stored reply.2 = working reply.2
    /\ find (fun r => Message.id r =? Message.id m) (messages (stored reply.2)) = Some m'
    /\ Message.status m' = st
    /\ Message.delivered_at m' = (if bool_decide (st = MSG_SENT) then Some now else None)
    /\ Message.error_message m'
       = (if bool_decide (st = MSG_FAILED) then data !! "error_message" else None)
    /\ (status_mapping (Py.lower word) = None ->
        Message.status m' = MSG_PENDING /\ Message.delivered_at m' = None
        /\ Message.error_message m' = None)
    /\ forall cid c,
         Message.campaign_id m = Some cid ->
         find (fun c => Campaign.id c =? cid) (campaigns (working db)) = Some c ->
         exists c',
           find (fun c => Campaign.id c =? cid) (campaigns (stored reply.2)) = Some c'
           /\ Campaign.delivered_count c'
              = count_in_status cid MSG_SENT (messages (stored reply.2))
           /\ Campaign.failed_count c'
              = count_in_status cid MSG_FAILED (messages (stored reply.2)).
Proof.
  intros Hkey Hkey' Hword Hword' Hfind. cbv zeta.
  destruct key as [|k0 key]; [contradiction|].
  destruct word as [|w0 word]; [contradiction|].
  rewrite (handle_delivery_report_found class column class_has_column now data db
             (String k0 key) m).
  2:{ rewrite Hkey. reflexivity. }
  2:{ rewrite Hword. reflexivity. }
  2:{ rewrite Hkey. reflexivity. }
  2:{ exact Hfind. }
  set (m' := reconciled now data m).
  set (db1 := commit _).
  set (st := default MSG_PENDING (status_mapping (Py.lower (String w0 word)))).
  assert (Hm' : m' = Message.set_delivery st
                       (if bool_decide (st = MSG_SENT) then Some now else None)
                       (if bool_decide (st = MSG_FAILED) then data !! "error_message"
                        else None) m).
  { unfold m', reconciled. rewrite Hword. reflexivity. }
  pose proof (find_some _ _ Hfind) as [Hin _].
  destruct (find_exists (fun r => Message.id r =? Message.id m) _ m Hin (Z.eqb_refl _))
    as (y & Hy).
  assert (Hrows : messages (working db1) = write_row Message.id m' (messages (working db)))
    by reflexivity.
  assert (Hstat : stored (update_campaign_statistics now m' db1)
                  = working (update_campaign_statistics now m' db1)
                  /\ messages (stored (update_campaign_statistics now m' db1))
                     = messages (working db1)).
  { unfold update_campaign_statistics.
    destruct (Message.campaign_id m') as [cid|]; [|split; reflexivity].
    destruct (find (fun c => Campaign.id c =? cid) _); split; reflexivity. }
  destruct Hstat as [Hstored Hmsgs].
  exists m'. cbn [fst snd].
  split; [reflexivity|]. split; [exact Hstored|].
  split.
  { rewrite Hmsgs, Hrows.
    change (Message.id m) with (Message.id m') in *.
    apply (find_write_row Message.id m' _ y Hy). }
  split; [rewrite Hm'; reflexivity|].
  split; [rewrite Hm'; reflexivity|].
  split; [rewrite Hm'; reflexivity|].
  split.
  { intros Hnone. rewrite Hm'. unfold st. rewrite Hnone. repeat split. }
  intros cid c Hcid Hc.
  rewrite Hmsgs.
  unfold update_campaign_statistics.
  change (Message.campaign_id m') with (Message.campaign_id m). rewrite Hcid.
  change (campaigns (working db1)) with (campaigns (working db)). rewrite Hc.
  destruct (recalculate_counts now (messages (working db1)) c) as (Hid & Hd & Hf).
  pose proof (find_key_eq _ _ _ _ Hc) as Hk.
  exists (recalculate now (messages (working db1)) c).
  split; [|rewrite <- Hk; split; assumption].
  cbn [stored commit on_working working campaigns set_campaigns].
  change (campaigns (working db1)) with (campaigns (working db)).
  rewrite <- Hk, <- Hid in *.
  apply (find_write_row Campaign.id _ _ c Hc).
Qed.

End GenericReconciliation.

(** The theorem over the class with the attribute, on a callback whose status
    word is unknown, for a message already counted as sent. *)
Lemma delivery_report_commits_mapped_status_read :
  let db := session_of (sending_tables MSG_SENT) in
  let reply :=
    handle_delivery_report_over Message.with_provider_message_id 20 read_callback db in
  let st := default MSG_PENDING (status_mapping (Py.lower "read")) in
  exists m',
    reply.1 = Success "Status updated"
    /\ stored reply.2 = working reply.2
    /\ find (fun r => Message.id r =? Message.id (sample_message MSG_SENT))
            (messages (stored reply.2)) = Some m'
    /\ Message.status m' = st
    /\ Message.delivered_at m' = (if bool_decide (st = MSG_SENT) then Some 20 else None)
    /\ Message.error_message m'
       = (if bool_decide (st = MSG_FAILED) then read_callback !! "error_message" else None)
    /\ (status_mapping (Py.lower "read") = None ->
        Message.status m' = MSG_PENDING /\ Message.delivered_at m' = None
        /\ Message.error_message m' = None)
    /\ forall cid c,
         Message.campaign_id (sample_message MSG_SENT) = Some cid ->
         find (fun c => Campaign.id c =? cid) (campaigns (working db)) = Some c ->
         exists c',
           find (fun c => Campaign.id c =? cid) (campaigns (stored reply.2)) = Some c'
           /\ Campaign.delivered_count c'
              = count_in_status cid MSG_SENT (messages (stored reply.2))
           /\ Campaign.failed_count c'
              = count_in_status cid MSG_FAILED (messages (stored reply.2)).
Proof.
  apply (delivery_report_commits_mapped_status Message.with_provider_message_id
           (fun r => Message.of_option Message.Text (Message.message_id r)) eq_refl
           20 read_callback (session_of (sending_tables MSG_SENT)) "SM1" "read"
           (sample_message MSG_SENT)).
  - vm_compute. reflexivity.
  - discriminate.
  - vm_compute. reflexivity.
  - discriminate.
  - vm_compute. reflexivity.
Defined.

(** ** Campaign status under callbacks *)

Lemma recalculate_keeps_sent (now : datetime) (rows : list Message.t) (c : Campaign.t) :
  Campaign.status c = CAMPAIGN_SENT ->
  Campaign.status (recalculate now rows c) = CAMPAIGN_SENT.
Proof.
  intros H. unfold recalculate. destruct (_ <=? _); [reflexivity | exact H].
Qed.

(** X16.  No callback takes a campaign out of status "sent": whatever the
    [Message] class, the body and the database, a campaign that is sent before
    the generic handler runs is sent afterwards, also when the callback has
    just reset one of its messages to "pending". *)
Theorem sent_campaign_stays_sent (class : Message.class) (now : datetime)
    (data : gmap string string) (db : Session) (k : Z) (c : Campaign.t) :
  find (fun c => Campaign.id c =? k) (campaigns (working db)) = Some c ->
  Campaign.status c = CAMPAIGN_SENT ->
  exists c',
    find (fun c => Campaign.id c =? k)
         (campaigns (working (handle_delivery_report_over class now data db).2)) = Some c'
    /\ Campaign.status c' = CAMPAIGN_SENT.
Proof.
  intros Hc Hsent. unfold handle_delivery_report_over.
  destruct (_ || _); cbv beta iota zeta; [eauto|].
  destruct (Message.class_attribute class "provider_message_id") as [e|col];
    cbv beta iota zeta; [eauto|].
  destruct (find _ (messages (working db))) as [m|]; cbv beta iota zeta; [|eauto].
  set (m' := Message.set_delivery _ _ _ m).
  set (db1 := commit _).
  cbn [snd]. unfold update_campaign_statistics.
  change (campaigns (working db1)) with (campaigns (working db)).
  destruct (Message.campaign_id m') as [cid|]; [|exists c; split; assumption].
  destruct (find (fun c => Campaign.id c =? cid) (campaigns (working db)))
    as [c0|] eqn:Hc0; [|exists c; split; assumption].
  cbn [working commit on_working campaigns set_campaigns].
  change (campaigns (working db1)) with (campaigns (working db)).
  destruct (recalculate_counts now (messages (working db1)) c0) as (Hid & _).
  pose proof (find_key_eq _ _ _ _ Hc0) as Hk0.
  destruct (Z.eq_dec cid k) as [->|Hne].
  - rewrite Hc in Hc0. injection Hc0 as <-.
    exists (recalculate now (messages (working db1)) c). split.
    + rewrite <- Hk0, <- Hid in *. apply (find_write_row Campaign.id _ _ c Hc).
    + apply recalculate_keeps_sent, Hsent.
  - exists c. split; [|exact Hsent].
    rewrite find_other_key_write_row; [exact Hc|]. rewrite Hid, Hk0. exact Hne.
Qed.

(** The theorem on a sent campaign whose message the callback resets. *)
Lemma sent_campaign_stays_sent_after_reset :
  exists c',
    find (fun c => Campaign.id c =? 1)
         (campaigns (working (handle_delivery_report_over Message.with_provider_message_id
                                20 read_callback (session_of sent_tables)).2)) = Some c'
    /\ Campaign.status c' = CAMPAIGN_SENT.
Proof.
  apply (sent_campaign_stays_sent Message.with_provider_message_id 20 read_callback
           (session_of sent_tables) 1 (Campaign.mk 1 7 CAMPAIGN_SENT (Some 10) 1 1 0)).
  - reflexivity.
  - reflexivity.
Defined.

(** ** The routes *)

Section RouteProperties.

Variables erf asin : float -> float.
Variable aware_timestamps : Session -> ABTestCampaign.t -> bool.
Variable shuffle : list Contact.t -> list Contact.t.
Variable next_test_id : list ABTestCampaign.t -> Z.
Variable next_variant_id : list ABTestVariant.t -> Z.
Variable next_recipient_id : list ABTestRecipient.t -> Z.
Variable refuses : Tables -> Tables -> option string.
Variable str_http : HTTPException.t -> string.

Lemma except_Exception_500 {A} (prefix : string) (result : reply A) :
  match except_Exception str_http prefix (success_or_400 result) with
  | inr a => result = Success a
  | inl e =>
      HTTPException.status_code e = 500
      /\ exists error,
           result = Failure error
           /\ HTTPException.detail e
              = prefix +:+ str_http (HTTPException.mk 400 error)
  end.
Proof. destruct result as [a|error]; simpl; eauto. Qed.

(** X17.  No failure of the service reaches the client as a 400: the
    [HTTPException] the routes raise for a failed result is raised inside their
    own [try] and caught by its [except Exception], so the create, start and
    analyze routes either return the success of the service or raise status
    500, with the 400 exception rendered into the detail; the session is the
    one the service leaves. *)
Theorem routes_answer_success_or_500 (campaign_id current_user_id : Z) (now : datetime)
    (db : Session) (campaign_data : TestData) :
  match (start_ab_test_campaign shuffle next_recipient_id str_http
           campaign_id current_user_id now db).1 with
  | inr message =>
      (start_ab_test shuffle next_recipient_id campaign_id current_user_id now db).1
      = Success message
  | inl e =>
      HTTPException.status_code e = 500
      /\ exists error,
           (start_ab_test shuffle next_recipient_id campaign_id current_user_id now db).1
           = Failure error
           /\ HTTPException.detail e
              = "Error starting A/B test: " +:+ str_http (HTTPException.mk 400 error)
  end
  /\ (start_ab_test_campaign shuffle next_recipient_id str_http
        campaign_id current_user_id now db).2
     = (start_ab_test shuffle next_recipient_id campaign_id current_user_id now db).2
  /\ match (analyze_ab_test_campaign erf asin aware_timestamps str_http campaign_id current_user_id
              now db).1 with
     | inr analysis =>
         (analyze_ab_test erf asin aware_timestamps campaign_id now db).1 = Success analysis
     | inl e =>
         HTTPException.status_code e = 500
         /\ exists error,
              (analyze_ab_test erf asin aware_timestamps campaign_id now db).1 = Failure error
              /\ HTTPException.detail e
                 = "Error analyzing A/B test: " +:+ str_http (HTTPException.mk 400 error)
     end
  /\ (analyze_ab_test_campaign erf asin aware_timestamps str_http
        campaign_id current_user_id now db).2
     = (analyze_ab_test erf asin aware_timestamps campaign_id now db).2
  /\ match (create_ab_test_campaign next_test_id next_variant_id refuses str_http
              campaign_data current_user_id db).1 with
     | inr id =>
         (create_ab_test next_test_id next_variant_id refuses
            current_user_id campaign_data db).1 = Success id
     | inl e =>
         HTTPException.status_code e = 500
         /\ exists error,
              (create_ab_test next_test_id next_variant_id refuses
                 current_user_id campaign_data db).1 = Failure error
              /\ HTTPException.detail e
                 = "Error creating A/B test: " +:+ str_http (HTTPException.mk 400 error)
     end
  /\ (create_ab_test_campaign next_test_id next_variant_id refuses str_http
        campaign_data current_user_id db).2
     = (create_ab_test next_test_id next_variant_id refuses
          current_user_id campaign_data db).2.
Proof.
  unfold start_ab_test_campaign, analyze_ab_test_campaign, create_ab_test_campaign.
  destruct (start_ab_test shuffle next_recipient_id campaign_id current_user_id now db)
    as [r1 db1].
  destruct (analyze_ab_test erf asin aware_timestamps campaign_id now db) as [r2 db2].
  destruct (create_ab_test next_test_id next_variant_id refuses
              current_user_id campaign_data db) as [r3 db3].
  cbn [fst snd].
  split; [apply except_Exception_500|]. split; [reflexivity|].
  split; [apply except_Exception_500|]. split; [reflexivity|].
  split; [apply except_Exception_500 | reflexivity].
Qed.

(** X18.  The start route checks the owner of the test and the analyze route
    does not.  For a user who owns no test with the given key, the start route
    raises (status 500, from "Campaign not found") and leaves the session as it
    was, while the analyze route returns to that user whatever analysis the
    service computes for the key, and commits its result row and the winner on
    the test of another user. *)
Theorem analysis_is_open_to_every_user (campaign_id current_user_id : Z)
    (now : datetime) (db db' : Session) (analysis : Analysis) :
  find (fun c => (ABTestCampaign.id c =? campaign_id)
                 && (ABTestCampaign.user_id c =? current_user_id))
       (ab_test_campaigns (working db)) = None ->
  analyze_ab_test erf asin aware_timestamps campaign_id now db = (Success analysis, db') ->
  start_ab_test_campaign shuffle next_recipient_id str_http campaign_id current_user_id now db
  = (inl (HTTPException.mk 500
            ("Error starting A/B test: "
             +:+ str_http (HTTPException.mk 400 "Campaign not found"))), db)
  /\ analyze_ab_test_campaign erf asin aware_timestamps str_http campaign_id current_user_id now db
     = (inr analysis, db')
  /\ exists test after,
       test_by_id campaign_id (working db) = Some test
       /\ ABTestCampaign.user_id test <> current_user_id
       /\ length (ab_test_results (stored db'))
          = S (length (ab_test_results (working db)))
       /\ test_by_id campaign_id (stored db') = Some after
       /\ ABTestCampaign.winner_variant after = winner analysis.
Proof.
  intros Hnone Hrun.
  split.
  { unfold start_ab_test_campaign, start_ab_test. rewrite Hnone. reflexivity. }
  split.
  { unfold analyze_ab_test_campaign. rewrite Hrun. reflexivity. }
  destruct (analyze_ab_test_success_inv erf asin aware_timestamps campaign_id now db db'
              analysis Hrun)
    as (test & result & test' & Hb & Han & ->).
  destruct (analysis_of_inv erf asin aware_timestamps db now test test' result analysis Han)
    as (zt & w & pct & _ & _ & -> & -> & _).
  pose proof (find_key_eq _ _ _ _ Hb) as Hkey.
  exists test,
    (ABTestCampaign.set_winner_variant w
       (ABTestCampaign.set_statistical_significance (zt_p_value zt) test)).
  split; [exact Hb|].
  split.
  { intros Huser. unfold test_by_id in Hb.
    pose proof (find_some _ _ Hb) as [Hin Hid].
    pose proof (find_none _ _ Hnone test Hin) as Hfalse. simpl in Hfalse.
    rewrite Hid, Huser, Z.eqb_refl in Hfalse. discriminate Hfalse. }
  split.
  { cbn [stored commit on_working working ab_test_results set_ab_test_campaigns
         set_ab_test_results].
    rewrite length_app. simpl. lia. }
  split; [|reflexivity].
  unfold test_by_id in *.
  cbn [stored commit on_working working ab_test_campaigns set_ab_test_campaigns
       set_ab_test_results].
  rewrite <- Hkey in *.
  apply (find_write_row ABTestCampaign.id
           (ABTestCampaign.set_winner_variant w
              (ABTestCampaign.set_statistical_significance (zt_p_value zt) test))
           _ test Hb).
Qed.

End RouteProperties.

(** The theorem for user 8 on the test of user 7, 100 recipients per variant
    and no open. *)
Lemma analysis_is_open_to_every_user_8 :
  let db := session_of (sample_tables 200 (sample_test RUNNING 0.5 100 0.95 100 100 0 0)) in
  let analysis := mkAnalysis 0 0 1 false (Some "inconclusive") 0 0 (0, 0)%float in
  let db' := (analyze_ab_test erf_points asin_points with_time_zone 1 0 db).2 in
  start_ab_test_campaign (@rev Contact.t) (next_after_largest ABTestRecipient.id)
    str_status_and_detail 1 8 0 db
  = (inl (HTTPException.mk 500
            ("Error starting A/B test: "
             +:+ str_status_and_detail (HTTPException.mk 400 "Campaign not found"))), db)
  /\ analyze_ab_test_campaign erf_points asin_points with_time_zone str_status_and_detail 1 8 0 db
     = (inr analysis, db')
  /\ exists test after,
       test_by_id 1 (working db) = Some test
       /\ ABTestCampaign.user_id test <> 8
       /\ length (ab_test_results (stored db'))
          = S (length (ab_test_results (working db)))
       /\ test_by_id 1 (stored db') = Some after
       /\ ABTestCampaign.winner_variant after = winner analysis.
Proof.
  apply (analysis_is_open_to_every_user erf_points asin_points with_time_zone
           (@rev Contact.t) (next_after_largest ABTestRecipient.id)
           str_status_and_detail 1 8 0
           (session_of (sample_tables 200 (sample_test RUNNING 0.5 100 0.95 100 100 0 0)))).
  - reflexivity.
  - vm_compute. reflexivity.
Defined.

(** ** Deleting a test *)

Lemma find_filter_other_key {A} (key : A -> Z) (k other : Z) (rows : list A) :
  other <> k ->
  find (fun y => key y =? other) (List.filter (fun y => negb (key y =? k)) rows)
  = find (fun y => key y =? other) rows.
Proof.
  intros Hne. induction rows as [|y rows IH]; [reflexivity|]. simpl.
  destruct (Z.eqb_spec (key y) k) as [E|E]; simpl.
  - destruct (Z.eqb_spec (key y) other); [congruence | exact IH].
  - destruct (key y =? other); [reflexivity | exact IH].
Qed.

Lemma filter_filter_other_key {A} (key : A -> Z) (k other : Z) (rows : list A) :
  other <> k ->
  List.filter (fun y => key y =? other) (List.filter (fun y => negb (key y =? k)) rows)
  = List.filter (fun y => key y =? other) rows.
Proof.
  intros Hne. induction rows as [|y rows IH]; [reflexivity|]. simpl.
  destruct (Z.eqb_spec (key y) k) as [E|E]; simpl.
  - destruct (Z.eqb_spec (key y) other); [congruence | exact IH].
  - destruct (key y =? other); [f_equal|]; exact IH.
Qed.

Lemma filter_removes_key {A} (key : A -> Z) (k : Z) (rows : list A) :
  Forall (fun y => key y <> k) (List.filter (fun y => negb (key y =? k)) rows).
Proof.
  apply Forall_forall. intros y Hy. apply list_elem_of_In, filter_In in Hy.
  destruct Hy as [_ Hy]. destruct (Z.eqb_spec (key y) k); [discriminate Hy | assumption].
Qed.

Lemma find_removed_key {A} (key : A -> Z) (P : A -> bool) (k : Z) (rows : list A) :
  (forall y, P y = true -> key y = k) ->
  find P (List.filter (fun y => negb (key y =? k)) rows) = None.
Proof.
  intros HP. induction rows as [|y rows IH]; [reflexivity|]. simpl.
  destruct (Z.eqb_spec (key y) k) as [E|E]; simpl; [exact IH|].
  destruct (P y) eqn:Hy; [|exact IH]. destruct (E (HP y Hy)).
Qed.

(** X19.  A delete by the owner commits the removal of the test and of every
    row that refers to it: no recipient, result or variant row with its key is
    left, the rows of every other test are kept, in their order, and contacts,
    messages and campaigns are untouched.  Afterwards the key is unknown to
    every service call and to the route itself: start, analysis and metric
    update answer "Campaign not found" and a second delete raises 404, none of
    them changing the database. *)
Theorem deleted_test_is_gone (campaign_id current_user_id : Z) (db db' : Session)
    (message : string) :
  delete_ab_test_campaign campaign_id current_user_id db = (inr message, db') ->
  stored db' = working db'
  /\ test_by_id campaign_id (stored db') = None
  /\ Forall (fun r => ABTestRecipient.campaign_id r <> campaign_id)
       (ab_test_recipients (stored db'))
  /\ Forall (fun r => ABTestResult.campaign_id r <> campaign_id)
       (ab_test_results (stored db'))
  /\ Forall (fun v => ABTestVariant.campaign_id v <> campaign_id)
       (ab_test_variants (stored db'))
  /\ (forall other, other <> campaign_id ->
        test_by_id other (stored db') = test_by_id other (working db)
        /\ List.filter (fun r => ABTestRecipient.campaign_id r =? other)
             (ab_test_recipients (stored db'))
           = List.filter (fun r => ABTestRecipient.campaign_id r =? other)
               (ab_test_recipients (working db))
        /\ List.filter (fun r => ABTestResult.campaign_id r =? other)
             (ab_test_results (stored db'))
           = List.filter (fun r => ABTestResult.campaign_id r =? other)
               (ab_test_results (working db))
        /\ List.filter (fun v => ABTestVariant.campaign_id v =? other)
             (ab_test_variants (stored db'))
           = List.filter (fun v => ABTestVariant.campaign_id v =? other)
               (ab_test_variants (working db)))
  /\ contacts (stored db') = contacts (working db)
  /\ messages (stored db') = messages (working db)
  /\ campaigns (stored db') = campaigns (working db)
  /\ (forall shuffle next_recipient_id user_id now,
        start_ab_test shuffle next_recipient_id campaign_id user_id now db'
        = (Failure "Campaign not found", db'))
  /\ (forall erf asin aware_timestamps now,
        analyze_ab_test erf asin aware_timestamps campaign_id now db'
        = (Failure "Campaign not found", db'))
  /\ (forall refuses setattr_other metrics_data,
        update_ab_test_metrics refuses setattr_other campaign_id metrics_data db'
        = (Failure "Campaign not found", db'))
  /\ (forall user_id,
        delete_ab_test_campaign campaign_id user_id db'
        = (inl (HTTPException.mk 404 "A/B test campaign not found"), db')).
Proof.
  unfold delete_ab_test_campaign.
  destruct (find _ (ab_test_campaigns (working db))) as [campaign|] eqn:Hfind;
    [|discriminate].
  intros [= _ <-].
  assert (Hid : ABTestCampaign.id campaign = campaign_id).
  { apply find_some in Hfind. destruct Hfind as [_ H].
    apply andb_prop in H. apply Z.eqb_eq, H. }
  rewrite Hid.
  cbn [stored working commit on_working ab_test_campaigns ab_test_recipients
       ab_test_results ab_test_variants contacts messages campaigns
       set_ab_test_campaigns set_ab_test_recipients set_ab_test_results
       set_ab_test_variants].
  assert (Hgone : forall P : ABTestCampaign.t -> bool,
            (forall y, P y = true -> ABTestCampaign.id y = campaign_id) ->
            find P (List.filter (fun c => negb (ABTestCampaign.id c =? campaign_id))
                      (ab_test_campaigns (working db))) = None)
    by (intros P HP; apply find_removed_key, HP).
  split; [reflexivity|].
  split; [apply Hgone; intros y Hy; apply Z.eqb_eq, Hy|].
  split; [apply (filter_removes_key ABTestRecipient.campaign_id)|].
  split; [apply (filter_removes_key ABTestResult.campaign_id)|].
  split; [apply (filter_removes_key ABTestVariant.campaign_id)|].
  split.
  { intros other Hother. unfold test_by_id.
    cbn [ab_test_campaigns].
    split; [apply find_filter_other_key, Hother|].
    split; [apply (filter_filter_other_key ABTestRecipient.campaign_id), Hother|].
    split; [apply (filter_filter_other_key ABTestResult.campaign_id), Hother|].
    apply (filter_filter_other_key ABTestVariant.campaign_id), Hother. }
  split; [reflexivity|]. split; [reflexivity|]. split; [reflexivity|].
  split.
  { intros shuffle next_recipient_id user_id now. unfold start_ab_test.
    cbn [working commit on_working ab_test_campaigns set_ab_test_campaigns].
    rewrite Hgone; [reflexivity|].
    intros y Hy. apply andb_prop in Hy. apply Z.eqb_eq, Hy. }
  split.
  { intros erf asin aware_timestamps now. unfold analyze_ab_test.
    cbn [working commit on_working ab_test_campaigns set_ab_test_campaigns].
    rewrite Hgone; [reflexivity|]. intros y Hy. apply Z.eqb_eq, Hy. }
  split.
  { intros refuses setattr_other metrics_data. unfold update_ab_test_metrics.
    cbn [working commit on_working ab_test_campaigns set_ab_test_campaigns].
    rewrite Hgone; [reflexivity|]. intros y Hy. apply Z.eqb_eq, Hy. }
  intros user_id.
  cbn [working commit on_working ab_test_campaigns set_ab_test_campaigns].
  rewrite Hgone; [reflexivity|].
  intros y Hy. apply andb_prop in Hy. apply Z.eqb_eq, Hy.
Qed.

(** The theorem on the started test of the 200-contact scenario. *)
Lemma deleted_test_is_gone_200 :
  let db' := (delete_ab_test_campaign 1 7 started_session).2 in
  stored db' = working db'
  /\ test_by_id 1 (stored db') = None
  /\ Forall (fun r => ABTestRecipient.campaign_id r <> 1) (ab_test_recipients (stored db'))
  /\ Forall (fun r => ABTestResult.campaign_id r <> 1) (ab_test_results (stored db'))
  /\ Forall (fun v => ABTestVariant.campaign_id v <> 1) (ab_test_variants (stored db'))
  /\ (forall other, other <> 1 ->
        test_by_id other (stored db') = test_by_id other (working started_session)
        /\ List.filter (fun r => ABTestRecipient.campaign_id r =? other)
             (ab_test_recipients (stored db'))
           = List.filter (fun r => ABTestRecipient.campaign_id r =? other)
               (ab_test_recipients (working started_session))
        /\ List.filter (fun r => ABTestResult.campaign_id r =? other)
             (ab_test_results (stored db'))
           = List.filter (fun r => ABTestResult.campaign_id r =? other)
               (ab_test_results (working started_session))
        /\ List.filter (fun v => ABTestVariant.campaign_id v =? other)
             (ab_test_variants (stored db'))
           = List.filter (fun v => ABTestVariant.campaign_id v =? other)
               (ab_test_variants (working started_session)))
  /\ contacts (stored db') = contacts (working started_session)
  /\ messages (stored db') = messages (working started_session)
  /\ campaigns (stored db') = campaigns (working started_session)
  /\ (forall shuffle next_recipient_id user_id now,
        start_ab_test shuffle next_recipient_id 1 user_id now db'
        = (Failure "Campaign not found", db'))
  /\ (forall erf asin aware_timestamps now,
        analyze_ab_test erf asin aware_timestamps 1 now db' = (Failure "Campaign not found", db'))
  /\ (forall refuses setattr_other metrics_data,
        update_ab_test_metrics refuses setattr_other 1 metrics_data db'
        = (Failure "Campaign not found", db'))
  /\ (forall user_id,
        delete_ab_test_campaign 1 user_id db'
        = (inl (HTTPException.mk 404 "A/B test campaign not found"), db')).
Proof.
  apply (deleted_test_is_gone 1 7 started_session _
           "A/B test campaign deleted successfully").
  vm_compute. reflexivity.
Defined.

(** ** [process_campaign_messages] and its task *)

Section CampaignProcessing.

Variable world : nat -> World.
Variable clock : nat -> datetime.
Variable first_message_with_id : string -> list Message.t -> task_exn + option Message.t.

(** The result loop never commits and never writes a campaign row. *)
Lemma record_results_keeps_stored (results : list SendResult.t) :
  forall i db d f,
    let out := record_results clock first_message_with_id i (db, d, f) results in
    stored out.2.1.1 = stored db
    /\ campaigns (working out.2.1.1) = campaigns (working db).
Proof.
  induction results as [|r results IH]; intros i db d f; [split; reflexivity|].
  cbn [record_results]. unfold record_result.
  destruct (result_message_id r) as [e|key]; [split; reflexivity|].
  destruct (first_message_with_id key (messages (working db))) as [e|[message|]];
    [split; reflexivity| |apply IH].
  destruct (SendResult.success r).
  - destruct (IH (S i) (on_working (fun t =>
                 set_messages (write_row Message.id (message_sent (clock i) message)
                                 (messages t)) t) db) (d + 1) f) as [H1 H2].
    split; [exact H1 | exact H2].
  - destruct (IH (S i) (on_working (fun t =>
                 set_messages
                   (write_row Message.id
                      (message_failed (default "Unknown error" (SendResult.error r))
                         message) (messages t)) t) db) d (f + 1)) as [H1 H2].
    split; [exact H1 | exact H2].
Qed.

(** A result without the key ends the loop with an exception, at its position
    or before. *)
Lemma record_results_raises (results : list SendResult.t) (r : SendResult.t) :
  In r results -> SendResult.message_id r = None ->
  forall i state, exists e,
    (record_results clock first_message_with_id i state results).1 = Some e.
Proof.
  intros Hin Hnone. induction results as [|x results IH]; [contradiction|].
  intros i [[db d] f]. cbn [record_results]. unfold record_result.
  destruct Hin as [->|Hin].
  - unfold result_message_id. rewrite Hnone. eauto.
  - destruct (result_message_id x) as [e|key]; [eauto|].
    destruct (first_message_with_id key (messages (working db))) as [e|[message|]];
      [eauto| |apply IH, Hin].
    destruct (SendResult.success x); apply IH, Hin.
Qed.

Lemma bulk_result_of_invalid_number (data : list OutMsg.t) (msg : OutMsg.t) :
  In msg data -> validate_phone_number (OutMsg.phone msg) = false ->
  exists r, In r (send_bulk_sms MOCK world data) /\ SendResult.message_id r = None.
Proof.
  intros Hin Hbad. apply list_elem_of_In, list_elem_of_lookup in Hin.
  destruct Hin as [i Hi].
  exists (SendResult.with_phone (OutMsg.phone msg)
            (SendResult.failed "Invalid phone number format")).
  split; [|reflexivity].
  apply list_elem_of_In, list_elem_of_lookup. exists i.
  unfold send_bulk_sms. rewrite gather_in_batches_imap, list_lookup_imap, Hi. simpl.
  unfold send_sms. rewrite Hbad. reflexivity.
Qed.

(** X20.  One pending message to a number that fails the validation stops
    the processing of its campaign for good.  Whatever the provider and the
    database answer, the run raises in the result loop, after the campaign has
    been committed in status "sending" and before anything else is committed:
    the task leaves the campaign "sending" with the new send time, every
    message row as it was, the offending message still pending, so that every
    later run raises again. *)
Theorem invalid_number_leaves_campaign_sending (campaign_id : Z) (now : datetime)
    (database : Tables) (c : Campaign.t) (m : Message.t) :
  find (fun c => Campaign.id c =? campaign_id) (campaigns database) = Some c ->
  In m (pending_messages campaign_id (messages database)) ->
  validate_phone_number (Message.recipient m) = false ->
  exists e database' c',
    send_campaign_task world clock first_message_with_id campaign_id now database
    = (Some e, database')
    /\ messages database' = messages database
    /\ find (fun c => Campaign.id c =? campaign_id) (campaigns database') = Some c'
    /\ Campaign.status c' = CAMPAIGN_SENDING
    /\ Campaign.sent_at c' = Some now
    /\ Campaign.delivered_count c' = Campaign.delivered_count c
    /\ Campaign.failed_count c' = Campaign.failed_count c
    /\ forall now', exists e' database'',
         send_campaign_task world clock first_message_with_id campaign_id now' database'
         = (Some e', database'').
Proof.
  assert (Hrun : forall now database c,
    find (fun c => Campaign.id c =? campaign_id) (campaigns database) = Some c ->
    In m (pending_messages campaign_id (messages database)) ->
    validate_phone_number (Message.recipient m) = false ->
    exists e,
      send_campaign_task world clock first_message_with_id campaign_id now database
      = (Some e,
         set_campaigns (write_row Campaign.id (campaign_sending now c)
                          (campaigns database)) database)).
  { clear. intros now database c Hc Hm Hbad.
    unfold send_campaign_task, process_campaign_messages.
    cbn [working session_of]. rewrite Hc.
    set (db1 := commit _).
    change (messages (working db1)) with (messages database).
    destruct (pending_messages campaign_id (messages database)) as [|p pending]
      eqn:Hpending; [contradiction|].
    rewrite <- Hpending in *. clear Hpending p pending.
    set (data := _ <$> pending_messages campaign_id (messages database)).
    assert (Hin : In (OutMsg.mk (Message.recipient m) (Message.content m) None) data).
    { unfold data. apply list_elem_of_In, list_elem_of_fmap. exists m.
      split; [reflexivity | apply list_elem_of_In, Hm]. }
    destruct (bulk_result_of_invalid_number data _ Hin Hbad) as (r & Hr & Hnone).
    destruct (record_results_raises _ r Hr Hnone 0 (db1, 0, 0)) as (e & He).
    pose proof (record_results_keeps_stored (send_bulk_sms MOCK world data) 0 db1 0 0)
      as [Hstored _]. cbv zeta in Hstored.
    destruct (record_results clock first_message_with_id 0 (db1, 0, 0)
                (send_bulk_sms MOCK world data)) as [o [[db2 d] f]].
    cbn [fst snd] in *. subst o. exists e.
    rewrite Hstored. reflexivity. }
  intros Hc Hm Hbad.
  destruct (Hrun now database c Hc Hm Hbad) as (e & He).
  pose proof (find_key_eq _ _ _ _ Hc) as Hk.
  assert (Hc' : find (fun c => Campaign.id c =? campaign_id)
                  (write_row Campaign.id (campaign_sending now c) (campaigns database))
                = Some (campaign_sending now c)).
  { rewrite <- Hk in Hc |- *.
    apply (find_write_row Campaign.id (campaign_sending now c) _ c Hc). }
  exists e. eexists. exists (campaign_sending now c).
  split; [exact He|].
  split; [reflexivity|]. split; [exact Hc'|].
  split; [reflexivity|]. split; [reflexivity|]. split; [reflexivity|].
  split; [reflexivity|].
  intros now'.
  destruct (Hrun now' (set_campaigns
                         (write_row Campaign.id (campaign_sending now c)
                            (campaigns database)) database)
              (campaign_sending now c) Hc' Hm Hbad) as (e' & He').
  eauto.
Qed.

End CampaignProcessing.

(** The theorem on a campaign whose second message goes to "12345", over a
    database that finds no row for a text key. *)
Lemma invalid_number_leaves_campaign_sending_12345 :
  exists e database' c',
    send_campaign_task mock_accepts (fun _ => 0) no_row_for_text 1 100 two_pending
    = (Some e, database')
    /\ messages database' = messages two_pending
    /\ find (fun c => Campaign.id c =? 1) (campaigns database') = Some c'
    /\ Campaign.status c' = CAMPAIGN_SENDING
    /\ Campaign.sent_at c' = Some 100
    /\ Campaign.delivered_count c'
       = Campaign.delivered_count (Campaign.mk 1 7 CAMPAIGN_DRAFT None 2 0 0)
    /\ Campaign.failed_count c'
       = Campaign.failed_count (Campaign.mk 1 7 CAMPAIGN_DRAFT None 2 0 0)
    /\ forall now', exists e' database'',
         send_campaign_task mock_accepts (fun _ => 0) no_row_for_text 1 now' database'
         = (Some e', database'').
Proof.
  apply (invalid_number_leaves_campaign_sending mock_accepts (fun _ => 0) no_row_for_text
           1 100 two_pending (Campaign.mk 1 7 CAMPAIGN_DRAFT None 2 0 0)
           (Message.mk 2 (Some 1) (Some 2) "12345" "Hello" MSG_PENDING None None None
              None "false" 5)).
  - reflexivity.
  - simpl. right. left. reflexivity.
  - reflexivity.
Defined.

Section TextKeys.

Variable world : nat -> World.
Variable clock : nat -> datetime.
Variable first_message_with_id : string -> list Message.t -> task_exn + option Message.t.

(** The identifier of a provider is not the key of a row: the query by it
    finds nothing, or is refused by the database. *)
Hypothesis text_finds_no_row :
  forall v rows,
    first_message_with_id v rows = inr None
    \/ exists msg, first_message_with_id v rows = inl (DatabaseError msg).

Lemma record_results_changes_nothing (results : list SendResult.t) :
  forall i state,
    (record_results clock first_message_with_id i state results).2 = state.
Proof.
  induction results as [|r results IH]; intros i [[db d] f]; [reflexivity|].
  cbn [record_results]. unfold record_result.
  destruct (result_message_id r) as [e|key]; [reflexivity|].
  destruct (text_finds_no_row key (messages (working db))) as [->|[msg ->]];
    [apply IH | reflexivity].
Qed.

(** X21.  The result loop looks a message up by the identifier the provider
    returned, a text, in the INTEGER key of the table.  On a database where
    such a query finds no row or is refused, the task never writes a message
    row: every message row is as before, hence still pending if it was, though
    it may have been sent.  The campaign is left "sending" when the run raised
    and "sent" when it returned, in which case both of its counts are zero
    whenever there was something to send. *)
Theorem send_campaign_task_writes_no_message (campaign_id : Z) (now : datetime)
    (database : Tables) :
  let out :=
    send_campaign_task world clock first_message_with_id campaign_id now database in
  messages out.2 = messages database
  /\ forall c,
       find (fun c => Campaign.id c =? campaign_id) (campaigns database) = Some c ->
       exists c',
         find (fun c => Campaign.id c =? campaign_id) (campaigns out.2) = Some c'
         /\ match out.1 with
            | Some _ => Campaign.status c' = CAMPAIGN_SENDING
            | None =>
                Campaign.status c' = CAMPAIGN_SENT
                /\ (pending_messages campaign_id (messages database) <> [] ->
                    Campaign.delivered_count c' = 0 /\ Campaign.failed_count c' = 0)
            end.
Proof.
  cbv zeta. unfold send_campaign_task, process_campaign_messages.
  cbn [working session_of].
  destruct (find _ (campaigns database)) as [c|] eqn:Hc;
    [|split; [reflexivity | intros c [=]]].
  set (db1 := commit _).
  change (messages (working db1)) with (messages database).
  pose proof (find_key_eq _ _ _ _ Hc) as Hk.
  assert (Hfound : forall c' rows,
            Campaign.id c' = Campaign.id c ->
            find (fun c => Campaign.id c =? campaign_id) rows = Some c ->
            find (fun c => Campaign.id c =? campaign_id) (write_row Campaign.id c' rows)
            = Some c').
  { intros c' rows Hid Hrows. rewrite <- Hk, <- Hid in *.
    apply (find_write_row Campaign.id c' _ c Hrows). }
  assert (Hc1 : find (fun c => Campaign.id c =? campaign_id) (campaigns (working db1))
                = Some (campaign_sending now c)).
  { apply (Hfound (campaign_sending now c) _ eq_refl Hc). }
  assert (Hfound1 : forall c',
            Campaign.id c' = Campaign.id c ->
            find (fun c => Campaign.id c =? campaign_id)
                 (write_row Campaign.id c' (campaigns (working db1))) = Some c').
  { intros c' Hid. rewrite <- Hk, <- Hid in *.
    apply (find_write_row Campaign.id c' _ (campaign_sending now c) Hc1). }
  destruct (pending_messages campaign_id (messages database)) as [|p pending]
    eqn:Hpending.
  { cbn [fst snd stored commit on_working working messages campaigns set_campaigns].
    split; [reflexivity|]. intros c0 [= <-].
    exists (campaign_sent (campaign_sending now c)).
    split; [apply Hfound1; reflexivity|]. split; [reflexivity|].
    intros H. destruct (H eq_refl). }
  set (results := send_bulk_sms MOCK world _).
  pose proof (record_results_changes_nothing results 0 (db1, 0, 0)) as Hsame.
  destruct (record_results clock first_message_with_id 0 (db1, 0, 0) results)
    as [o [[db2 d] f]].
  cbn [snd] in Hsame. injection Hsame as -> -> ->.
  destruct o as [e|].
  - cbn [fst snd stored commit on_working working messages campaigns set_campaigns db1].
    split; [reflexivity|]. intros c0 [= <-].
    exists (campaign_sending now c). split; [exact Hc1 | reflexivity].
  - cbn [fst snd stored commit on_working working messages campaigns set_campaigns].
    split; [reflexivity|]. intros c0 [= <-].
    exists (Campaign.set_counts 0 0 (campaign_sent (campaign_sending now c))).
    split; [apply Hfound1; reflexivity|]. split; [reflexivity|].
    intros _. split; reflexivity.
Qed.

End TextKeys.

(** The theorem over a database that finds no row for a text key, on a
    campaign with one pending message that the provider accepts. *)
Lemma send_campaign_task_writes_no_message_accepted :
  let out := send_campaign_task mock_accepts (fun _ => 0) no_row_for_text 1 100
               one_pending in
  messages out.2 = messages one_pending
  /\ forall c,
       find (fun c => Campaign.id c =? 1) (campaigns one_pending) = Some c ->
       exists c',
         find (fun c => Campaign.id c =? 1) (campaigns out.2) = Some c'
         /\ match out.1 with
            | Some _ => Campaign.status c' = CAMPAIGN_SENDING
            | None =>
                Campaign.status c' = CAMPAIGN_SENT
                /\ (pending_messages 1 (messages one_pending) <> [] ->
                    Campaign.delivered_count c' = 0 /\ Campaign.failed_count c' = 0)
            end.
Proof.
  apply (send_campaign_task_writes_no_message mock_accepts (fun _ => 0) no_row_for_text
           (fun v rows => or_introl eq_refl) 1 100 one_pending).
Defined.

(** ** [check_delivery_status_task] *)

Lemma check_messages_without_attribute (class : Message.class)
    (mock_status : nat -> string) (clock : nat -> datetime) (rows : list Message.t) :
  class "vendor_message_id" = None ->
  forall i db, check_messages class mock_status clock i db rows = db.
Proof.
  intros Hnone. induction rows as [|m rows IH]; intros i db; [reflexivity|].
  cbn [check_messages]. unfold check_message. rewrite Hnone. apply IH.
Qed.

(** X22.  The periodic status check of the repository changes nothing.  It
    asks each recently sent message for [vendor_message_id], an attribute the
    mapped class does not declare, so no status is ever requested: for every
    database, every draw of the mock status and every time, the database after
    the task is the database before it, and no message becomes "delivered".
    Over a class that has the attribute, the message SM1, sent ten seconds
    before, is marked "delivered" when the mock status says so. *)
Theorem status_check_changes_nothing (mock_status : nat -> string)
    (clock : nat -> datetime) (now : datetime) (database : Tables) :
  check_delivery_status_task mock_status clock now database = database
  /\ Message.getattr "vendor_message_id" = None
  /\ Message.status
       <$> messages (check_delivery_status_task_over with_vendor_message_id
                       (fun _ => "delivered") (fun _ => 20) 20 (sending_tables MSG_SENT))
     = [MSG_DELIVERED].
Proof.
  split; [|split; [reflexivity | vm_compute; reflexivity]].
  unfold check_delivery_status_task, check_delivery_status_task_over.
  rewrite check_messages_without_attribute by reflexivity.
  destruct database; reflexivity.
Qed.

(** ** Analysing again, and after a metric update *)

Section Reanalysis.

Variables erf asin : float -> float.
Variable aware_timestamps : Session -> ABTestCampaign.t -> bool.

(** X23.  The analysis reads the counters, the confidence level and the
    timestamps of the test and nothing it writes.  Analysing a test again, at
    any later time, over a database that hands the start time back as it did
    the first time, returns the same analysis as the first time and appends a
    second result row beside the first.  The one other outcome is that of a
    started, uncompleted test whose start time now comes back with a time
    zone: the duration raises and the second analysis fails, storing
    nothing. *)
Theorem reanalysis_reports_the_same (cid : Z) (now now' : datetime)
    (db db1 : Session) (analysis : Analysis) :
  analyze_ab_test erf asin aware_timestamps cid now db = (Success analysis, db1) ->
  exists before after,
    test_by_id cid (working db) = Some before
    /\ test_by_id cid (working db1) = Some after
    /\ (aware_timestamps db1 after = aware_timestamps db before ->
        exists db2 first second,
          analyze_ab_test erf asin aware_timestamps cid now' db1 = (Success analysis, db2)
          /\ ab_test_results (stored db2) = ab_test_results (working db) ++ [first; second]
          /\ ABTestResult.winner_variant first = ABTestResult.winner_variant second
          /\ ABTestResult.p_value first = ABTestResult.p_value second
          /\ ABTestResult.confidence_interval first
             = ABTestResult.confidence_interval second)
    /\ (start_time_is_aware aware_timestamps db1 after = true ->
        analyze_ab_test erf asin aware_timestamps cid now' db1
        = (Failure Py.naive_minus_aware, db1)).
Proof.
  intros Hrun.
  destruct (analyze_ab_test_success_inv erf asin aware_timestamps cid now db db1
              analysis Hrun)
    as (campaign & result & campaign' & Hfind & Han & ->).
  destruct (analysis_of_inv erf asin aware_timestamps db now campaign campaign' result
              analysis Han)
    as (zt & w & pct & Hzt & Hw & -> & -> & _ & Hwin & _ & Hp & _).
  set (campaign' := ABTestCampaign.set_winner_variant w
                      (ABTestCampaign.set_statistical_significance (zt_p_value zt)
                         campaign)) in *.
  set (db1 := commit _).
  pose proof (find_key_eq _ _ _ _ Hfind) as Hkey.
  assert (Hfind1 : test_by_id cid (working db1) = Some campaign').
  { unfold test_by_id in *.
    cbn [db1 stored commit on_working working ab_test_campaigns set_ab_test_campaigns
         set_ab_test_results].
    rewrite <- Hkey in *.
    apply (find_write_row ABTestCampaign.id campaign' _ campaign Hfind). }
  assert (Hzt' : z_test erf asin campaign' = Py.ret zt) by exact Hzt.
  pose proof (analyze_ab_test_reports erf asin aware_timestamps cid now' db1 campaign' zt
                w pct Hfind1 Hzt' Hw) as Hsecond.
  assert (Hfirst : start_time_is_aware aware_timestamps db campaign = false).
  { pose proof (analyze_ab_test_reports erf asin aware_timestamps cid now db campaign zt
                  w pct Hfind Hzt Hw) as H.
    destruct (start_time_is_aware aware_timestamps db campaign); [|reflexivity].
    rewrite H in Hrun. discriminate Hrun. }
  exists campaign, campaign'.
  split; [exact Hfind|]. split; [exact Hfind1|]. split.
  - intros Hsame.
    assert (Hnaive : start_time_is_aware aware_timestamps db1 campaign' = false).
    { unfold start_time_is_aware in *.
      change (ABTestCampaign.started_at campaign')
        with (ABTestCampaign.started_at campaign).
      change (ABTestCampaign.completed_at campaign')
        with (ABTestCampaign.completed_at campaign).
      rewrite Hsame. exact Hfirst. }
    rewrite Hnaive in Hsecond. destruct Hsecond as (db2 & Hsecond).
    destruct (analyze_ab_test_success_inv erf asin aware_timestamps cid now' db1 db2 _
                Hsecond)
      as (campaign2 & result2 & campaign2' & Hfind2 & Han2 & ->).
    rewrite Hfind1 in Hfind2. injection Hfind2 as <-.
    destruct (analysis_of_inv erf asin aware_timestamps db1 now' campaign' campaign2'
                result2 _ Han2)
      as (zt2 & w2 & pct2 & Hzt2 & Hw2 & _ & Heq & _ & Hwin2 & _ & Hp2 & _).
    rewrite Hzt' in Hzt2. injection Hzt2 as <-.
    rewrite Hw in Hw2. injection Hw2 as <- <-.
    eexists. exists result, result2.
    split; [exact Hsecond|].
    split.
    { cbn [db1 stored commit on_working working ab_test_results set_ab_test_campaigns
           set_ab_test_results].
      rewrite <- app_assoc. reflexivity. }
    split; [rewrite Hwin, Hwin2; reflexivity|].
    split; [rewrite Hp, Hp2; reflexivity|].
    unfold analysis_of in Han, Han2.
    rewrite Hzt, bind_ret, Hw, bind_ret in Han.
    rewrite Hzt', bind_ret, Hw, bind_ret in Han2.
    apply bind_inr in Han. destruct Han as (h1 & _ & Han).
    apply bind_inr in Han2. destruct Han2 as (h2 & _ & Han2).
    injection Han as <-. injection Han2 as <-. reflexivity.
  - intros Haware. rewrite Haware in Hsecond. exact Hsecond.
Qed.

(** X24.  The rate a metric update stores for a variant with recipients is
    the rate the next analysis reports for it: both are the quotient of the
    opens by the recipients of the committed row. *)
Theorem analysed_rate_is_the_stored_rate
    (refuses : Tables -> Tables -> option string)
    (setattr_other : string -> Z -> ABTestCampaign.t -> Py.Exc ABTestCampaign.t)
    (cid : Z) (metrics_data : list (string * Z))
    (now : datetime) (db db1 db2 : Session) (analysis : Analysis) :
  update_ab_test_metrics refuses setattr_other cid metrics_data db = (Success (), db1) ->
  analyze_ab_test erf asin aware_timestamps cid now db1 = (Success analysis, db2) ->
  exists test,
    test_by_id cid (stored db1) = Some test
    /\ (0 < ABTestCampaign.variant_a_recipients test ->
        variant_a_rate analysis = ABTestCampaign.variant_a_conversion_rate test)
    /\ (0 < ABTestCampaign.variant_b_recipients test ->
        variant_b_rate analysis = ABTestCampaign.variant_b_conversion_rate test).
Proof.
  intros Hupd Hrun.
  destruct (update_ab_test_metrics_success_inv refuses setattr_other cid metrics_data
              db db1 Hupd) as (old & assigned & Hold & Hloop & ->).
  set (test := refresh_conversion_rates assigned) in *.
  destruct (analyze_ab_test_success_inv erf asin aware_timestamps cid now _ db2 analysis
              Hrun)
    as (campaign & result & campaign' & Hfind & Han & _).
  destruct (analysis_of_inv erf asin aware_timestamps _ now campaign campaign' result
              analysis Han)
    as (zt & w & pct & Hzt & _ & _ & -> & _).
  destruct (z_test_rates erf asin campaign zt Hzt) as (Hra & Hrb & _).
  exists campaign. split; [exact Hfind|].
  assert (Hcampaign : campaign = test).
  { unfold test_by_id in Hfind, Hold.
    cbn [working session_of ab_test_campaigns set_ab_test_campaigns] in Hfind.
    rewrite (find_key_eq _ _ _ _ Hold) in Hfind.
    apply (find_in_write_row_at _ _ _ _ _ Hfind). }
  rewrite Hcampaign in *.
  destruct (refresh_conversion_rates_rates assigned) as (Ha & Hb & _).
  fold test in Ha, Hb.
  cbn [variant_a_rate variant_b_rate].
  split; intros Hpos; [rewrite Hra, Ha | rewrite Hrb, Hb]; auto.
Qed.

End Reanalysis.

(** The theorem on a test with 100 recipients per variant and no open, which
    has never been started. *)
Lemma reanalysis_reports_the_same_100 :
  let db := session_of (sample_tables 200 (sample_test RUNNING 0.5 100 0.95 100 100 0 0)) in
  let analysis := mkAnalysis 0 0 1 false (Some "inconclusive") 0 0 (0, 0)%float in
  exists db2 first second,
    analyze_ab_test erf_points asin_points with_time_zone 1 7200
      (analyze_ab_test erf_points asin_points with_time_zone 1 3600 db).2
    = (Success analysis, db2)
    /\ ab_test_results (stored db2) = ab_test_results (working db) ++ [first; second]
    /\ ABTestResult.winner_variant first = ABTestResult.winner_variant second
    /\ ABTestResult.p_value first = ABTestResult.p_value second
    /\ ABTestResult.confidence_interval first = ABTestResult.confidence_interval second.
Proof.
  intros db analysis.
  destruct (reanalysis_reports_the_same erf_points asin_points with_time_zone 1 3600 7200
              db (analyze_ab_test erf_points asin_points with_time_zone 1 3600 db).2
              analysis)
    as (before & after & Hbefore & Hafter & Hsame & _).
  - vm_compute. reflexivity.
  - apply Hsame.
    vm_compute in Hbefore. injection Hbefore as <-.
    vm_compute in Hafter. injection Hafter as <-.
    vm_compute. reflexivity.
Defined.

(** The theorem on the same test after its opens have been set to zero. *)
Lemma analysed_rate_is_the_stored_rate_100 :
  let db := session_of (sample_tables 200 (sample_test RUNNING 0.5 100 0.95 100 100 5 0)) in
  let db1 :=
    (update_ab_test_metrics accepts setattr_sample 1 [("variant_a_opened", 0)] db).2 in
  let analysis := mkAnalysis 0 0 1 false (Some "inconclusive") 0 0 (0, 0)%float in
  exists test,
    test_by_id 1 (stored db1) = Some test
    /\ (0 < ABTestCampaign.variant_a_recipients test ->
        variant_a_rate analysis = ABTestCampaign.variant_a_conversion_rate test)
    /\ (0 < ABTestCampaign.variant_b_recipients test ->
        variant_b_rate analysis = ABTestCampaign.variant_b_conversion_rate test).
Proof.
  apply (analysed_rate_is_the_stored_rate erf_points asin_points with_time_zone
           accepts setattr_sample 1
           [("variant_a_opened", 0)] 3600
           (session_of (sample_tables 200 (sample_test RUNNING 0.5 100 0.95 100 100 5 0)))
           _ (analyze_ab_test erf_points asin_points with_time_zone 1 3600
                (update_ab_test_metrics accepts setattr_sample 1 [("variant_a_opened", 0)]
                   (session_of (sample_tables 200
                      (sample_test RUNNING 0.5 100 0.95 100 100 5 0)))).2).2).
  - vm_compute. reflexivity.
  - vm_compute. reflexivity.
Defined.

(** ** Analysing a started test *)

Section StartedTest.

Variables erf asin : float -> float.
Variable aware_timestamps : Session -> ABTestCampaign.t -> bool.

(** X26.  Over a database that hands the start time of a test back with a
    time zone, the analysis of a test that has been started and not completed
    never succeeds: it returns a failure and leaves the session as it was,
    with no result row.  When the statistics themselves are computed, the
    failure is the one of the duration, the difference of a time without a
    time zone and one with. *)
Theorem started_test_analysis_fails_with_time_zone (cid : Z) (now start : datetime)
    (db : Session) (campaign : ABTestCampaign.t) :
  test_by_id cid (working db) = Some campaign ->
  ABTestCampaign.started_at campaign = Some start ->
  ABTestCampaign.completed_at campaign = None ->
  aware_timestamps db campaign = true ->
  exists error,
    analyze_ab_test erf asin aware_timestamps cid now db = (Failure error, db)
    /\ (forall zt w pct,
          z_test erf asin campaign = Py.ret zt ->
          determine_winner (zt_is_significant zt) (zt_rate_a zt) (zt_rate_b zt)
          = Py.ret (w, pct) ->
          error = Py.naive_minus_aware).
Proof.
  intros Hfind Hstart Hcompleted Haware.
  assert (Hraises : start_time_is_aware aware_timestamps db campaign = true)
    by (unfold start_time_is_aware; rewrite Hstart, Hcompleted; exact Haware).
  destruct (z_test erf asin campaign) as [e|zt] eqn:Hzt.
  - exists (if (ABTestCampaign.variant_a_recipients campaign =? 0)
               || (ABTestCampaign.variant_b_recipients campaign =? 0)
            then "Insufficient data for analysis" else Py.str e).
    split; [|intros zt w pct [=]].
    unfold analyze_ab_test. unfold test_by_id in Hfind. rewrite Hfind.
    destruct (_ || _); [reflexivity|].
    unfold analysis_of. rewrite Hzt. reflexivity.
  - destruct (determine_winner (zt_is_significant zt) (zt_rate_a zt) (zt_rate_b zt))
      as [e|[w pct]] eqn:Hw.
    + exists (Py.str e). split; [|intros zt' w pct [= <-]; rewrite Hw; discriminate].
      apply (analyze_ab_test_raises erf asin aware_timestamps cid now db campaign zt e
               Hfind Hzt Hw).
    + exists Py.naive_minus_aware. split; [|reflexivity].
      pose proof (analyze_ab_test_reports erf asin aware_timestamps cid now db campaign
                    zt w pct Hfind Hzt Hw) as H.
      rewrite Hraises in H. exact H.
Qed.

End StartedTest.

(** The theorem on the test of the 200-contact scenario, started at time 0
    and analysed an hour later over a database that hands stored times back
    with a time zone. *)
Lemma started_test_analysis_fails_with_time_zone_200 :
  exists error,
    analyze_ab_test erf_points asin_points with_time_zone 1 3600 started_session
    = (Failure error, started_session)
    /\ (forall zt w pct,
          z_test erf_points asin_points
            (started 0 100 100 scenario_draft) = Py.ret zt ->
          determine_winner (zt_is_significant zt) (zt_rate_a zt) (zt_rate_b zt)
          = Py.ret (w, pct) ->
          error = Py.naive_minus_aware).
Proof.
  apply (started_test_analysis_fails_with_time_zone erf_points asin_points
           with_time_zone 1 3600 0 started_session (started 0 100 100 scenario_draft)).
  - vm_compute. reflexivity.
  - reflexivity.
  - reflexivity.
  - vm_compute. reflexivity.
Defined.
